(** * Shop views: checkout settlement and the password-reset token lifecycle

    A shallow embedding of [shop/models.py] and of the cart, checkout and
    password-reset views of [shop/views.py], with the properties the
    specification states about them. *)

From Stdlib Require Import ZArith NArith Lia Ascii String DecimalString DecimalN.
From stdpp Require Import gmap strings list fin_maps.

#[local] Open Scope Z_scope.

(** ** [hashlib.sha1]

    The reset views store and compare [sha1(raw_token.encode()).hexdigest()].
    The digest is computed here on 32-bit words held in [Z], the wrap-around
    written out with [mod 2^32]. *)

Module Sha1.

Definition w32 (x : Z) : Z := x mod 2 ^ 32.

Definition rotl (n x : Z) : Z :=
  w32 (Z.lor (Z.shiftl x n) (Z.shiftr x (32 - n))).

Definition lnot32 (x : Z) : Z := Z.lxor x (2 ^ 32 - 1).

Definition bytes_of_string (s : string) : list Z :=
  map (fun c => Z.of_N (N_of_ascii c)) (list_ascii_of_string s).

(* the 64-bit big-endian length field, most significant byte first *)
Definition be_bytes (len : nat) (x : Z) : list Z :=
  map (fun i => Z.shiftr x (8 * Z.of_nat (len - 1 - i)) mod 256) (seq 0 len).

Definition pad (msg : list Z) : list Z :=
  let l := Z.of_nat (length msg) in
  let zeros := Z.to_nat ((55 - l) mod 64) in
  msg ++ [128] ++ repeat 0 zeros ++ be_bytes 8 (8 * l).

Fixpoint be_words (fuel : nat) (bs : list Z) : list Z :=
  match fuel, bs with
  | S fuel', b0 :: b1 :: b2 :: b3 :: rest =>
      (b0 * 2 ^ 24 + b1 * 2 ^ 16 + b2 * 2 ^ 8 + b3) :: be_words fuel' rest
  | _, _ => []
  end.

(* the message schedule, latest word first: [ws] holds w[t-1], w[t-2], ... *)
Fixpoint extend (n : nat) (ws : list Z) : list Z :=
  match n with
  | O => ws
  | S n' =>
      let x := Z.lxor (Z.lxor (nth 2 ws 0) (nth 7 ws 0))
                      (Z.lxor (nth 13 ws 0) (nth 15 ws 0)) in
      extend n' (rotl 1 x :: ws)
  end.

Definition schedule (block : list Z) : list Z := rev (extend 64 (rev block)).

Record hstate := H5 { ha : Z; hb : Z; hc : Z; hd : Z; he : Z }.

Definition round_fk (t : nat) (b c d : Z) : Z * Z :=
  if (t <? 20)%nat then (Z.lor (Z.land b c) (Z.land (lnot32 b) d), 0x5A827999)
  else if (t <? 40)%nat then (Z.lxor (Z.lxor b c) d, 0x6ED9EBA1)
  else if (t <? 60)%nat then
    (Z.lor (Z.lor (Z.land b c) (Z.land b d)) (Z.land c d), 0x8F1BBCDC)
  else (Z.lxor (Z.lxor b c) d, 0xCA62C1D6).

Fixpoint rounds (t : nat) (ws : list Z) (s : hstate) : hstate :=
  match ws with
  | [] => s
  | w :: ws' =>
      let '(f, k) := round_fk t (hb s) (hc s) (hd s) in
      let temp := w32 (rotl 5 (ha s) + f + he s + k + w) in
      rounds (S t) ws' (H5 temp (ha s) (rotl 30 (hb s)) (hc s) (hd s))
  end.

Definition compress (h : hstate) (block : list Z) : hstate :=
  let s := rounds 0 (schedule block) h in
  H5 (w32 (ha h + ha s)) (w32 (hb h + hb s)) (w32 (hc h + hc s))
     (w32 (hd h + hd s)) (w32 (he h + he s)).

Fixpoint blocks (fuel : nat) (ws : list Z) (h : hstate) : hstate :=
  match fuel with
  | O => h
  | S fuel' =>
      match ws with
      | [] => h
      | _ => blocks fuel' (drop 16 ws) (compress h (take 16 ws))
      end
  end.

Definition init : hstate :=
  H5 0x67452301 0xEFCDAB89 0x98BADCFE 0x10325476 0xC3D2E1F0.

Definition digest (msg : list Z) : hstate :=
  let bs := pad msg in
  let ws := be_words (length bs) bs in
  blocks (length ws) ws init.

Definition hex_digit (x : Z) : ascii :=
  ascii_of_N (Z.to_N (if x <? 10 then 48 + x else 87 + x)).

Definition hex_word (x : Z) : string :=
  string_of_list_ascii
    (map (fun i => hex_digit (Z.shiftr x (4 * Z.of_nat (7 - i)) mod 16)) (seq 0 8)).

Definition hexdigest (s : string) : string :=
  let h := digest (bytes_of_string s) in
  (hex_word (ha h) +:+ hex_word (hb h) +:+ hex_word (hc h)
   +:+ hex_word (hd h) +:+ hex_word (he h))%string.

End Sha1.

(** ** [decimal.Decimal]

    [DecimalField] values are Python [Decimal]s: a signed coefficient and an
    exponent, value [coef * 10^exp].  Arithmetic runs under the default
    context: 28 significant digits, [ROUND_HALF_EVEN].  (The sign of a zero
    is not kept; no equation below depends on it.) *)

Module Decimal.

Record t := Dec { coef : Z; exp : Z }.

Definition prec : Z := 28.

Fixpoint ndigits_aux (fuel : nat) (n : Z) : Z :=
  match fuel with
  | O => 0
  | S fuel' => if n <? 10 then 1 else 1 + ndigits_aux fuel' (n / 10)
  end.

(* len(str(n)) for n >= 0 *)
Definition ndigits (n : Z) : Z := ndigits_aux (S (Z.to_nat (Z.log2 n))) n.

(* Decimal._fix: round to the context precision *)
Definition fix_ (d : t) : t :=
  let a := Z.abs (coef d) in
  if a <? 10 ^ prec then d
  else
    let k := ndigits a - prec in
    let q := a / 10 ^ k in
    let r := a mod 10 ^ k in
    let q1 :=
      if 2 * r <? 10 ^ k then q
      else if 10 ^ k <? 2 * r then q + 1
      else if Z.even q then q else q + 1 in
    if q1 =? 10 ^ prec
    then Dec (Z.sgn (coef d) * 10 ^ (prec - 1)) (exp d + k + 1)
    else Dec (Z.sgn (coef d) * q1) (exp d + k).

Definition of_int (n : Z) : t := Dec n 0.

(* Decimal.__mul__ with an int operand *)
Definition mul_int (d : t) (n : Z) : t :=
  fix_ (Dec (coef d * coef (of_int n)) (exp d + exp (of_int n))).

(* Decimal.__add__ *)
Definition add (x y : t) : t :=
  let m := Z.min (exp x) (exp y) in
  fix_ (Dec (coef x * 10 ^ (exp x - m) + coef y * 10 ^ (exp y - m)) m).

(* the exact product and sum, with no context *)
Definition exact_mul_int (d : t) (n : Z) : t := Dec (coef d * n) (exp d).

(* DecimalField(max_digits=10, decimal_places=2) *)
Definition is_price (d : t) : Prop := exp d = -2 /\ Z.abs (coef d) < 10 ^ 10.

End Decimal.

(** ** Strings

    [str(product.id)] and [int(pid_str)] on the decimal strings that key the
    session cart, and [str.strip()] on ASCII white space. *)

Definition str_of_id (n : N) : string := NilZero.string_of_uint (N.to_uint n).

(* [None] stands for the ValueError of [int()] *)
Definition int_of_str (s : string) : option N :=
  match NilZero.uint_of_string s with
  | Some d => Some (N.of_uint d)
  | None => None
  end.

Arguments int_of_str : simpl never.
Arguments str_of_id : simpl never.

Definition isspace (c : ascii) : bool :=
  let n := N_of_ascii c in
  ((9 <=? n) && (n <=? 13) || (28 <=? n) && (n <=? 32))%N.

Fixpoint lstrip_list (l : list ascii) : list ascii :=
  match l with
  | c :: l' => if isspace c then lstrip_list l' else l
  | [] => []
  end.

Definition strip (s : string) : string :=
  string_of_list_ascii
    (rev (lstrip_list (rev (lstrip_list (list_ascii_of_string s))))).

(** ** The data model ([shop/models.py])

    Foreign keys are the primary key of the row they point to.  Timestamps
    are microseconds on the clock of [timezone.now()]. *)

Record Product := mkProduct {
  product_store : N;
  product_name : string;
  product_description : string;
  product_price : Decimal.t;
  product_stock_qty : Z;
  product_is_active : bool
}.

Record Order := mkOrder {
  order_id : N;
  order_buyer : N;
  order_created_at : Z
}.

Record OrderItem := mkOrderItem {
  item_order : N;
  item_product : N;
  item_store : N;
  item_quantity : Z;
  item_unit_price : Decimal.t
}.

(* OrderItem.line_total *)
Definition line_total (self : OrderItem) : Decimal.t :=
  Decimal.mul_int (item_unit_price self) (item_quantity self).

(* django.contrib.auth's User: [user_password] is the credential that
   set_password installs; [user_groups] the names of the user's groups. *)
Record User := mkUser {
  user_username : string;
  user_email : string;
  user_password : string;
  user_groups : list string
}.

Record ResetToken := mkResetToken {
  rt_user : N;
  rt_token_hash : string;
  rt_expiry_date : Z;
  rt_used : bool
}.

(* ResetToken.is_expired, with the value of timezone.now() *)
Definition is_expired (now : Z) (self : ResetToken) : bool :=
  rt_expiry_date self <? now.

(** The record store.  Product and User rows are keyed by primary key;
    [token_hash] is declared [unique=True], so the ResetToken table is a
    finite map from it (delete() and save() address the row that a lookup by
    hash returned).  Orders and order items are kept in creation order. *)
Record Db := mkDb {
  products : gmap N Product;
  users : gmap N User;
  next_order_id : N;
  orders : list Order;
  order_items : list OrderItem;
  reset_tokens : gmap string ResetToken
}.

Definition set_products (ps : gmap N Product) (d : Db) : Db :=
  mkDb ps (users d) (next_order_id d) (orders d) (order_items d) (reset_tokens d).

Definition set_users (us : gmap N User) (d : Db) : Db :=
  mkDb (products d) us (next_order_id d) (orders d) (order_items d) (reset_tokens d).

Definition set_reset_tokens (ts : gmap string ResetToken) (d : Db) : Db :=
  mkDb (products d) (users d) (next_order_id d) (orders d) (order_items d) ts.

(** The session: a cart dict (insertion ordered, as Python dicts and their
    JSON serialisation are) and the reset binding. *)
Record Session := mkSession {
  session_cart : option (list (string * Z));
  reset_user_id : option N;
  reset_token_hash : option string
}.

Record InvoiceLine := mkInvoiceLine {
  il_product : N;
  il_store : N;
  il_quantity : Z;
  il_unit_price : Decimal.t;
  il_line_total : Decimal.t
}.

(** What is handed to [EmailMessage(...).send(fail_silently=True)].  The
    invoice body is kept structured: one entry per line, and the total. *)
Inductive Email :=
| InvoiceMail (to : string) (order : N) (username : string)
    (lines : list InvoiceLine) (total : Decimal.t)
| ResetMail (to : string) (username : string) (raw_token : string).

Record World := mkWorld {
  db : Db;
  session : Session;
  outbox : list Email
}.

Definition set_db (d : Db) (w : World) : World := mkWorld d (session w) (outbox w).
Definition set_session (s : Session) (w : World) : World := mkWorld (db w) s (outbox w).
Definition send (m : Email) (w : World) : World :=
  mkWorld (db w) (session w) (outbox w ++ [m]).

Inductive Method := GET | POST | HEAD.

(** A request: its method, the id that the auth middleware found in the
    session (if any), and the POST fields. *)
Record Request := mkRequest {
  req_method : Method;
  req_user_id : option N;
  req_post : gmap string string
}.

Definition post_get (request : Request) (key default : string) : string :=
  match req_post request !! key with
  | Some v => v
  | None => default
  end.

(* the template context, one field per key the views pass *)
Record Context := mkContext {
  ctx_error : option string;
  ctx_message : option string;
  ctx_valid : option bool;
  ctx_order : option Order;
  ctx_items : option (list OrderItem);
  ctx_total : option Z
}.

Definition ctx_empty : Context := mkContext None None None None None None.

Inductive Exn := Http404 | ValueError | MultipleObjectsReturned | IntegrityError.

Inductive Response :=
| Redirect (to : string)
| HttpResponseForbidden (content : string)
| Render (template : string) (context : Context)
| Raised (e : Exn).

(** ** Queries *)

Inductive GetResult (A : Type) :=
| DoesNotExist
| Got (a : A)
| Multiple.
Arguments DoesNotExist {A}.
Arguments Got {A} a.
Arguments Multiple {A}.

(* Model.objects.get over the rows that a filter selected *)
Definition objects_get {A} (rows : list A) : GetResult A :=
  match rows with
  | [] => DoesNotExist
  | [a] => Got a
  | _ => Multiple
  end.

(* User.objects.get(email=email) *)
Definition users_with_email (email : string) (us : gmap N User) : list (N * User) :=
  filter (fun r => user_email r.2 = email) (map_to_list us).

(* Product lookup by id with is_active=True; [None] is the Http404 of
   get_object_or_404 *)
Definition get_active_product (ps : gmap N Product) (id : N) : option Product :=
  match ps !! id with
  | Some p => if product_is_active p then Some p else None
  | None => None
  end.

(* ResetToken lookup by token_hash with used=False *)
Definition get_unused_token (ts : gmap string ResetToken) (h : string) : option ResetToken :=
  match ts !! h with
  | Some rt => if rt_used rt then None else Some rt
  | None => None
  end.

(* _is_buyer, for an authenticated user *)
Definition _is_buyer (u : User) : bool := bool_decide ("Buyers"%string ∈ user_groups u).

(* request.user: the row of the session's user id, if it still exists *)
Definition request_user (d : Db) (request : Request) : option (N * User) :=
  match req_user_id request with
  | Some uid =>
      match users d !! uid with
      | Some u => Some (uid, u)
      | None => None
      end
  | None => None
  end.

(** ** The cart ([cart_add], [cart_remove]) *)

Fixpoint dict_get (key : string) (d : list (string * Z)) : option Z :=
  match d with
  | [] => None
  | (k, v) :: d' => if decide (k = key) then Some v else dict_get key d'
  end.

(* d[key] = v: an existing key keeps its place, a new key goes last *)
Fixpoint dict_set (key : string) (v : Z) (d : list (string * Z)) : list (string * Z) :=
  match d with
  | [] => [(key, v)]
  | (k, v0) :: d' =>
      if decide (k = key) then (k, v) :: d' else (k, v0) :: dict_set key v d'
  end.

(* d.pop(key), for a key that may be absent *)
Fixpoint dict_pop (key : string) (d : list (string * Z)) : list (string * Z) :=
  match d with
  | [] => []
  | (k, v) :: d' => if decide (k = key) then d' else (k, v) :: dict_pop key d'
  end.

Definition _get_cart (s : Session) : list (string * Z) :=
  match session_cart s with
  | Some c => c
  | None => []
  end.

Definition _save_cart (s : Session) (cart : list (string * Z)) : Session :=
  mkSession (Some cart) (reset_user_id s) (reset_token_hash s).

Definition cart_add (request : Request) (product_id : N) (w : World) : Response * World :=
  match get_active_product (products (db w)) product_id with
  | None => (Raised Http404, w)
  | Some product =>
      let cart := _get_cart (session w) in
      let key := str_of_id product_id in
      let cart := dict_set key (default 0 (dict_get key cart) + 1) cart in
      (Redirect "cart", set_session (_save_cart (session w) cart) w)
  end.

Definition cart_remove (request : Request) (product_id : N) (w : World) : Response * World :=
  let cart := _get_cart (session w) in
  let key := str_of_id product_id in
  match dict_get key cart with
  | Some _ => (Redirect "cart", set_session (_save_cart (session w) (dict_pop key cart)) w)
  | None => (Redirect "cart", w)
  end.

(** ** Checkout *)

(* Order.objects.create(buyer=...) with created_at = now *)
Definition create_order (buyer : N) (now : Z) (d : Db) : Order * Db :=
  let order := mkOrder (next_order_id d) buyer now in
  (order,
   mkDb (products d) (users d) (N.succ (next_order_id d)) (orders d ++ [order])
        (order_items d) (reset_tokens d)).

(* product.stock_qty -= qty *)
Definition decrement_stock (product : Product) (qty : Z) : Product :=
  mkProduct (product_store product) (product_name product)
    (product_description product) (product_price product)
    (product_stock_qty product - qty) (product_is_active product).

(* product.save() *)
Definition save_product (id : N) (product : Product) (d : Db) : Db :=
  set_products (<[id := product]> (products d)) d.

(* OrderItem.objects.create(...) *)
Definition create_order_item (item : OrderItem) (d : Db) : Db :=
  mkDb (products d) (users d) (next_order_id d) (orders d)
       (order_items d ++ [item]) (reset_tokens d).

Definition not_enough_stock (product : Product) : Response :=
  Render "shop/cart.html"
    (mkContext (Some ("Not enough stock for " +:+ product_name product +:+ "."))
       None None None None None).

(** The loop over [cart.items()].  The result is the database as the loop
    left it and either the response or exception that ended the loop early,
    or the items it created. *)
Fixpoint checkout_lines (order : Order) (entries : list (string * Z))
    (d : Db) (lines : list OrderItem) : Db * (Response + list OrderItem) :=
  match entries with
  | [] => (d, inr lines)
  | (pid_str, qty) :: rest =>
      match int_of_str pid_str with
      | None => (d, inl (Raised ValueError))
      | Some id =>
          match get_active_product (products d) id with
          | None => (d, inl (Raised Http404))
          | Some product =>
              if product_stock_qty product <? qty
              then (d, inl (not_enough_stock product))
              else
                let product := decrement_stock product qty in
                let d := save_product id product d in
                let item :=
                  mkOrderItem (order_id order) id (product_store product) qty
                    (product_price product) in
                let d := create_order_item item d in
                checkout_lines order rest d (lines ++ [item])
          end
      end
  end.

Definition invoice_line (item : OrderItem) : InvoiceLine :=
  mkInvoiceLine (item_product item) (item_store item) (item_quantity item)
    (item_unit_price item) (line_total item).

(* grand_total = 0; for item in lines: grand_total += item.line_total() *)
Definition grand_total (lines : list OrderItem) : Decimal.t :=
  fold_left (fun total item => Decimal.add total (line_total item)) lines
    (Decimal.of_int 0).

Definition invoice (order : Order) (user : User) (lines : list OrderItem) : Email :=
  InvoiceMail (user_email user) (order_id order) (user_username user)
    (map invoice_line lines) (grand_total lines).

(** [atomic_requests] is the ATOMIC_REQUESTS setting of the database: when
    set, an exception leaving the view rolls the request's writes back; a
    returned response commits them either way. *)
Definition checkout (atomic_requests : bool) (now : Z) (request : Request)
    (w : World) : Response * World :=
  match request_user (db w) request with
  | None => (Redirect "/login/", w)
  | Some (uid, user) =>
      if negb (_is_buyer user) then (HttpResponseForbidden "Buyers only.", w)
      else
        match _get_cart (session w) with
        | [] =>
            (Render "shop/cart.html"
               (mkContext (Some "Cart is empty."%string) None None None (Some []) (Some 0)),
             w)
        | cart =>
            let '(order, d) := create_order uid now (db w) in
            match checkout_lines order cart d [] with
            | (d, inl (Raised e)) =>
                (Raised e, if atomic_requests then w else set_db d w)
            | (d, inl response) => (response, set_db d w)
            | (d, inr lines) =>
                let w := set_db d w in
                let w := set_session (_save_cart (session w) []) w in
                let w :=
                  if decide (user_email user = ""%string) then w
                  else send (invoice order user lines) w in
                (Render "shop/checkout_success.html"
                   (mkContext None None None (Some order) (Some lines) None),
                 w)
            end
        end
  end.

(** ** Password reset (token + expiry) *)

(* timedelta(minutes=10) *)
Definition ten_minutes : Z := 600000000.

Definition render_forgot (error message : option string) : Response :=
  Render "shop/forgot_password.html" (mkContext error message None None None None).

Definition render_reset (error : option string) (valid : bool) : Response :=
  Render "shop/reset_password.html" (mkContext error None (Some valid) None None None).

(** [raw_token] is the value drawn by [secrets.token_urlsafe(16)]. *)
Definition forgot_password (raw_token : string) (now : Z) (request : Request)
    (w : World) : Response * World :=
  match req_method request with
  | GET => (render_forgot None None, w)
  | _ =>
      let email := strip (post_get request "email" "") in
      if decide (email = ""%string) then
        (render_forgot (Some "Email required."%string) None, w)
      else
        match objects_get (users_with_email email (users (db w))) with
        | DoesNotExist =>
            (render_forgot (Some "No user with that email."%string) None, w)
        | Multiple => (Raised MultipleObjectsReturned, w)
        | Got (uid, user) =>
            let token_hash := Sha1.hexdigest raw_token in
            let expiry := now + ten_minutes in
            match reset_tokens (db w) !! token_hash with
            | Some _ => (Raised IntegrityError, w)
            | None =>
                let rt := mkResetToken uid token_hash expiry false in
                let w :=
                  set_db (set_reset_tokens (<[token_hash := rt]> (reset_tokens (db w))) (db w)) w in
                let w := send (ResetMail (user_email user) (user_username user) raw_token) w in
                (render_forgot None
                   (Some "Reset email sent (check console output)."%string), w)
            end
        end
  end.

(* rt.delete(), for the row that the lookup by [token_hash] returned *)
Definition delete_token (token_hash : string) (d : Db) : Db :=
  set_reset_tokens (delete token_hash (reset_tokens d)) d.

(* rt.save(), for the row that the lookup by [token_hash] returned *)
Definition save_token (token_hash : string) (rt : ResetToken) (d : Db) : Db :=
  set_reset_tokens (<[token_hash := rt]> (reset_tokens d)) d.

Definition reset_password_page (now : Z) (request : Request) (token : string)
    (w : World) : Response * World :=
  let token_hash := Sha1.hexdigest token in
  match get_unused_token (reset_tokens (db w)) token_hash with
  | None => (render_reset (Some "Token invalid or expired."%string) false, w)
  | Some rt =>
      if is_expired now rt then
        (render_reset (Some "Token invalid or expired."%string) false,
         set_db (delete_token token_hash (db w)) w)
      else
        let s := mkSession (session_cart (session w)) (Some (rt_user rt)) (Some token_hash) in
        (render_reset None true, set_session s w)
  end.

(* user.set_password(password); user.save() *)
Definition set_password (uid : N) (user : User) (password : string) (d : Db) : Db :=
  set_users
    (<[uid := mkUser (user_username user) (user_email user) password (user_groups user)]>
       (users d)) d.

Definition mark_used (rt : ResetToken) : ResetToken :=
  mkResetToken (rt_user rt) (rt_token_hash rt) (rt_expiry_date rt) true.

(* get_object_or_404(User, id=user_id), where user_id may be None *)
Definition get_user (d : Db) (user_id : option N) : option (N * User) :=
  match user_id with
  | Some uid =>
      match users d !! uid with
      | Some user => Some (uid, user)
      | None => None
      end
  | None => None
  end.

(* get_object_or_404(ResetToken, token_hash=token_hash, used=False), where
   token_hash may be None; the row comes with the hash it was found under *)
Definition get_bound_token (d : Db) (token_hash : option string)
    : option (string * ResetToken) :=
  match token_hash with
  | Some h =>
      match get_unused_token (reset_tokens d) h with
      | Some rt => Some (h, rt)
      | None => None
      end
  | None => None
  end.

Definition reset_password_confirm (now : Z) (request : Request) (w : World)
    : Response * World :=
  match req_method request with
  | POST =>
      let user_id := reset_user_id (session w) in
      let token_hash := reset_token_hash (session w) in
      let password := post_get request "password" "" in
      let password_conf := post_get request "password_conf" "" in
      if decide (password = ""%string \/ password <> password_conf) then
        (render_reset (Some "Passwords do not match."%string) true, w)
      else
        match get_user (db w) user_id with
        | None => (Raised Http404, w)
        | Some (uid, user) =>
            match get_bound_token (db w) token_hash with
            | None => (Raised Http404, w)
            | Some (h, rt) =>
                if is_expired now rt then
                  (render_reset (Some "Token expired."%string) false,
                   set_db (delete_token h (db w)) w)
                else
                  let d := set_password uid user password (db w) in
                  let d := save_token h (mark_used rt) d in
                  let s := mkSession (session_cart (session w)) None None in
                  (Redirect "login", mkWorld d s (outbox w))
            end
        end
  | _ => (Redirect "login", w)
  end.

(** ** Concurrent requests

    Each request is served by its own worker against the shared Product
    table.  For one cart line the loop body of [checkout] touches the table
    twice: the SELECT of [get_object_or_404] and the UPDATE of
    [product.save()], which writes the stock computed from the row read
    earlier.  A schedule names the worker that performs its next database
    operation. *)

Module Interleaving.

Inductive Pc :=
| Start
| Loaded (product : Product)
| Reserved
| Rejected
| NotFound.

Record Worker := mkWorker {
  wk_product_id : N;
  wk_qty : Z;
  wk_pc : Pc
}.

Definition at_pc (wk : Worker) (pc : Pc) : Worker :=
  mkWorker (wk_product_id wk) (wk_qty wk) pc.

Definition step (ps : gmap N Product) (wk : Worker) : gmap N Product * Worker :=
  match wk_pc wk with
  | Start =>
      match get_active_product ps (wk_product_id wk) with
      | None => (ps, at_pc wk NotFound)
      | Some product => (ps, at_pc wk (Loaded product))
      end
  | Loaded product =>
      if product_stock_qty product <? wk_qty wk then (ps, at_pc wk Rejected)
      else
        (<[wk_product_id wk := decrement_stock product (wk_qty wk)]> ps,
         at_pc wk Reserved)
  | _ => (ps, wk)
  end.

Fixpoint run (schedule : list nat) (ps : gmap N Product) (wks : list Worker)
    : gmap N Product * list Worker :=
  match schedule with
  | [] => (ps, wks)
  | i :: schedule' =>
      match wks !! i with
      | None => run schedule' ps wks
      | Some wk =>
          let '(ps', wk') := step ps wk in
          run schedule' ps' (<[i := wk']> wks)
      end
  end.

(* the row that a worker holds, if any, has a non-negative stock *)
Definition holds_nonneg (wk : Worker) : Prop :=
  match wk_pc wk with
  | Loaded p => 0 ≤ product_stock_qty p
  | _ => True
  end.

Definition reserved (wk : Worker) : bool :=
  match wk_pc wk with
  | Reserved => true
  | _ => false
  end.

(* how many of the workers got their reservation *)
Definition succeeded (wks : list Worker) : nat :=
  length (filter (fun wk => reserved wk = true) wks).

End Interleaving.

(** ** Sequences of requests

    One request to one of the views, with the clock and the random draw it
    sees; a trace performs them in turn on the world. *)

Inductive Op :=
| OpCartAdd (product_id : N)
| OpCartRemove (product_id : N)
| OpCheckout (atomic_requests : bool)
| OpForgotPassword (raw_token : string)
| OpResetPage (token : string)
| OpResetConfirm.

Definition perform (op : Op) (now : Z) (request : Request) (w : World)
    : Response * World :=
  match op with
  | OpCartAdd id => cart_add request id w
  | OpCartRemove id => cart_remove request id w
  | OpCheckout atomic_requests => checkout atomic_requests now request w
  | OpForgotPassword raw_token => forgot_password raw_token now request w
  | OpResetPage token => reset_password_page now request token w
  | OpResetConfirm => reset_password_confirm now request w
  end.

Fixpoint run_trace (trace : list (Op * Z * Request)) (w : World) : World :=
  match trace with
  | [] => w
  | (op, now, request) :: trace' => run_trace trace' (perform op now request w).2
  end.

(** ** Terms of the specification *)

(* the response of a completed checkout *)
Definition is_success (response : Response) : bool :=
  match response with
  | Render template _ => bool_decide (template = "shop/checkout_success.html"%string)
  | _ => false
  end.

Definition is_exception (response : Response) : bool :=
  match response with
  | Raised _ => true
  | _ => false
  end.

(* a cart line fails against the database [d]: its key is no product id,
   the product is missing or inactive, or its stock is below the quantity *)
Definition line_fails (d : Db) (entry : string * Z) : Prop :=
  match int_of_str entry.1 with
  | None => True
  | Some id =>
      match get_active_product (products d) id with
      | None => True
      | Some product => product_stock_qty product < entry.2
      end
  end.

(* the quantity that the lines [entries] request of product [id] *)
Fixpoint requested_qty (id : N) (entries : list (string * Z)) : Z :=
  match entries with
  | [] => 0
  | (key, qty) :: rest =>
      if decide (int_of_str key = Some id) then qty + requested_qty id rest
      else requested_qty id rest
  end.

(* the product ids of the cart's lines, in the order of the dict *)
Definition cart_ids (cart : list (string * Z)) : list (option N) :=
  map (fun entry => int_of_str entry.1) cart.

(* Product.stock_qty is never negative *)
Definition stock_nonneg (ps : gmap N Product) : Prop :=
  map_Forall (fun _ p => 0 ≤ product_stock_qty p) ps.

(* every product's price is a DecimalField(max_digits=10, decimal_places=2)
   value *)
Definition prices_valid (d : Db) : Prop :=
  map_Forall (fun _ p => Decimal.is_price (product_price p)) (products d).

(* the number of units in the cart *)
Definition cart_quantity (cart : list (string * Z)) : Z :=
  foldr (fun entry acc => Z.abs entry.2 + acc) 0 cart.

(* the sum of the absolute line amounts, in cents *)
Definition amount (lines : list OrderItem) : Z :=
  foldr (fun item acc =>
           Z.abs (Decimal.coef (item_unit_price item) * item_quantity item) + acc)
    0 lines.

(* the exact sum of amounts that carry two fractional digits *)
Definition sum_cents (amounts : list Decimal.t) : Decimal.t :=
  Decimal.Dec (foldr (fun amount acc => Decimal.coef amount + acc) 0 amounts) (-2).

(* a token of user [uid] that is live at [now]: unused and unexpired *)
Definition live (now : Z) (uid : N) (rt : ResetToken) : Prop :=
  rt_user rt = uid ∧ rt_used rt = false ∧ is_expired now rt = false.

#[global] Instance live_dec now uid rt : Decision (live now uid rt).
Proof. unfold live. apply _. Defined.







(** ** Sample data *)

Module Sample.

Definition alice : User :=
  mkUser "alice" "alice@example.com" "old-secret" ["Buyers"%string].
Definition vera : User :=
  mkUser "vera" "vera@example.com" "vendor-secret" ["Vendors"%string].

Definition tea : Product := mkProduct 1 "Tea" "" (Decimal.Dec 999 (-2)) 3 true.
Definition mug : Product := mkProduct 1 "Mug" "" (Decimal.Dec 450 (-2)) 0 true.
Definition pot : Product := mkProduct 1 "Pot" "" (Decimal.Dec 1200 (-2)) 4 true.

Definition db0 : Db :=
  mkDb (<[1%N := tea]> (<[2%N := mug]> (<[3%N := pot]> ∅)))
       (<[1%N := alice]> (<[2%N := vera]> ∅))
       1 [] [] ∅.

Definition session0 : Session := mkSession None None None.

Definition world0 : World := mkWorld db0 session0 [].

(* a request of alice's, logged in *)
Definition as_alice (m : Method) (post : gmap string string) : Request :=
  mkRequest m (Some 1%N) post.

Definition anonymous (m : Method) (post : gmap string string) : Request :=
  mkRequest m None post.

Definition with_cart (cart : list (string * Z)) (w : World) : World :=
  set_session (_save_cart (session w) cart) w.

(* two units of tea, then one mug, of which there is none *)
Definition tea_then_mug : list (string * Z) := [("1"%string, 2); ("2"%string, 1)].

Definition tea_item : OrderItem := mkOrderItem 1 1 1 2 (Decimal.Dec 999 (-2)).

Definition email_form (email : string) : gmap string string :=
  {["email"%string := email]}.

Definition password_form (password password_conf : string) : gmap string string :=
  <["password"%string := password]> {["password_conf"%string := password_conf]}.

(* alice asks for a reset link at time 0; the link carries "r4nd0m" *)
Definition issued : World :=
  (forgot_password "r4nd0m" 0 (anonymous POST (email_form "alice@example.com")) world0).2.

(* she follows the link at time [t] *)
Definition opened (t : Z) : World :=
  (reset_password_page t (anonymous GET ∅) "r4nd0m" issued).2.

(* she sets a new password one second after following the link *)
Definition redeemed : World :=
  (reset_password_confirm 1000000 (anonymous POST (password_form "new" "new"))
     (opened 0)).2.





(* two buyers each check out two units of tea, of which there are three *)
Definition two_buyers : list Interleaving.Worker :=
  [Interleaving.mkWorker 1 2 Interleaving.Start;
   Interleaving.mkWorker 1 2 Interleaving.Start].

(* the pot is put in the cart first, the tea second *)
Definition pot_then_tea : World :=
  (cart_add (as_alice GET ∅) 1 (cart_add (as_alice GET ∅) 3 world0).2).2.

End Sample.

(** ** Invariants of the record store and of the cart *)

(* the Order table hands out each id once: every row's id is below the
   counter, and no two rows share an id *)
Definition orders_wf (d : Db) : Prop :=
  Forall (fun o => (order_id o < next_order_id d)%N) (orders d) ∧
  NoDup (order_id <$> orders d).

(* every OrderItem points to an Order row *)
Definition items_have_orders (d : Db) : Prop :=
  Forall (fun item => item_order item ∈ (order_id <$> orders d)) (order_items d).

(* a cart as cart_add builds it: one entry per key, every key the decimal
   string of a product id, every quantity at least 1 *)
Definition cart_wf (cart : list (string * Z)) : Prop :=
  NoDup (cart.*1) ∧
  Forall (fun entry => (∃ id, entry.1 = str_of_id id) ∧ 1 ≤ entry.2) cart.

(* every ResetToken row is stored under its own token_hash and belongs to a
   user row *)
Definition tokens_wf (d : Db) : Prop :=
  map_Forall (fun h rt => rt_token_hash rt = h ∧ is_Some (users d !! rt_user rt))
    (reset_tokens d).

(** ** Stores and reviews ([shop/models.py], the vendor views, [review_add])

    The site is the world of the views above together with the Store and
    Review tables.  [on_delete] is as the models declare it: deleting a
    store deletes its products (CASCADE) and, with a product, its reviews
    (CASCADE); an OrderItem protects both its product and its store
    (PROTECT). *)

Record Store := mkStore {
  store_name : string;
  store_owner : N;
  store_created_at : Z
}.

Record Review := mkReview {
  review_product : N;
  review_buyer : N;
  review_rating : Z;
  review_comment : string;
  review_verified : bool;
  review_created_at : Z
}.

Record Site := mkSite {
  site_world : World;
  stores : gmap N Store;
  next_store_id : N;
  reviews : list Review
}.

Definition set_world (w : World) (s : Site) : Site :=
  mkSite w (stores s) (next_store_id s) (reviews s).

Definition site_db (s : Site) : Db := db (site_world s).

Inductive SiteResponse :=
| Plain (response : Response)
| RedirectProductDetail (product_id : N)
| StoreForm (mode : string) (store : option Store) (error : option string)
| RaisedProtectedError.

(* _is_vendor, for an authenticated user *)
Definition _is_vendor (u : User) : bool := bool_decide ("Vendors"%string ∈ user_groups u).

(* @login_required and the "Vendors only." check that open every vendor
   view: the vendor's id, or the response that turns the request away *)
Definition vendor_only (request : Request) (s : Site) : SiteResponse + N :=
  match request_user (site_db s) request with
  | None => inl (Plain (Redirect "/login/"))
  | Some (uid, user) =>
      if _is_vendor user then inr uid
      else inl (Plain (HttpResponseForbidden "Vendors only."))
  end.

(* get_object_or_404(Store, id=store_id, owner=request.user) *)
Definition get_owned_store (s : Site) (store_id uid : N) : option Store :=
  match stores s !! store_id with
  | Some store => if decide (store_owner store = uid) then Some store else None
  | None => None
  end.

(* get_object_or_404(Product, id=product_id, store__owner=request.user) *)
Definition get_owned_product (s : Site) (product_id uid : N) : option Product :=
  match products (site_db s) !! product_id with
  | Some product =>
      match stores s !! product_store product with
      | Some store => if decide (store_owner store = uid) then Some product else None
      | None => None
      end
  | None => None
  end.

Definition store_create (now : Z) (request : Request) (s : Site) : SiteResponse * Site :=
  match vendor_only request s with
  | inl response => (response, s)
  | inr uid =>
      match req_method request with
      | GET => (StoreForm "create" None None, s)
      | _ =>
          let name := strip (post_get request "name" "") in
          if decide (name = ""%string) then
            (StoreForm "create" None (Some "Store name required."%string), s)
          else
            (Plain (Redirect "vendor_dashboard"),
             mkSite (site_world s)
               (<[next_store_id s := mkStore name uid now]> (stores s))
               (N.succ (next_store_id s)) (reviews s))
      end
  end.

Definition store_edit (request : Request) (store_id : N) (s : Site) : SiteResponse * Site :=
  match vendor_only request s with
  | inl response => (response, s)
  | inr uid =>
      match get_owned_store s store_id uid with
      | None => (Plain (Raised Http404), s)
      | Some store =>
          match req_method request with
          | GET => (StoreForm "edit" (Some store) None, s)
          | _ =>
              let name := strip (post_get request "name" "") in
              if decide (name = ""%string) then
                (StoreForm "edit" (Some store) (Some "Name required."%string), s)
              else
                (Plain (Redirect "vendor_dashboard"),
                 mkSite (site_world s)
                   (<[store_id := mkStore name (store_owner store) (store_created_at store)]>
                      (stores s))
                   (next_store_id s) (reviews s))
          end
      end
  end.

(* the product row [id], if any, belongs to store [store_id] *)
Definition in_store (ps : gmap N Product) (store_id id : N) : bool :=
  match ps !! id with
  | Some p => bool_decide (product_store p = store_id)
  | None => false
  end.

(* some OrderItem protects the store or one of its products *)
Definition store_protected (d : Db) (store_id : N) : bool :=
  existsb
    (fun item =>
       bool_decide (item_store item = store_id)
       || in_store (products d) store_id (item_product item))
    (order_items d).

(* some OrderItem protects the product *)
Definition product_protected (d : Db) (product_id : N) : bool :=
  existsb (fun item => bool_decide (item_product item = product_id)) (order_items d).

(* store.delete(), once no row is protected: the store, its products and
   their reviews go *)
Definition delete_store (store_id : N) (s : Site) : Site :=
  let ps := products (site_db s) in
  mkSite
    (set_db
       (set_products (filter (fun row => product_store row.2 ≠ store_id) ps) (site_db s))
       (site_world s))
    (delete store_id (stores s))
    (next_store_id s)
    (filter (fun r => in_store ps store_id (review_product r) = false) (reviews s)).

(* product.delete(), once no row is protected: the product and its reviews go *)
Definition delete_product (product_id : N) (s : Site) : Site :=
  mkSite
    (set_db (set_products (delete product_id (products (site_db s))) (site_db s))
       (site_world s))
    (stores s)
    (next_store_id s)
    (filter (fun r => review_product r ≠ product_id) (reviews s)).

Definition store_delete (request : Request) (store_id : N) (s : Site) : SiteResponse * Site :=
  match vendor_only request s with
  | inl response => (response, s)
  | inr uid =>
      match get_owned_store s store_id uid with
      | None => (Plain (Raised Http404), s)
      | Some store =>
          if store_protected (site_db s) store_id then (RaisedProtectedError, s)
          else (Plain (Redirect "vendor_dashboard"), delete_store store_id s)
      end
  end.

Definition product_delete (request : Request) (product_id : N) (s : Site)
    : SiteResponse * Site :=
  match vendor_only request s with
  | inl response => (response, s)
  | inr uid =>
      match get_owned_product s product_id uid with
      | None => (Plain (Raised Http404), s)
      | Some product =>
          if product_protected (site_db s) product_id then (RaisedProtectedError, s)
          else (Plain (Redirect "vendor_dashboard"), delete_product product_id s)
      end
  end.

(* OrderItem.objects.filter(order__buyer=user, product=product).exists() *)
Definition has_bought (d : Db) (uid product_id : N) : bool :=
  existsb
    (fun item =>
       bool_decide (item_product item = product_id)
       && existsb
            (fun o => bool_decide (order_id o = item_order item)
                      && bool_decide (order_buyer o = uid))
            (orders d))
    (order_items d).

(** [parse_int] is the built-in [int] on the posted rating: [None] is its
    ValueError. *)
Definition review_add (parse_int : string → option Z) (now : Z) (request : Request)
    (product_id : N) (s : Site) : SiteResponse * Site :=
  match request_user (site_db s) request with
  | None => (Plain (Redirect "/login/"), s)
  | Some (uid, user) =>
      if negb (_is_buyer user) then (Plain (HttpResponseForbidden "Buyers only."), s)
      else
        match get_active_product (products (site_db s)) product_id with
        | None => (Plain (Raised Http404), s)
        | Some product =>
            match req_method request with
            | POST =>
                match parse_int (post_get request "rating" "5") with
                | None => (Plain (Raised ValueError), s)
                | Some rating =>
                    let comment := strip (post_get request "comment" "") in
                    let review :=
                      mkReview product_id uid (Z.max 1 (Z.min 5 rating)) comment
                        (has_bought (site_db s) uid product_id) now in
                    (RedirectProductDetail product_id,
                     mkSite (site_world s) (stores s) (next_store_id s)
                       (reviews s ++ [review]))
                end
            | _ => (RedirectProductDetail product_id, s)
            end
        end
  end.

(** Requests to the site: those of the views above, which act on its world,
    and those of the vendor and review views. *)
Inductive SiteOp :=
| OpWorld (op : Op)
| OpStoreCreate
| OpStoreEdit (store_id : N)
| OpStoreDelete (store_id : N)
| OpProductDelete (product_id : N)
| OpReviewAdd (product_id : N).

Definition site_perform (parse_int : string → option Z) (op : SiteOp) (now : Z)
    (request : Request) (s : Site) : Site :=
  match op with
  | OpWorld op => set_world (perform op now request (site_world s)).2 s
  | OpStoreCreate => (store_create now request s).2
  | OpStoreEdit id => (store_edit request id s).2
  | OpStoreDelete id => (store_delete request id s).2
  | OpProductDelete id => (product_delete request id s).2
  | OpReviewAdd id => (review_add parse_int now request id s).2
  end.

Fixpoint site_run (parse_int : string → option Z) (trace : list (SiteOp * Z * Request))
    (s : Site) : Site :=
  match trace with
  | [] => s
  | (op, now, request) :: trace' =>
      site_run parse_int trace' (site_perform parse_int op now request s)
  end.

(* every OrderItem's product and store rows exist, and every product's
   store row exists *)
Definition history_intact (s : Site) : Prop :=
  Forall (fun item =>
            is_Some (products (site_db s) !! item_product item) ∧
            is_Some (stores s !! item_store item))
    (order_items (site_db s)) ∧
  map_Forall (fun _ p => is_Some (stores s !! product_store p)) (products (site_db s)).

(* every review's rating is one of 1..5 *)
Definition ratings_valid (s : Site) : Prop :=
  Forall (fun r => 1 ≤ review_rating r ≤ 5) (reviews s).

(** ** URL dispatch ([shop/urls.py])

    [urlpatterns] is tried from the top, and the first route that matches
    the whole path wins.  A path is the request path without its leading
    slash; routes and paths are compared segment by segment, a segment
    being what stands between two slashes.  A route segment is a literal,
    [<int:...>], which matches one or more digits, or [<str:...>], which
    matches any segment that is not empty. *)

Inductive Segment :=
| Lit (s : string)
| IntConv
| StrConv.

Inductive View :=
| ViewHome
| ViewRegister
| ViewLogin
| ViewLogout
| ViewVendorDashboard
| ViewStoreCreate
| ViewStoreEdit
| ViewStoreDelete
| ViewProductCreate
| ViewProductEdit
| ViewProductDelete
| ViewProductList
| ViewProductDetail
| ViewCart
| ViewCartAdd
| ViewCartRemove
| ViewCheckout
| ViewReviewAdd
| ViewForgotPassword
| ViewResetPasswordPage
| ViewResetPasswordConfirm.

#[global] Instance View_eq_dec : EqDecision View.
Proof. solve_decision. Defined.

(* s.split("/") *)
Fixpoint split_path (path : string) : list string :=
  match path with
  | EmptyString => [EmptyString]
  | String c rest =>
      if Ascii.eqb c "/" then EmptyString :: split_path rest
      else
        match split_path rest with
        | seg :: segs => String c seg :: segs
        | [] => [String c EmptyString]
        end
  end.

Definition segment_of (s : string) : Segment :=
  if String.prefix "<int:" s then IntConv
  else if String.prefix "<str:" s then StrConv
  else Lit s.

(* path(route, view) *)
Definition path_ (route : string) (view : View) : list Segment * View :=
  (map segment_of (split_path route), view).

Definition urlpatterns : list (list Segment * View) :=
  [ path_ "" ViewHome;
    path_ "register/" ViewRegister;
    path_ "login/" ViewLogin;
    path_ "logout/" ViewLogout;
    path_ "vendor/" ViewVendorDashboard;
    path_ "vendor/store/create/" ViewStoreCreate;
    path_ "vendor/store/<int:store_id>/edit/" ViewStoreEdit;
    path_ "vendor/store/<int:store_id>/delete/" ViewStoreDelete;
    path_ "vendor/store/<int:store_id>/product/create/" ViewProductCreate;
    path_ "vendor/product/<int:product_id>/edit/" ViewProductEdit;
    path_ "vendor/product/<int:product_id>/delete/" ViewProductDelete;
    path_ "products/" ViewProductList;
    path_ "products/<int:product_id>/" ViewProductDetail;
    path_ "cart/" ViewCart;
    path_ "cart/add/<int:product_id>/" ViewCartAdd;
    path_ "cart/remove/<int:product_id>/" ViewCartRemove;
    path_ "checkout/" ViewCheckout;
    path_ "review/<int:product_id>/add/" ViewReviewAdd;
    path_ "forgot-password/" ViewForgotPassword;
    path_ "reset-password/<str:token>/" ViewResetPasswordPage;
    path_ "reset-password/confirm/" ViewResetPasswordConfirm ].

Definition is_digit (c : ascii) : bool :=
  ((48 <=? N_of_ascii c) && (N_of_ascii c <=? 57))%N.

Fixpoint all_digits (s : string) : bool :=
  match s with
  | EmptyString => true
  | String c s' => is_digit c && all_digits s'
  end.

(* [0-9]+ *)
Definition matches_int (seg : string) : bool :=
  negb (bool_decide (seg = ""%string)) && all_digits seg.

(* [^/]+, on a segment, which holds no slash *)
Definition matches_str (seg : string) : bool :=
  negb (bool_decide (seg = ""%string)).

(* the captured arguments, when the route matches the whole path *)
Fixpoint match_route (route : list Segment) (segs : list string) : option (list string) :=
  match route, segs with
  | [], [] => Some []
  | Lit s :: route', seg :: segs' =>
      if bool_decide (seg = s) then match_route route' segs' else None
  | IntConv :: route', seg :: segs' =>
      if matches_int seg then cons seg <$> match_route route' segs' else None
  | StrConv :: route', seg :: segs' =>
      if matches_str seg then cons seg <$> match_route route' segs' else None
  | _, _ => None
  end.

Fixpoint resolve_in (patterns : list (list Segment * View)) (segs : list string)
    : option (View * list string) :=
  match patterns with
  | [] => None
  | (route, view) :: rest =>
      match match_route route segs with
      | Some args => Some (view, args)
      | None => resolve_in rest segs
      end
  end.

(* [None] stands for Resolver404 *)
Definition resolve (path : string) : option (View * list string) :=
  resolve_in urlpatterns (split_path path).

(* the call that a resolved view makes with its arguments, for the views
   of the world above; [None] for the other views *)
Definition op_of (atomic_requests : bool) (raw_token : string) (view : View)
    (args : list string) : option Op :=
  match view, args with
  | ViewCartAdd, [product_id] => OpCartAdd <$> int_of_str product_id
  | ViewCartRemove, [product_id] => OpCartRemove <$> int_of_str product_id
  | ViewCheckout, [] => Some (OpCheckout atomic_requests)
  | ViewForgotPassword, [] => Some (OpForgotPassword raw_token)
  | ViewResetPasswordPage, [token] => Some (OpResetPage token)
  | ViewResetPasswordConfirm, [] => Some OpResetConfirm
  | _, _ => None
  end.

(* one request, sent to a path *)
Definition serve (atomic_requests : bool) (raw_token : string) (now : Z) (path : string)
    (request : Request) (w : World) : option (Response * World) :=
  match resolve path with
  | Some (view, args) =>
      match op_of atomic_requests raw_token view args with
      | Some op => Some (perform op now request w)
      | None => None
      end
  | None => None
  end.

(* requests sent to paths, one after the other, with the draw and the clock
   that each one sees *)
Fixpoint serve_all (atomic_requests : bool) (hits : list (string * string * Z * Request))
    (w : World) : option World :=
  match hits with
  | [] => Some w
  | (path, raw_token, now, request) :: hits' =>
      match serve atomic_requests raw_token now path request w with
      | Some (_, w') => serve_all atomic_requests hits' w'
      | None => None
      end
  end.

Module SampleSite.

(* vera's store holds the three sample products *)
Definition shop : Store := mkStore "Vera's" 2 0.

(* a second vendor, with a store of their own and no products *)
Definition walt : User := mkUser "walt" "walt@example.com" "w" ["Vendors"%string].
Definition stall : Store := mkStore "Walt's" 3 0.

Definition site0 : Site :=
  mkSite
    (set_db (set_users (<[3%N := walt]> (users Sample.db0)) Sample.db0) Sample.world0)
    (<[1%N := shop]> (<[2%N := stall]> ∅)) 3 [].

Definition as_vera (m : Method) (post : gmap string string) : Request :=
  mkRequest m (Some 2%N) post.
Definition as_walt (m : Method) (post : gmap string string) : Request :=
  mkRequest m (Some 3%N) post.

Definition name_form (name : string) : gmap string string := {["name"%string := name]}.
Definition rating_form (rating : string) : gmap string string :=
  {["rating"%string := rating]}.

(* a stand-in for int() on the posted rating: decimal digits, with an
   optional minus sign *)
Definition parse_int (s : string) : option Z :=
  match s with
  | String "-" s' => (fun n => - Z.of_N n) <$> int_of_str s'
  | _ => Z.of_N <$> int_of_str s
  end.

(* alice has the pot and the tea in her cart, and checks out *)
Definition bought : Site :=
  set_world (checkout false 0 (Sample.as_alice POST ∅)
               (set_session (session Sample.pot_then_tea) (site_world site0))).2 site0.

End SampleSite.

(** ** Checks of the library models against known values *)

Example sha1_abc :
  Sha1.hexdigest "abc" = "a9993e364706816aba3e25717850c26c9cd0d89d"%string.
Proof. vm_compute. reflexivity. Qed.

Example sha1_empty :
  Sha1.hexdigest "" = "da39a3ee5e6b4b0d3255bfef95601890afd80709"%string.
Proof. vm_compute. reflexivity. Qed.

Example sha1_two_blocks :
  Sha1.hexdigest "abcdbcdecdefdefgefghfghighijhijkijkljklmklmnlmnomnopnopq"
  = "84983e441c3bd26ebaae4aa1f95129e5e54670f1"%string.
Proof. vm_compute. reflexivity. Qed.

Example decimal_9_99_times_2 :
  Decimal.mul_int (Decimal.Dec 999 (-2)) 2 = Decimal.Dec 1998 (-2).
Proof. reflexivity. Qed.

Example decimal_rounds_29_digits :
  Decimal.mul_int (Decimal.Dec 9999999999 (-2)) 9999999999999999995
  = Decimal.Dec 9999999998999999995000000000 (-1).
Proof. vm_compute. reflexivity. Qed.

Example strip_example : strip "  a@b.c " = "a@b.c"%string.
Proof. reflexivity. Qed.

Example str_int_example : int_of_str (str_of_id 42) = Some 42%N.
Proof. reflexivity. Qed.

(** * Properties *)

(** ** The checkout loop *)

Section CheckoutLines.

Variable order : Order.

Lemma decrement_stock_0 (p : Product) : decrement_stock p 0 = p.
Proof. destruct p; unfold decrement_stock; simpl. by rewrite Z.sub_0_r. Qed.

Lemma decrement_stock_twice (p : Product) (a b : Z) :
  decrement_stock (decrement_stock p a) b = decrement_stock p (a + b).
Proof. unfold decrement_stock; simpl. f_equal. lia. Qed.

Lemma checkout_lines_app (a b : list (string * Z)) (d : Db) (lines : list OrderItem) :
  checkout_lines order (a ++ b) d lines =
  match checkout_lines order a d lines with
  | (d', inr lines') => checkout_lines order b d' lines'
  | r => r
  end.
Proof.
  revert d lines. induction a as [|[key qty] a IH]; intros d lines; simpl; [done|].
  destruct (int_of_str key) as [id|]; [|done].
  destruct (get_active_product (products d) id) as [p|]; [|done].
  destruct (product_stock_qty p <? qty); [done|]. apply IH.
Qed.

(** What a run of the loop that reaches its end has done. *)
Lemma checkout_lines_ok (entries : list (string * Z)) (d d' : Db)
    (lines lines' : list OrderItem) :
  checkout_lines order entries d lines = (d', inr lines') →
  ∃ new,
    lines' = lines ++ new ∧
    order_items d' = order_items d ++ new ∧
    length new = length entries ∧
    map (fun item => Some (item_product item)) new = cart_ids entries ∧
    map item_quantity new = map snd entries ∧
    Forall (fun item => item_order item = order_id order) new ∧
    orders d' = orders d ∧ users d' = users d ∧
    next_order_id d' = next_order_id d ∧ reset_tokens d' = reset_tokens d.
Proof.
  revert d lines. induction entries as [|[key qty] entries IH]; intros d lines; simpl.
  - intros [= <- <-]. exists []. by rewrite !app_nil_r.
  - destruct (int_of_str key) as [id|] eqn:Hid; [|done].
    destruct (get_active_product (products d) id) as [p|]; [|done].
    destruct (product_stock_qty p <? qty); [done|].
    intros H. apply IH in H as (new & -> & Hitems & Hlen & Hids & Hqs & Hord & ? & ? & ? & ?).
    clear IH. eexists (_ :: new). unfold cart_ids in *. simpl in *.
    rewrite <- !app_assoc in *. simpl in *.
    repeat split; try done; try (simpl; congruence). by constructor.
Qed.

(** The stock after a run that reaches its end: every product is down by
    the quantity its lines asked for, and no row appears or disappears. *)
Lemma checkout_lines_stock (entries : list (string * Z)) (d d' : Db)
    (lines lines' : list OrderItem) (id : N) :
  checkout_lines order entries d lines = (d', inr lines') →
  products d' !! id =
  (fun p => decrement_stock p (requested_qty id entries)) <$> products d !! id.
Proof.
  revert d lines. induction entries as [|[key qty] entries IH]; intros d lines; simpl.
  - intros [= <- <-]. destruct (products d !! id) as [p|]; simpl; [|done].
    by rewrite decrement_stock_0.
  - destruct (int_of_str key) as [id'|] eqn:Hid; [|done].
    unfold get_active_product.
    destruct (products d !! id') as [p|] eqn:Hp; [|done].
    destruct (product_is_active p); [|done].
    destruct (product_stock_qty p <? qty); [done|].
    intros H. rewrite (IH _ _ H). simpl.
    destruct (decide (Some id' = Some id)) as [[= ->]|Hne].
    + rewrite lookup_insert_eq, Hp. simpl. by rewrite decrement_stock_twice.
    + rewrite lookup_insert_ne by congruence. done.
Qed.

(** A run that ends early stopped at one line: the lines before it went
    through, and that line fails against the database they left. *)
Lemma checkout_lines_abort (entries : list (string * Z)) (d d' : Db)
    (lines : list OrderItem) (response : Response) :
  checkout_lines order entries d lines = (d', inl response) →
  ∃ done entry rest lines',
    entries = done ++ entry :: rest ∧
    checkout_lines order done d lines = (d', inr lines') ∧
    line_fails d' entry.
Proof.
  revert d lines. induction entries as [|[key qty] entries IH]; intros d lines; simpl; [done|].
  destruct (int_of_str key) as [id|] eqn:Hid.
  2:{ intros [= <- <-]. exists [], (key, qty), entries, lines.
      unfold line_fails. simpl. by rewrite Hid. }
  destruct (get_active_product (products d) id) as [p|] eqn:Hp.
  2:{ intros [= <- <-]. exists [], (key, qty), entries, lines.
      unfold line_fails. simpl. by rewrite Hid, Hp. }
  destruct (product_stock_qty p <? qty) eqn:Hlt.
  { intros [= <- <-]. exists [], (key, qty), entries, lines.
    unfold line_fails. simpl. rewrite Hid, Hp. split; [done|]. split; [done|]. lia. }
  intros H. apply IH in H as (done & entry & rest & lines' & -> & Hrun & Hfail).
  exists ((key, qty) :: done), entry, rest, lines'. simpl.
  by rewrite Hid, Hp, Hlt.
Qed.

(** A failing line ends the loop there, and leaves the database alone. *)
Lemma checkout_lines_fails (entry : string * Z) (rest : list (string * Z))
    (d : Db) (lines : list OrderItem) :
  line_fails d entry →
  ∃ response,
    checkout_lines order (entry :: rest) d lines = (d, inl response) ∧
    is_success response = false.
Proof.
  destruct entry as [key qty]. unfold line_fails. simpl.
  destruct (int_of_str key) as [id|]; [|by eexists].
  destruct (get_active_product (products d) id) as [p|]; [|by eexists].
  intros Hlt. apply Z.ltb_lt in Hlt. rewrite Hlt. by eexists.
Qed.

End CheckoutLines.

(** ** Checkout is not all-or-nothing *)

(** C1, as stated, fails: alice's cart asks for two units of tea (three in
    stock) and then one mug (none in stock).  The mug line fails, the view
    returns its error page, and afterwards the Order row, the tea OrderItem
    and the tea decrement (3 down to 1) are all in the database.  The view
    returned a response, so this holds with and without ATOMIC_REQUESTS. *)
Lemma checkout_not_all_or_nothing :
  let w := Sample.with_cart Sample.tea_then_mug Sample.world0 in
  let r := fun atomic_requests => checkout atomic_requests 0 (Sample.as_alice POST ∅) w in
  (r false).1 = not_enough_stock Sample.mug ∧
  r true = r false ∧
  orders (db w) = [] ∧
  orders (db (r false).2) = [mkOrder 1 1 0] ∧
  order_items (db w) = [] ∧
  order_items (db (r false).2) = [Sample.tea_item] ∧
  product_stock_qty <$> products (db w) !! 1%N = Some 3 ∧
  product_stock_qty <$> products (db (r false).2) !! 1%N = Some 1.
Proof. vm_compute. repeat split. Qed.

(** C1 (amended): when a line of the cart fails, the view ends there with a
    response that is not the success page; the session (the cart with it)
    and the outbox are as before, and the failing line and the lines after
    it have written nothing.  But nothing is undone: the database is the one
    left by the Order creation and by the lines processed before the failing
    one, with the new Order row, one OrderItem per earlier line, and every
    product's stock down by what the earlier lines asked of it.  Only an
    exception leaving the view under ATOMIC_REQUESTS restores the database. *)
Theorem checkout_abort_keeps_earlier_lines
    (atomic_requests : bool) (now : Z) (request : Request) (w : World)
    (uid : N) (user : User) (order : Order) (d1 d2 : Db)
    (done rest : list (string * Z)) (entry : string * Z) (lines : list OrderItem) :
  request_user (db w) request = Some (uid, user) →
  _is_buyer user = true →
  create_order uid now (db w) = (order, d1) →
  _get_cart (session w) = done ++ entry :: rest →
  checkout_lines order done d1 [] = (d2, inr lines) →
  line_fails d2 entry →
  ∃ response,
    checkout atomic_requests now request w =
      (response,
       if atomic_requests && is_exception response then w else set_db d2 w) ∧
    is_success response = false ∧
    orders d2 = orders (db w) ++ [order] ∧
    order_items d2 = order_items (db w) ++ lines ∧
    length lines = length done ∧
    ∀ id, products d2 !! id =
          (fun p => decrement_stock p (requested_qty id done)) <$> products (db w) !! id.
Proof.
  intros Huser Hbuyer Hcreate Hcart Hrun Hfail.
  destruct (checkout_lines_fails order entry rest d2 lines Hfail) as (response & Hstop & Hns).
  exists response.
  assert (Hloop : checkout_lines order (_get_cart (session w)) d1 [] = (d2, inl response)).
  { rewrite Hcart, checkout_lines_app, Hrun. exact Hstop. }
  destruct (checkout_lines_ok _ _ _ _ _ _ Hrun) as (new & Hnew & Hitems & Hlen & _ & _ & _ & Hord & _).
  simpl in Hnew. subst new.
  split; [|split; [done|]].
  - unfold checkout. rewrite Huser, Hbuyer. cbn [negb].
    destruct (_get_cart (session w)) as [|e cart] eqn:Hc.
    { by destruct done. }
    rewrite Hcreate, Hloop.
    by destruct atomic_requests, response.
  - assert (Hd1 : d1 = (create_order uid now (db w)).2) by (by rewrite Hcreate).
    assert (Ho : order = (create_order uid now (db w)).1) by (by rewrite Hcreate).
    repeat split.
    + rewrite Hord, Hd1, Ho. done.
    + rewrite Hitems, Hd1. done.
    + done.
    + intros id. rewrite (checkout_lines_stock _ _ _ _ _ _ id Hrun), Hd1. done.
Qed.

Lemma checkout_abort_keeps_earlier_lines_witness :
  ∃ response,
    checkout false 0 (Sample.as_alice POST ∅)
      (Sample.with_cart Sample.tea_then_mug Sample.world0) = (response,
      set_db
        (mkDb (<[1%N := decrement_stock Sample.tea 2]> (products Sample.db0))
           (users Sample.db0) 2 [mkOrder 1 1 0] [Sample.tea_item] ∅)
        (Sample.with_cart Sample.tea_then_mug Sample.world0)) ∧
    is_success response = false.
Proof.
  destruct (checkout_abort_keeps_earlier_lines false 0 (Sample.as_alice POST ∅)
              (Sample.with_cart Sample.tea_then_mug Sample.world0)
              1%N Sample.alice (mkOrder 1 1 0)
              (create_order 1%N 0 Sample.db0).2
              (mkDb (<[1%N := decrement_stock Sample.tea 2]> (products Sample.db0))
                 (users Sample.db0) 2 [mkOrder 1 1 0] [Sample.tea_item] ∅)
              [("1"%string, 2)] [] ("2"%string, 1) [Sample.tea_item])
    as (response & Hrun & Hns & _).
  - reflexivity.
  - reflexivity.
  - reflexivity.
  - reflexivity.
  - vm_compute. reflexivity.
  - vm_compute. reflexivity.
  - exists response. split; [exact Hrun | exact Hns].
Defined.

(** ** The outcomes of [checkout] *)

Lemma checkout_lines_abort_response (order : Order) (entries : list (string * Z))
    (d d' : Db) (lines : list OrderItem) (response : Response) :
  checkout_lines order entries d lines = (d', inl response) →
  is_success response = false.
Proof.
  intros H.
  destruct (checkout_lines_abort _ _ _ _ _ _ H)
    as (done & entry & rest & lines' & Hsplit & Hrun & Hfail).
  destruct (checkout_lines_fails order entry rest d' lines' Hfail) as (r & Hstop & Hr).
  rewrite Hsplit, checkout_lines_app, Hrun, Hstop in H. by injection H as <-.
Qed.

(** Either the view ends without the success page, and then the session and
    the outbox are untouched; or the loop went through every line of a
    non-empty cart, the cart is reset and the invoice is handed over. *)
Lemma checkout_cases (atomic_requests : bool) (now : Z) (request : Request) (w : World) :
  (is_success (checkout atomic_requests now request w).1 = false ∧
   session (checkout atomic_requests now request w).2 = session w ∧
   outbox (checkout atomic_requests now request w).2 = outbox w) ∨
  (∃ uid user order d1 d2 lines,
     request_user (db w) request = Some (uid, user) ∧
     _get_cart (session w) ≠ [] ∧
     create_order uid now (db w) = (order, d1) ∧
     checkout_lines order (_get_cart (session w)) d1 [] = (d2, inr lines) ∧
     checkout atomic_requests now request w =
       (Render "shop/checkout_success.html"
          (mkContext None None None (Some order) (Some lines) None),
        mkWorld d2 (_save_cart (session w) [])
          (outbox w ++
           if decide (user_email user = ""%string) then []
           else [invoice order user lines]))).
Proof.
  unfold checkout.
  destruct (request_user (db w) request) as [[uid user]|] eqn:Huser; [|by left].
  destruct (_is_buyer user); [|by left]. cbn [negb].
  destruct (_get_cart (session w)) as [|e cart] eqn:Hcart; [by left|].
  destruct (create_order uid now (db w)) as [order d1] eqn:Hcreate.
  destruct (checkout_lines order (e :: cart) d1 []) as [d2 [response|lines]] eqn:Hrun.
  - left. apply checkout_lines_abort_response in Hrun.
    destruct response; try done. by destruct atomic_requests.
  - right. exists uid, user, order, d1, d2, lines.
    repeat split; try done.
    destruct (decide (user_email user = ""%string)); simpl; [|done].
    by rewrite app_nil_r.
Qed.

(** ** The cart *)

Lemma dict_set_keys (key : string) (v : Z) (d : list (string * Z)) :
  map fst (dict_set key v d) =
  match dict_get key d with
  | Some _ => map fst d
  | None => map fst d ++ [key]
  end.
Proof.
  induction d as [|[k v0] d IH]; simpl; [done|].
  destruct (decide (k = key)); simpl; [done|].
  rewrite IH. by destruct (dict_get key d).
Qed.

Lemma dict_get_set_is_Some (key k : string) (v : Z) (d : list (string * Z)) :
  is_Some (dict_get k d) → is_Some (dict_get k (dict_set key v d)).
Proof.
  induction d as [|[k0 v0] d IH]; simpl; [by intros [? ?]|].
  destruct (decide (k0 = key)) as [->|]; simpl.
  - destruct (decide (key = k)); [by eexists|done].
  - destruct (decide (k0 = k)); [by eexists|done].
Qed.

Lemma dict_get_pop_ne (key k : string) (d : list (string * Z)) :
  k ≠ key → dict_get k (dict_pop key d) = dict_get k d.
Proof.
  intros Hne. induction d as [|[k0 v0] d IH]; simpl; [done|].
  destruct (decide (k0 = key)) as [->|]; simpl.
  - by destruct (decide (key = k)); [subst|].
  - by rewrite IH.
Qed.

(** C3, as stated, fails: alice adds the pot (product 3) and then the tea
    (product 1).  The cart dict holds the keys in that order, and checkout
    creates the OrderItem of product 3 before that of product 1. *)
Lemma checkout_order_is_not_ascending :
  let r := checkout false 0 (Sample.as_alice POST ∅) Sample.pot_then_tea in
  session_cart (session Sample.pot_then_tea) = Some [("3"%string, 1); ("1"%string, 1)] ∧
  is_success r.1 = true ∧
  map item_product (order_items (db r.2)) = [3%N; 1%N].
Proof. vm_compute. repeat split. Qed.

(** C3 (amended): a checkout that completes has processed the cart's lines
    in the order of the session dict, whatever the product ids: the
    OrderItems it created, in creation order, carry the products and
    quantities of the cart's entries in dict order.  That order is the order
    of first insertion: [cart_add] puts a product that is not yet in the
    cart last, and leaves the order alone when it is already there. *)
Theorem checkout_follows_cart_order :
  (∀ (atomic_requests : bool) (now : Z) (request : Request) (w w' : World)
     (response : Response),
     checkout atomic_requests now request w = (response, w') →
     is_success response = true →
     ∃ lines,
       order_items (db w') = order_items (db w) ++ lines ∧
       map (fun item => Some (item_product item)) lines = cart_ids (_get_cart (session w)) ∧
       map item_quantity lines = map snd (_get_cart (session w))) ∧
  (∀ (request : Request) (product_id : N) (w : World) (product : Product),
     get_active_product (products (db w)) product_id = Some product →
     map fst (_get_cart (session (cart_add request product_id w).2)) =
     match dict_get (str_of_id product_id) (_get_cart (session w)) with
     | Some _ => map fst (_get_cart (session w))
     | None => map fst (_get_cart (session w)) ++ [str_of_id product_id]
     end).
Proof.
  split.
  - intros atomic_requests now request w w' response Hrun Hok.
    destruct (checkout_cases atomic_requests now request w)
      as [(Hno & _)|(uid & user & order & d1 & d2 & lines & _ & _ & Hcreate & Hloop & E)].
    { rewrite Hrun in Hno. simpl in Hno. congruence. }
    rewrite Hrun in E. injection E as -> ->.
    destruct (checkout_lines_ok _ _ _ _ _ _ Hloop)
      as (new & Hnew & Hitems & _ & Hids & Hqs & _).
    simpl in Hnew. subst new. exists lines. simpl.
    assert (Hd1 : d1 = (create_order uid now (db w)).2) by (by rewrite Hcreate).
    rewrite Hitems, Hd1. done.
  - intros request product_id w product Hp. unfold cart_add. rewrite Hp. simpl.
    apply dict_set_keys.
Qed.

Lemma checkout_follows_cart_order_witness :
  (∃ lines,
     order_items (db (checkout false 0 (Sample.as_alice POST ∅) Sample.pot_then_tea).2)
     = lines ∧
     map (fun item => Some (item_product item)) lines = [Some 3%N; Some 1%N]) ∧
  map fst (_get_cart (session Sample.pot_then_tea)) = ["3"%string; "1"%string].
Proof.
  destruct checkout_follows_cart_order as [Hrun Hadd]. split.
  - destruct (Hrun false 0 (Sample.as_alice POST ∅) Sample.pot_then_tea
                (checkout false 0 (Sample.as_alice POST ∅) Sample.pot_then_tea).2
                (checkout false 0 (Sample.as_alice POST ∅) Sample.pot_then_tea).1)
      as (lines & Hitems & Hids & _).
    + reflexivity.
    + reflexivity.
    + exists lines. split; [exact Hitems | exact Hids].
  - exact (Hadd (Sample.as_alice GET ∅) 1%N
             (cart_add (Sample.as_alice GET ∅) 3 Sample.world0).2 Sample.tea eq_refl).
Defined.

(** C9: a checkout that completes leaves the session with an empty cart; a
    checkout that ends in any other way (not logged in, not a buyer, empty
    cart, a failing line) leaves the session, and so the cart, exactly as it
    was.  [cart_remove] keeps the entry of every other product, [cart_add]
    removes no entry, and the password-reset views do not touch the cart. *)
Theorem cart_emptied_only_by_success_or_removal
    (atomic_requests : bool) (now : Z) (request : Request) (w : World)
    (product_id : N) (raw_token : string) :
  session (checkout atomic_requests now request w).2 =
    (if is_success (checkout atomic_requests now request w).1
     then _save_cart (session w) [] else session w) ∧
  (∀ key, key ≠ str_of_id product_id →
     dict_get key (_get_cart (session (cart_remove request product_id w).2)) =
     dict_get key (_get_cart (session w))) ∧
  (∀ key, is_Some (dict_get key (_get_cart (session w))) →
     is_Some (dict_get key (_get_cart (session (cart_add request product_id w).2)))) ∧
  session_cart (session (forgot_password raw_token now request w).2) = session_cart (session w) ∧
  session_cart (session (reset_password_page now request raw_token w).2) = session_cart (session w) ∧
  session_cart (session (reset_password_confirm now request w).2) = session_cart (session w).
Proof.
  split; [|split; [|split; [|split; [|split]]]].
  - destruct (checkout_cases atomic_requests now request w)
      as [(Hno & Hs & _)|(uid & user & order & d1 & d2 & lines & _ & _ & _ & _ & E)].
    + by rewrite Hno.
    + by rewrite E.
  - intros key Hne. unfold cart_remove.
    destruct (dict_get (str_of_id product_id) (_get_cart (session w))); simpl; [|done].
    by apply dict_get_pop_ne.
  - intros key Hin. unfold cart_add.
    destruct (get_active_product (products (db w)) product_id); simpl; [|done].
    by apply dict_get_set_is_Some.
  - unfold forgot_password.
    destruct (req_method request); try done;
      (destruct (decide _); [done|]);
      (destruct (objects_get _) as [|[uid user]|]; [done| |done]);
      by destruct (reset_tokens (db w) !! _).
  - unfold reset_password_page.
    destruct (get_unused_token _ _) as [rt|]; [|done]. by destruct (is_expired now rt).
  - unfold reset_password_confirm.
    destruct (req_method request); try done.
    destruct (decide _); [done|].
    destruct (get_user _ _) as [[uid user]|]; [|done].
    destruct (get_bound_token _ _) as [[h rt]|]; [|done]. by destruct (is_expired now rt).
Qed.

Lemma cart_emptied_only_by_success_or_removal_witness :
  session (checkout false 0 (Sample.as_alice POST ∅)
             (Sample.with_cart Sample.tea_then_mug Sample.world0)).2
  = mkSession (Some Sample.tea_then_mug) None None ∧
  session (checkout false 0 (Sample.as_alice POST ∅) Sample.pot_then_tea).2
  = mkSession (Some []) None None ∧
  dict_get "3"
    (_get_cart (session (cart_remove (Sample.as_alice GET ∅) 1 Sample.pot_then_tea).2))
  = Some 1.
Proof.
  split; [|split].
  - exact (proj1 (cart_emptied_only_by_success_or_removal false 0 (Sample.as_alice POST ∅)
                    (Sample.with_cart Sample.tea_then_mug Sample.world0) 1%N "")).
  - exact (proj1 (cart_emptied_only_by_success_or_removal false 0 (Sample.as_alice POST ∅)
                    Sample.pot_then_tea 1%N "")).
  - refine (proj1 (proj2 (cart_emptied_only_by_success_or_removal false 0
                            (Sample.as_alice GET ∅) Sample.pot_then_tea 1%N ""))
              "3"%string _).
    discriminate.
Defined.

(** ** Totals *)

Lemma fix_small (d : Decimal.t) :
  Z.abs (Decimal.coef d) < 10 ^ 28 → Decimal.fix_ d = d.
Proof.
  intros H. unfold Decimal.fix_, Decimal.prec.
  apply Z.ltb_lt in H. by rewrite H.
Qed.

Lemma line_total_exact (item : OrderItem) :
  Z.abs (Decimal.coef (item_unit_price item) * item_quantity item) < 10 ^ 28 →
  line_total item =
  Decimal.Dec (Decimal.coef (item_unit_price item) * item_quantity item)
    (Decimal.exp (item_unit_price item)).
Proof.
  intros H. unfold line_total, Decimal.mul_int, Decimal.of_int. simpl.
  rewrite Z.add_0_r. by apply fix_small.
Qed.

Lemma add_same_exp (a b e : Z) :
  Z.abs (a + b) < 10 ^ 28 →
  Decimal.add (Decimal.Dec a e) (Decimal.Dec b e) = Decimal.Dec (a + b) e.
Proof.
  intros H. unfold Decimal.add. simpl.
  rewrite Z.min_id, Z.sub_diag, !Z.mul_1_r. by apply fix_small.
Qed.

(* 0 + amount, the first [grand_total += lt] *)
Lemma add_int_0 (b : Z) :
  Z.abs b < 10 ^ 28 →
  Decimal.add (Decimal.of_int 0) (Decimal.Dec b (-2)) = Decimal.Dec b (-2).
Proof.
  intros H. unfold Decimal.add, Decimal.of_int. simpl.
  change (0 `min` (-2)) with (-2). simpl. rewrite Z.mul_1_r. by apply fix_small.
Qed.

Lemma amount_nonneg (lines : list OrderItem) : 0 ≤ amount lines.
Proof. induction lines; simpl; lia. Qed.

Lemma fold_add_exact (lines : list OrderItem) (a : Z) :
  Forall (fun item => Decimal.exp (item_unit_price item) = -2) lines →
  Z.abs a + amount lines < 10 ^ 28 →
  fold_left (fun total item => Decimal.add total (line_total item)) lines
    (Decimal.Dec a (-2))
  = Decimal.Dec (a + Decimal.coef (sum_cents (map line_total lines))) (-2).
Proof.
  revert a. induction lines as [|item lines IH]; intros a Hexp Hfit; simpl.
  - by rewrite Z.add_0_r.
  - inversion Hexp as [|? ? He Hexp']; subst. simpl in Hfit.
    pose proof (amount_nonneg lines).
    rewrite line_total_exact by lia. rewrite He.
    rewrite add_same_exp by lia.
    rewrite IH by (done || lia). f_equal. simpl. lia.
Qed.

Lemma grand_total_exact (lines : list OrderItem) :
  lines ≠ [] →
  Forall (fun item => Decimal.exp (item_unit_price item) = -2) lines →
  amount lines < 10 ^ 28 →
  grand_total lines = sum_cents (map line_total lines).
Proof.
  destruct lines as [|item lines]; [done|]. intros _ Hexp Hfit.
  inversion Hexp as [|? ? He Hexp']; subst. simpl in Hfit.
  pose proof (amount_nonneg lines).
  unfold grand_total. cbn [fold_left].
  rewrite (line_total_exact item) by lia. rewrite He.
  rewrite add_int_0 by lia.
  rewrite fold_add_exact by (done || lia).
  unfold sum_cents. cbn [map foldr Decimal.coef].
  rewrite (line_total_exact item) by lia. done.
Qed.

Lemma amount_bound (lines : list OrderItem) :
  Forall (fun item => Decimal.is_price (item_unit_price item)) lines →
  amount lines ≤ 10 ^ 10 * foldr (fun q acc => Z.abs q + acc) 0 (map item_quantity lines).
Proof.
  induction 1 as [|item lines [_ Hp] _ IH]; simpl; [lia|].
  rewrite Z.abs_mul. nia.
Qed.

Lemma cart_quantity_map (cart : list (string * Z)) :
  foldr (fun q acc => Z.abs q + acc) 0 (map snd cart) = cart_quantity cart.
Proof. induction cart as [|[k q] cart IH]; simpl; [done|]. by rewrite IH. Qed.

(** The loop copies each unit price from a product row, and leaves the
    product prices as they were. *)
Lemma checkout_lines_prices (order : Order) (entries : list (string * Z))
    (d d' : Db) (lines lines' : list OrderItem) :
  prices_valid d →
  Forall (fun item => Decimal.is_price (item_unit_price item)) lines →
  checkout_lines order entries d lines = (d', inr lines') →
  Forall (fun item => Decimal.is_price (item_unit_price item)) lines'.
Proof.
  revert d lines. induction entries as [|[key qty] entries IH]; intros d lines Hd Hl; simpl.
  - by intros [= <- <-].
  - destruct (int_of_str key) as [id|]; [|done].
    unfold get_active_product.
    destruct (products d !! id) as [p|] eqn:Hp; [|done].
    destruct (product_is_active p); [|done].
    destruct (product_stock_qty p <? qty); [done|].
    apply IH.
    + intros id' p'. simpl. destruct (decide (id = id')) as [<-|Hne].
      * rewrite lookup_insert_eq. intros [= <-]. simpl. by apply (Hd id).
      * rewrite lookup_insert_ne by done. apply Hd.
    + apply Forall_app. split; [done|]. constructor; [|done]. simpl. by apply (Hd id).
Qed.

Lemma lines_exact (lines : list OrderItem) :
  Forall (fun item => Decimal.exp (item_unit_price item) = -2) lines →
  amount lines < 10 ^ 28 →
  Forall (fun item =>
            line_total item =
            Decimal.Dec (Decimal.coef (item_unit_price item) * item_quantity item) (-2))
    lines.
Proof.
  induction 1 as [|item lines He _ IH]; simpl; intros Hfit; constructor.
  - pose proof (amount_nonneg lines). rewrite line_total_exact by lia. by rewrite He.
  - apply IH. lia.
Qed.

(** C8, as stated, fails: the product is computed in the Decimal context,
    which keeps 28 significant digits.  An item of 2000000000000000001 units
    (a quantity below 2^63) at 99999999.99 (a price of 10 digits) has the
    exact amount 199999999980000000099999999.99, of 29 digits.  line_total
    rounds it to 1999999999800000001000000000 tenths, one cent more than
    unit_price × quantity. *)
Lemma line_total_rounds_past_28_digits :
  let item := mkOrderItem 1 1 1 2000000000000000001 (Decimal.Dec 9999999999 (-2)) in
  Decimal.is_price (item_unit_price item) ∧
  0 ≤ item_quantity item < 2 ^ 63 ∧
  line_total item = Decimal.Dec 1999999999800000001000000000 (-1) ∧
  line_total item ≠ Decimal.exact_mul_int (item_unit_price item) (item_quantity item) ∧
  Decimal.coef (line_total item) * 10
  = Decimal.coef (item_unit_price item) * item_quantity item + 1.
Proof. vm_compute. repeat split; discriminate. Qed.

(** C8 (amended): the totals are exact as long as they fit the 28
    significant digits of the Decimal context.  An OrderItem whose unit
    price has two fractional digits and whose amount in cents,
    unit_price × quantity, is below 10^28 in absolute value has line_total =
    unit_price × quantity exactly: the same exponent -2, the coefficients
    multiplied, nothing rounded.  A completed checkout whose line amounts
    add up to less than 10^28 cents puts on the invoice line totals that are
    exact and a grand total that is the exact sum of the line totals of the
    items it created.  That is so in particular when the cart holds fewer
    than 10^18 units, prices having at most 10 digits. *)
Theorem invoice_totals_exact :
  (∀ item : OrderItem,
     Decimal.exp (item_unit_price item) = -2 →
     Z.abs (Decimal.coef (item_unit_price item) * item_quantity item) < 10 ^ 28 →
     line_total item =
     Decimal.Dec (Decimal.coef (item_unit_price item) * item_quantity item) (-2)) ∧
  (∀ (atomic_requests : bool) (now : Z) (request : Request) (w w' : World)
     (response : Response),
     prices_valid (db w) →
     checkout atomic_requests now request w = (response, w') →
     is_success response = true →
     ∃ uid user order lines,
       request_user (db w) request = Some (uid, user) ∧
       response =
         Render "shop/checkout_success.html"
           (mkContext None None None (Some order) (Some lines) None) ∧
       order_items (db w') = order_items (db w) ++ lines ∧
       (amount lines < 10 ^ 28 →
        invoice order user lines =
          InvoiceMail (user_email user) (order_id order) (user_username user)
            (map invoice_line lines) (sum_cents (map line_total lines)) ∧
        Forall (fun line =>
                  il_line_total line =
                  Decimal.Dec (Decimal.coef (il_unit_price line) * il_quantity line) (-2))
          (map invoice_line lines)) ∧
       (cart_quantity (_get_cart (session w)) < 10 ^ 18 → amount lines < 10 ^ 28) ∧
       (user_email user ≠ ""%string → outbox w' = outbox w ++ [invoice order user lines])).
Proof.
  split.
  - intros item He Hfit. rewrite line_total_exact by done. by rewrite He.
  - intros atomic_requests now request w w' response Hprices Hrun Hok.
    destruct (checkout_cases atomic_requests now request w)
      as [(Hno & _)|(uid & user & order & d1 & d2 & lines & Huser & Hcart & Hcreate & Hloop & E)].
    { rewrite Hrun in Hno. simpl in Hno. congruence. }
    rewrite Hrun in E. injection E as -> ->.
    assert (Hd1 : d1 = (create_order uid now (db w)).2) by (by rewrite Hcreate).
    destruct (checkout_lines_ok _ _ _ _ _ _ Hloop)
      as (new & Hnew & Hitems & Hlen & _ & Hqs & _).
    simpl in Hnew. subst new.
    assert (Hvalid : Forall (fun item => Decimal.is_price (item_unit_price item)) lines).
    { eapply checkout_lines_prices; [|constructor|exact Hloop]. by rewrite Hd1. }
    assert (Hexp : Forall (fun item => Decimal.exp (item_unit_price item) = -2) lines).
    { eapply Forall_impl; [exact Hvalid|]. by intros item [? _]. }
    assert (Hne : lines ≠ []).
    { intros ->. simpl in Hlen. destruct (_get_cart (session w)); [done|discriminate]. }
    exists uid, user, order, lines. simpl.
    split; [done|]. split; [done|]. split; [by rewrite Hitems, Hd1|].
    split; [|split].
    + intros Hfit. split.
      * unfold invoice. by rewrite grand_total_exact.
      * apply Forall_map. simpl. by apply lines_exact.
    + intros Hqty. pose proof (amount_bound lines Hvalid) as Hb.
      rewrite Hqs, cart_quantity_map in Hb. lia.
    + intros Hmail. by destruct (decide (user_email user = ""%string)).
Qed.

Lemma sample_prices_valid : prices_valid (db Sample.pot_then_tea).
Proof.
  unfold prices_valid. simpl.
  repeat (apply map_Forall_insert_2; [by vm_compute|]).
  apply map_Forall_empty.
Defined.

Lemma invoice_totals_exact_witness :
  line_total Sample.tea_item = Decimal.Dec 1998 (-2) ∧
  ∃ order lines,
    outbox (checkout false 0 (Sample.as_alice POST ∅) Sample.pot_then_tea).2 =
    [InvoiceMail "alice@example.com" order "alice" lines (Decimal.Dec 2199 (-2))].
Proof.
  destruct invoice_totals_exact as [Hline Hsum]. split.
  - apply (Hline Sample.tea_item); by vm_compute.
  - destruct (Hsum false 0 (Sample.as_alice POST ∅) Sample.pot_then_tea
                (checkout false 0 (Sample.as_alice POST ∅) Sample.pot_then_tea).2
                (checkout false 0 (Sample.as_alice POST ∅) Sample.pot_then_tea).1)
      as (uid & user & order & lines & Huser & Hresp & Hitems & Hexact & Hfits & Hout).
    + exact sample_prices_valid.
    + reflexivity.
    + reflexivity.
    + injection Huser as <- <-. injection Hresp as <- <-.
      destruct Hexact as [Hinv _]; [apply Hfits; by vm_compute|].
      rewrite Hout by discriminate. rewrite Hinv.
      eexists _, _. reflexivity.
Defined.

(** ** Forgot password *)

Lemma users_with_email_none (email : string) (us : gmap N User) :
  (∀ uid u, us !! uid = Some u → user_email u ≠ email) →
  users_with_email email us = [].
Proof.
  intros Hnone. apply elem_of_nil_inv. intros [uid u] Hin.
  apply list_elem_of_filter in Hin as [Hmail Hin].
  apply elem_of_map_to_list in Hin. by apply (Hnone uid u).
Qed.

Lemma users_with_email_one (email : string) (us : gmap N User) (uid : N) (u : User) :
  us !! uid = Some u →
  user_email u = email →
  (∀ uid' u', us !! uid' = Some u' → user_email u' = email → uid' = uid) →
  users_with_email email us = [(uid, u)].
Proof.
  intros Hu Hmail Honly. apply Permutation_singleton_r, NoDup_Permutation.
  - apply NoDup_filter, NoDup_map_to_list.
  - apply NoDup_singleton.
  - intros [uid' u']. unfold users_with_email.
    rewrite list_elem_of_filter, elem_of_map_to_list, list_elem_of_singleton.
    simpl. split.
    + intros [Hm Hin]. assert (uid' = uid) as -> by (by eapply Honly). congruence.
    + by intros [= -> ->].
Qed.

(** C4, as stated, fails: the same form posted with alice's address and
    with an address that no user has is answered with two different pages,
    the first carrying the message that the mail was sent, the second the
    error that no user has that email. *)
Lemma forgot_password_tells_accounts_apart :
  let known :=
    forgot_password "r4nd0m" 0
      (Sample.anonymous POST (Sample.email_form "alice@example.com")) Sample.world0 in
  let unknown :=
    forgot_password "r4nd0m" 0
      (Sample.anonymous POST (Sample.email_form "nobody@example.com")) Sample.world0 in
  known.1 = render_forgot None (Some "Reset email sent (check console output)."%string) ∧
  unknown.1 = render_forgot (Some "No user with that email."%string) None ∧
  known.1 ≠ unknown.1.
Proof. vm_compute. repeat split. discriminate. Qed.

(** C4 (amended): for a posted email that is not empty once stripped, the
    response tells whether the email matched.  When no user has that email
    it is the page with the error "No user with that email.", and nothing
    changes; when exactly one user has it (and the token drawn is new) it is
    the page with the message that the reset email was sent, a token is
    stored for that user and the link is mailed. *)
Theorem forgot_password_response (raw_token : string) (now : Z) (request : Request)
    (w : World) (email : string) :
  req_method request ≠ GET →
  strip (post_get request "email" "") = email →
  email ≠ ""%string →
  ((∀ uid u, users (db w) !! uid = Some u → user_email u ≠ email) →
   forgot_password raw_token now request w =
     (render_forgot (Some "No user with that email."%string) None, w)) ∧
  (∀ uid u,
     users (db w) !! uid = Some u →
     user_email u = email →
     (∀ uid' u', users (db w) !! uid' = Some u' → user_email u' = email → uid' = uid) →
     reset_tokens (db w) !! Sha1.hexdigest raw_token = None →
     forgot_password raw_token now request w =
       (render_forgot None (Some "Reset email sent (check console output)."%string),
        send (ResetMail email (user_username u) raw_token)
          (set_db
             (save_token (Sha1.hexdigest raw_token)
                (mkResetToken uid (Sha1.hexdigest raw_token) (now + ten_minutes) false)
                (db w))
             w))).
Proof.
  intros Hmethod Hstrip Hne. split.
  - intros Hnone. unfold forgot_password. rewrite Hstrip.
    rewrite (users_with_email_none _ _ Hnone). simpl.
    destruct (req_method request); try done; by destruct (decide (email = ""%string)).
  - intros uid u Hu Hmail Honly Hfresh. unfold forgot_password. rewrite Hstrip.
    rewrite (users_with_email_one _ _ _ _ Hu Hmail Honly). simpl. rewrite Hfresh, Hmail.
    destruct (req_method request); try done; by destruct (decide (email = ""%string)).
Qed.

Lemma forgot_password_response_witness :
  forgot_password "r4nd0m" 0
    (Sample.anonymous POST (Sample.email_form "nobody@example.com")) Sample.world0
  = (render_forgot (Some "No user with that email."%string) None, Sample.world0) ∧
  (forgot_password "r4nd0m" 0
     (Sample.anonymous POST (Sample.email_form " alice@example.com ")) Sample.world0).1
  = render_forgot None (Some "Reset email sent (check console output)."%string).
Proof.
  split.
  - apply (forgot_password_response "r4nd0m" 0
             (Sample.anonymous POST (Sample.email_form "nobody@example.com"))
             Sample.world0 "nobody@example.com"); [discriminate|reflexivity|discriminate|].
    intros uid u. simpl.
    destruct (decide (uid = 1%N)) as [->|]; [rewrite lookup_insert_eq; by intros [= <-]|].
    rewrite lookup_insert_ne by done.
    destruct (decide (uid = 2%N)) as [->|]; [rewrite lookup_insert_eq; by intros [= <-]|].
    rewrite lookup_insert_ne by done. by rewrite lookup_empty.
  - destruct (forgot_password_response "r4nd0m" 0
             (Sample.anonymous POST (Sample.email_form " alice@example.com "))
             Sample.world0 "alice@example.com") as [_ Hone];
      [discriminate|reflexivity|discriminate|].
    rewrite (Hone 1%N Sample.alice); [reflexivity|reflexivity|reflexivity| |reflexivity].
    intros uid u. simpl.
    destruct (decide (uid = 1%N)) as [->|]; [done|].
    rewrite lookup_insert_ne by done.
    destruct (decide (uid = 2%N)) as [->|]; [rewrite lookup_insert_eq; by intros [= <-]|].
    rewrite lookup_insert_ne by done. by rewrite lookup_empty.
Defined.


(** ** Live tokens *)




(** ** Redeeming a token *)

Lemma get_unused_token_Some (ts : gmap string ResetToken) (h : string) (rt : ResetToken) :
  get_unused_token ts h = Some rt ↔ ts !! h = Some rt ∧ rt_used rt = false.
Proof.
  unfold get_unused_token. split.
  - destruct (ts !! h) as [rt'|]; [|done].
    destruct (rt_used rt') eqn:E; [done|]. by intros [= <-].
  - intros [Hrt Hused]. by rewrite Hrt, Hused.
Qed.

Lemma is_expired_true (now : Z) (rt : ResetToken) :
  is_expired now rt = true ↔ rt_expiry_date rt < now.
Proof. apply Z.ltb_lt. Qed.

Lemma is_expired_false (now : Z) (rt : ResetToken) :
  is_expired now rt = false ↔ now ≤ rt_expiry_date rt.
Proof. apply Z.ltb_ge. Qed.

(** The three ways out of [reset_password_page]. *)
Lemma reset_password_page_cases (now : Z) (request : Request) (token : string) (w : World) :
  let h := Sha1.hexdigest token in
  (get_unused_token (reset_tokens (db w)) h = None ∧
   reset_password_page now request token w =
     (render_reset (Some "Token invalid or expired."%string) false, w)) ∨
  (∃ rt, reset_tokens (db w) !! h = Some rt ∧ rt_used rt = false ∧
         rt_expiry_date rt < now ∧
         reset_password_page now request token w =
           (render_reset (Some "Token invalid or expired."%string) false,
            set_db (delete_token h (db w)) w)) ∨
  (∃ rt, reset_tokens (db w) !! h = Some rt ∧ rt_used rt = false ∧
         now ≤ rt_expiry_date rt ∧
         reset_password_page now request token w =
           (render_reset None true,
            set_session (mkSession (session_cart (session w)) (Some (rt_user rt)) (Some h)) w)).
Proof.
  intros h. unfold reset_password_page. fold h.
  destruct (get_unused_token (reset_tokens (db w)) h) as [rt|] eqn:Hrt; [|by left].
  apply get_unused_token_Some in Hrt as [Hrt Hused]. right.
  destruct (is_expired now rt) eqn:He.
  - left. exists rt. by apply is_expired_true in He.
  - right. exists rt. by apply is_expired_false in He.
Qed.

(** The five ways out of [reset_password_confirm]. *)
Lemma reset_password_confirm_cases (now : Z) (request : Request) (w : World) :
  let password := post_get request "password" "" in
  let password_conf := post_get request "password_conf" "" in
  (req_method request ≠ POST ∧
   reset_password_confirm now request w = (Redirect "login", w)) ∨
  (req_method request = POST ∧ (password = ""%string ∨ password ≠ password_conf) ∧
   reset_password_confirm now request w =
     (render_reset (Some "Passwords do not match."%string) true, w)) ∨
  (req_method request = POST ∧ password ≠ ""%string ∧ password = password_conf ∧
   (get_user (db w) (reset_user_id (session w)) = None ∨
    get_bound_token (db w) (reset_token_hash (session w)) = None) ∧
   reset_password_confirm now request w = (Raised Http404, w)) ∨
  (∃ h rt,
     req_method request = POST ∧
     reset_token_hash (session w) = Some h ∧
     reset_tokens (db w) !! h = Some rt ∧ rt_used rt = false ∧
     rt_expiry_date rt < now ∧
     reset_password_confirm now request w =
       (render_reset (Some "Token expired."%string) false,
        set_db (delete_token h (db w)) w)) ∨
  (∃ uid user h rt,
     req_method request = POST ∧ password ≠ ""%string ∧ password = password_conf ∧
     reset_user_id (session w) = Some uid ∧ users (db w) !! uid = Some user ∧
     reset_token_hash (session w) = Some h ∧
     reset_tokens (db w) !! h = Some rt ∧ rt_used rt = false ∧
     now ≤ rt_expiry_date rt ∧
     reset_password_confirm now request w =
       (Redirect "login",
        mkWorld (save_token h (mark_used rt) (set_password uid user password (db w)))
          (mkSession (session_cart (session w)) None None) (outbox w))).
Proof.
  intros password password_conf. unfold reset_password_confirm.
  fold password password_conf.
  destruct (req_method request) eqn:Hm; [by left| |by left].
  right.
  destruct (decide (password = ""%string ∨ password ≠ password_conf)) as [Hbad|Hgood];
    [by left|].
  right.
  assert (password ≠ ""%string ∧ password = password_conf) as [Hne Heq].
  { split; [naive_solver|]. destruct (decide (password = password_conf)); naive_solver. }
  destruct (get_user (db w) (reset_user_id (session w))) as [[uid user]|] eqn:Hu;
    [|left; naive_solver].
  destruct (get_bound_token (db w) (reset_token_hash (session w))) as [[h rt]|] eqn:Ht;
    [|left; naive_solver].
  right.
  unfold get_user in Hu. destruct (reset_user_id (session w)) as [uid'|] eqn:Hsu; [|done].
  destruct (users (db w) !! uid') as [user'|] eqn:Hu'; [|done]. injection Hu as -> ->.
  unfold get_bound_token in Ht.
  destruct (reset_token_hash (session w)) as [h'|] eqn:Hsh; [|done].
  destruct (get_unused_token (reset_tokens (db w)) h') as [rt'|] eqn:Hrt; [|done].
  injection Ht as -> ->. apply get_unused_token_Some in Hrt as [Hrt Hused].
  destruct (is_expired now rt) eqn:He.
  - left. exists h, rt. by apply is_expired_true in He.
  - right. exists uid, user, h, rt. by apply is_expired_false in He.
Qed.

(** C5, as stated, fails at the boundary: the token issued at time 0 expires
    at 600000000 (ten minutes, in microseconds).  Presented at exactly that
    time, the reset page accepts it and the confirm step sets the new
    password and marks the token used; nothing reports an expired token. *)
Lemma redeem_at_expiry_succeeds :
  let h := Sha1.hexdigest "r4nd0m" in
  let r :=
    reset_password_confirm 600000000
      (Sample.anonymous POST (Sample.password_form "new" "new"))
      (Sample.opened 600000000) in
  rt_expiry_date <$> reset_tokens (db Sample.issued) !! h = Some 600000000 ∧
  (reset_password_page 600000000 (Sample.anonymous GET ∅) "r4nd0m" Sample.issued).1
  = render_reset None true ∧
  r.1 = Redirect "login" ∧
  user_password <$> users (db r.2) !! 1%N = Some "new"%string ∧
  rt_used <$> reset_tokens (db r.2) !! h = Some true.
Proof. vm_compute. repeat split. Qed.

(** C5 (amended): the token is expired only strictly after its expiry
    timestamp.  Presented to the reset page, an unused token is refused and
    deleted when the clock is past the expiry, and accepted (the session is
    bound to it) when the clock is at or before the expiry.  In the confirm
    step, with a bound session, an existing user and a non-empty password
    that equals its confirmation, a clock past the expiry gives "Token
    expired." (the token is deleted, no credential changes), and a clock at
    or before the expiry gives the redirect to login with the user's
    password set, the token marked used and the binding cleared. *)
Theorem redeem_expiry_boundary :
  (∀ (now : Z) (request : Request) (token : string) (w : World) (rt : ResetToken),
     reset_tokens (db w) !! Sha1.hexdigest token = Some rt →
     rt_used rt = false →
     (rt_expiry_date rt < now →
      reset_password_page now request token w =
        (render_reset (Some "Token invalid or expired."%string) false,
         set_db (delete_token (Sha1.hexdigest token) (db w)) w)) ∧
     (now ≤ rt_expiry_date rt →
      reset_password_page now request token w =
        (render_reset None true,
         set_session
           (mkSession (session_cart (session w)) (Some (rt_user rt))
              (Some (Sha1.hexdigest token))) w))) ∧
  (∀ (now : Z) (request : Request) (w : World) (uid : N) (user : User)
     (h : string) (rt : ResetToken) (password : string),
     req_method request = POST →
     post_get request "password" "" = password →
     post_get request "password_conf" "" = password →
     password ≠ ""%string →
     reset_user_id (session w) = Some uid →
     users (db w) !! uid = Some user →
     reset_token_hash (session w) = Some h →
     reset_tokens (db w) !! h = Some rt →
     rt_used rt = false →
     (rt_expiry_date rt < now →
      ∃ w',
        reset_password_confirm now request w =
          (render_reset (Some "Token expired."%string) false, w') ∧
        users (db w') = users (db w) ∧
        reset_tokens (db w') !! h = None) ∧
     (now ≤ rt_expiry_date rt →
      ∃ w',
        reset_password_confirm now request w = (Redirect "login", w') ∧
        users (db w') !! uid =
          Some (mkUser (user_username user) (user_email user) password (user_groups user)) ∧
        reset_tokens (db w') !! h = Some (mark_used rt) ∧
        reset_user_id (session w') = None ∧
        reset_token_hash (session w') = None)).
Proof.
  split.
  - intros now request token w rt Hrt Hused.
    unfold reset_password_page, get_unused_token. rewrite Hrt, Hused. split; intros Ht.
    + apply is_expired_true in Ht. by rewrite Ht.
    + apply is_expired_false in Ht. by rewrite Ht.
  - intros now request w uid user h rt password Hm Hp Hc Hne Hsu Hu Hsh Hrt Hused.
    unfold reset_password_confirm, get_user, get_bound_token, get_unused_token.
    rewrite Hm, Hp, Hc, Hsu, Hu, Hsh, Hrt, Hused.
    destruct (decide (password = ""%string ∨ password ≠ password)) as [[?|?]|_]; [done..|].
    split; intros Ht.
    + apply is_expired_true in Ht. rewrite Ht. eexists. split; [done|]. simpl.
      split; [done|]. apply lookup_delete_eq.
    + apply is_expired_false in Ht. rewrite Ht. eexists. split; [done|]. simpl.
      by rewrite !lookup_insert_eq.
Qed.

Lemma redeem_expiry_boundary_witness :
  (reset_password_page 600000001 (Sample.anonymous GET ∅) "r4nd0m" Sample.issued).1
  = render_reset (Some "Token invalid or expired."%string) false ∧
  (reset_password_confirm 600000001
     (Sample.anonymous POST (Sample.password_form "new" "new")) (Sample.opened 0)).1
  = render_reset (Some "Token expired."%string) false ∧
  (reset_password_confirm 599999999
     (Sample.anonymous POST (Sample.password_form "new" "new")) (Sample.opened 0)).1
  = Redirect "login".
Proof.
  destruct redeem_expiry_boundary as [Hpage Hconfirm]. split; [|split].
  - destruct (Hpage 600000001 (Sample.anonymous GET ∅) "r4nd0m" Sample.issued
                (mkResetToken 1 (Sha1.hexdigest "r4nd0m") 600000000 false))
      as [Hlate _]; [by vm_compute|reflexivity|].
    rewrite Hlate; [reflexivity|by vm_compute].
  - destruct (Hconfirm 600000001
                (Sample.anonymous POST (Sample.password_form "new" "new"))
                (Sample.opened 0) 1%N Sample.alice (Sha1.hexdigest "r4nd0m")
                (mkResetToken 1 (Sha1.hexdigest "r4nd0m") 600000000 false) "new"%string)
      as [Hlate _]; [reflexivity|reflexivity|reflexivity|discriminate|by vm_compute
                    |reflexivity|by vm_compute|by vm_compute|reflexivity|].
    destruct Hlate as (w' & -> & _); [by vm_compute|reflexivity].
  - destruct (Hconfirm 599999999
                (Sample.anonymous POST (Sample.password_form "new" "new"))
                (Sample.opened 0) 1%N Sample.alice (Sha1.hexdigest "r4nd0m")
                (mkResetToken 1 (Sha1.hexdigest "r4nd0m") 600000000 false) "new"%string)
      as [_ Hearly]; [reflexivity|reflexivity|reflexivity|discriminate|by vm_compute
                     |reflexivity|by vm_compute|by vm_compute|reflexivity|].
    destruct Hearly as (w' & -> & _); [by vm_compute|reflexivity].
Defined.

(** C10, as stated, fails on an empty password: with no binding in the
    session, a form whose password and confirmation are both empty (and so
    equal) is answered "Passwords do not match.", not with a not-found
    error. *)
Lemma empty_passwords_match_but_are_refused :
  let request := Sample.anonymous POST (Sample.password_form "" "") in
  post_get request "password" "" = post_get request "password_conf" "" ∧
  reset_user_id (session Sample.world0) = None ∧
  reset_token_hash (session Sample.world0) = None ∧
  reset_password_confirm 0 request Sample.world0
  = (render_reset (Some "Passwords do not match."%string) true, Sample.world0).
Proof. vm_compute. repeat split. Qed.

(** C10 (amended): in a POST to the confirm step the passwords are checked
    before the binding is looked up.  A password that is empty or differs
    from its confirmation gives "Passwords do not match." whatever the
    session holds; a non-empty password equal to its confirmation, in a
    session with no bound user id or no bound token hash, gives the
    not-found error.  Either way the world is returned as it was: no
    credential and no token changes. *)
Theorem confirm_checks_passwords_first (now : Z) (request : Request) (w : World) :
  req_method request = POST →
  (post_get request "password" "" = ""%string ∨
   post_get request "password" "" ≠ post_get request "password_conf" "" →
   reset_password_confirm now request w =
     (render_reset (Some "Passwords do not match."%string) true, w)) ∧
  (post_get request "password" "" ≠ ""%string →
   post_get request "password" "" = post_get request "password_conf" "" →
   reset_user_id (session w) = None ∨ reset_token_hash (session w) = None →
   reset_password_confirm now request w = (Raised Http404, w)).
Proof.
  intros Hm. unfold reset_password_confirm. rewrite Hm. split.
  - intros Hbad. by destruct (decide _).
  - intros Hne Heq Hunbound.
    destruct (decide _) as [[?|?]|_]; [done..|].
    destruct Hunbound as [Hsu|Hsh].
    + by rewrite Hsu.
    + rewrite Hsh. simpl. by destruct (get_user _ _) as [[? ?]|].
Qed.

Lemma confirm_checks_passwords_first_witness :
  reset_password_confirm 0 (Sample.anonymous POST (Sample.password_form "new" "old"))
    Sample.world0
  = (render_reset (Some "Passwords do not match."%string) true, Sample.world0) ∧
  reset_password_confirm 0 (Sample.anonymous POST (Sample.password_form "new" "new"))
    Sample.world0
  = (Raised Http404, Sample.world0).
Proof.
  split.
  - apply (confirm_checks_passwords_first 0
             (Sample.anonymous POST (Sample.password_form "new" "old")) Sample.world0);
      [reflexivity|]. right. discriminate.
  - apply (confirm_checks_passwords_first 0
             (Sample.anonymous POST (Sample.password_form "new" "new")) Sample.world0);
      [reflexivity|discriminate|reflexivity|]. by left.
Defined.

(** ** What the other views leave alone *)

Lemma checkout_lines_frame (order : Order) (entries : list (string * Z)) (d : Db)
    (lines : list OrderItem) :
  reset_tokens (checkout_lines order entries d lines).1 = reset_tokens d ∧
  users (checkout_lines order entries d lines).1 = users d.
Proof.
  revert d lines. induction entries as [|[key qty] entries IH]; intros d lines; simpl; [done|].
  destruct (int_of_str key) as [id|]; [|done].
  destruct (get_active_product (products d) id) as [p|]; [|done].
  destruct (product_stock_qty p <? qty); [done|].
  split; [rewrite (proj1 (IH _ _))|rewrite (proj2 (IH _ _))]; done.
Qed.

Lemma checkout_frame (atomic_requests : bool) (now : Z) (request : Request) (w : World) :
  reset_tokens (db (checkout atomic_requests now request w).2) = reset_tokens (db w) ∧
  users (db (checkout atomic_requests now request w).2) = users (db w).
Proof.
  unfold checkout.
  destruct (request_user (db w) request) as [[uid user]|]; [|done].
  destruct (_is_buyer user); [|done]. cbn [negb].
  destruct (_get_cart (session w)) as [|e cart]; [done|].
  destruct (create_order uid now (db w)) as [order d1] eqn:Hcreate.
  assert (Hd1 : d1 = (create_order uid now (db w)).2) by (by rewrite Hcreate).
  pose proof (checkout_lines_frame order (e :: cart) d1 []) as [Ht Hu].
  destruct (checkout_lines order (e :: cart) d1 []) as [d2 [response|lines]].
  - simpl in Ht, Hu. rewrite Hd1 in Ht, Hu.
    destruct response; try done. by destruct atomic_requests.
  - simpl in Ht, Hu. rewrite Hd1 in Ht, Hu.
    by destruct (decide (user_email user = ""%string)).
Qed.

Lemma forgot_password_tokens (raw_token : string) (now : Z) (request : Request) (w : World) :
  users (db (forgot_password raw_token now request w).2) = users (db w) ∧
  (reset_tokens (db (forgot_password raw_token now request w).2) = reset_tokens (db w) ∨
   ∃ rt,
     reset_tokens (db w) !! Sha1.hexdigest raw_token = None ∧
     reset_tokens (db (forgot_password raw_token now request w).2) =
       <[Sha1.hexdigest raw_token := rt]> (reset_tokens (db w))).
Proof.
  unfold forgot_password.
  destruct (req_method request); [by split; [|left]| |];
    (destruct (decide _); [by split; [|left]|]);
    (destruct (objects_get _) as [|[uid user]|]; [by split; [|left]| |by split; [|left]]);
    (destruct (reset_tokens (db w) !! Sha1.hexdigest raw_token) eqn:Hfresh;
       [by split; [|left]|]);
    (split; [done|right; by eexists]).
Qed.










(** ** Concurrent reservations *)

Lemma int_of_str_of_id (id : N) : int_of_str (str_of_id id) = Some id.
Proof.
  unfold int_of_str, str_of_id. destruct id as [|p]; [reflexivity|].
  rewrite NilZero.usu by apply DecimalPos.Unsigned.to_uint_nonnil.
  f_equal. apply (DecimalN.Unsigned.of_to (N.pos p)).
Qed.

Lemma step_keeps_stock_nonneg (ps : gmap N Product) (wk : Interleaving.Worker) :
  stock_nonneg ps → Interleaving.holds_nonneg wk →
  stock_nonneg (Interleaving.step ps wk).1 ∧ Interleaving.holds_nonneg (Interleaving.step ps wk).2.
Proof.
  unfold Interleaving.holds_nonneg. intros Hps Hwk. unfold Interleaving.step.
  destruct (Interleaving.wk_pc wk) as [|p| | |] eqn:Hpc; simpl; try (by rewrite ?Hpc).
  - unfold get_active_product.
    destruct (ps !! Interleaving.wk_product_id wk) as [p|] eqn:Hp; simpl; [|done].
    destruct (product_is_active p); simpl; [|done].
    split; [done|]. by apply (Hps _ _ Hp).
  - destruct (product_stock_qty p <? Interleaving.wk_qty wk) eqn:Hlt; simpl; [done|].
    split; [|done]. apply map_Forall_insert_2; [|done]. simpl.
    apply Z.ltb_ge in Hlt. lia.
Qed.

Lemma run_keeps_stock_nonneg (schedule : list nat) (ps : gmap N Product)
    (wks : list Interleaving.Worker) :
  stock_nonneg ps → Forall Interleaving.holds_nonneg wks →
  stock_nonneg (Interleaving.run schedule ps wks).1.
Proof.
  revert ps wks. induction schedule as [|i schedule IH]; intros ps wks Hps Hwks; simpl; [done|].
  destruct (wks !! i) as [wk|] eqn:Hi; [|by apply IH].
  assert (Interleaving.holds_nonneg wk) as Hwk.
  { eapply (Forall_lookup_1 _ wks); eauto. }
  destruct (step_keeps_stock_nonneg ps wk Hps Hwk) as [Hps' Hwk'].
  destruct (Interleaving.step ps wk) as [ps' wk']. simpl in *.
  apply IH; [done|]. by apply Forall_insert.
Qed.

Lemma run_cons (i : nat) (schedule : list nat) (ps : gmap N Product)
    (wks : list Interleaving.Worker) (wk : Interleaving.Worker) :
  wks !! i = Some wk →
  Interleaving.run (i :: schedule) ps wks
  = Interleaving.run schedule (Interleaving.step ps wk).1
      (<[i := (Interleaving.step ps wk).2]> wks).
Proof. intros Hwk. simpl. rewrite Hwk. by destruct (Interleaving.step ps wk). Qed.

(* the SELECT of a worker that finds its product *)
Lemma step_start (ps : gmap N Product) (id : N) (p : Product) (q : Z) :
  get_active_product ps id = Some p →
  Interleaving.step ps (Interleaving.mkWorker id q Interleaving.Start)
  = (ps, Interleaving.mkWorker id q (Interleaving.Loaded p)).
Proof. intros Hp. unfold Interleaving.step. simpl. by rewrite Hp. Qed.

(* the UPDATE of a worker whose row passes the check *)
Lemma step_loaded (ps : gmap N Product) (id : N) (p : Product) (q : Z) :
  q ≤ product_stock_qty p →
  Interleaving.step ps (Interleaving.mkWorker id q (Interleaving.Loaded p))
  = (<[id := decrement_stock p q]> ps, Interleaving.mkWorker id q Interleaving.Reserved).
Proof.
  intros Hq. unfold Interleaving.step. simpl.
  apply Z.ltb_ge in Hq. by rewrite Hq.
Qed.

(** C2, as stated, fails: two workers each check out two units of tea, of
    which there are three, enough for one of them only.  Under the schedule
    in which both read the row before either writes it, both pass the check
    against the stock they read (3), both write 3 - 2, and both have their
    reservation: the check and the decrement are not one operation. *)
Lemma both_checkouts_reserve :
  let ps := products Sample.db0 in
  let r := Interleaving.run [0; 1; 0; 1]%nat ps Sample.two_buyers in
  product_stock_qty <$> ps !! 1%N = Some 3 ∧
  3 < 2 + 2 ∧
  map Interleaving.reserved r.2 = [true; true] ∧
  Interleaving.succeeded r.2 = 2%nat ∧
  product_stock_qty <$> r.1 !! 1%N = Some 1.
Proof. vm_compute. repeat split. Qed.

(** C2 (amended): the reservation is a read of the product row followed,
    after the comparison in the view, by a write of the stock computed from
    that read; nothing makes the two one operation.  What holds is this.
    Under every schedule of any number of workers the stored stock stays
    non-negative, since each write stores a stock that passed the check.
    When two checkouts of a product whose stock can satisfy only one of
    them run one after the other, the first gets its reservation, the second
    is refused, and the stock is down by the first quantity only.  When two
    checkouts of one product both read the row before either writes it, and
    the stock they read covers each quantity alone, both get their
    reservation, whether or not the stock covers the two together, and the
    stock left is the stock read less the quantity of the checkout that
    wrote last: the other decrement is lost.  Run alone, a worker changes
    the Product table exactly as one pass of the checkout loop does. *)
Theorem reservation_is_read_then_write :
  (∀ (schedule : list nat) (ps : gmap N Product) (wks : list Interleaving.Worker),
     stock_nonneg ps →
     Forall (fun wk => Interleaving.wk_pc wk = Interleaving.Start) wks →
     stock_nonneg (Interleaving.run schedule ps wks).1) ∧
  (∀ (ps : gmap N Product) (id : N) (p : Product) (q1 q2 : Z),
     get_active_product ps id = Some p →
     q1 ≤ product_stock_qty p →
     q2 ≤ product_stock_qty p →
     product_stock_qty p < q1 + q2 →
     Interleaving.run [0; 0; 1; 1]%nat ps
       [Interleaving.mkWorker id q1 Interleaving.Start;
        Interleaving.mkWorker id q2 Interleaving.Start]
     = (<[id := decrement_stock p q1]> ps,
        [Interleaving.mkWorker id q1 Interleaving.Reserved;
         Interleaving.mkWorker id q2 Interleaving.Rejected])) ∧
  (∀ (ps : gmap N Product) (id : N) (p : Product) (q1 q2 : Z) (reads : list nat),
     get_active_product ps id = Some p →
     q1 ≤ product_stock_qty p →
     q2 ≤ product_stock_qty p →
     reads = [0; 1]%nat ∨ reads = [1; 0]%nat →
     Interleaving.run (reads ++ [0; 1]%nat) ps
       [Interleaving.mkWorker id q1 Interleaving.Start;
        Interleaving.mkWorker id q2 Interleaving.Start]
     = (<[id := decrement_stock p q2]> ps,
        [Interleaving.mkWorker id q1 Interleaving.Reserved;
         Interleaving.mkWorker id q2 Interleaving.Reserved]) ∧
     Interleaving.run (reads ++ [1; 0]%nat) ps
       [Interleaving.mkWorker id q1 Interleaving.Start;
        Interleaving.mkWorker id q2 Interleaving.Start]
     = (<[id := decrement_stock p q1]> ps,
        [Interleaving.mkWorker id q1 Interleaving.Reserved;
         Interleaving.mkWorker id q2 Interleaving.Reserved])) ∧
  (∀ (order : Order) (d : Db) (id : N) (qty : Z),
     (Interleaving.run [0; 0]%nat (products d)
        [Interleaving.mkWorker id qty Interleaving.Start]).1
     = products (checkout_lines order [(str_of_id id, qty)] d []).1).
Proof.
  split; [|split; [|split]].
  - intros schedule ps wks Hps Hstart. apply run_keeps_stock_nonneg; [done|].
    eapply Forall_impl; [exact Hstart|]. unfold Interleaving.holds_nonneg. by intros wk ->.
  - intros ps id p q1 q2 Hp H1 H2 Hboth.
    assert (Hactive : product_is_active p = true).
    { unfold get_active_product in Hp. destruct (ps !! id) as [p'|]; [|done].
      destruct (product_is_active p') eqn:E; [|done]. by injection Hp as <-. }
    simpl. unfold Interleaving.step. simpl. rewrite Hp. simpl.
    apply Z.ltb_ge in H1 as H1'. rewrite H1'. simpl.
    unfold get_active_product. rewrite lookup_insert_eq. simpl. rewrite Hactive. simpl.
    assert ((product_stock_qty p - q1 <? q2) = true) as -> by (apply Z.ltb_lt; lia).
    done.
  - intros ps id p q1 q2 reads Hp H1 H2 Hreads.
    destruct Hreads as [-> | ->]; cbn [app]; split;
      do 2 (erewrite run_cons by reflexivity; rewrite (step_start _ _ p) by done;
            cbn [fst snd insert list_insert]);
      do 2 (erewrite run_cons by reflexivity; rewrite step_loaded by done;
            cbn [fst snd insert list_insert]);
      cbn [Interleaving.run]; by rewrite insert_insert_eq.
  - intros order d id qty. simpl. rewrite int_of_str_of_id.
    unfold Interleaving.step. simpl.
    destruct (get_active_product (products d) id) as [p|]; simpl; [|done].
    by destruct (product_stock_qty p <? qty).
Qed.

Lemma sample_stock_nonneg : stock_nonneg (products Sample.db0).
Proof.
  unfold stock_nonneg. simpl.
  repeat (apply map_Forall_insert_2; [by vm_compute|]).
  apply map_Forall_empty.
Defined.

Lemma reservation_is_read_then_write_witness :
  stock_nonneg (Interleaving.run [0; 1; 0; 1]%nat (products Sample.db0) Sample.two_buyers).1 ∧
  map Interleaving.reserved
    (Interleaving.run [0; 0; 1; 1]%nat (products Sample.db0) Sample.two_buyers).2
  = [true; false] ∧
  (Interleaving.run [1; 0; 0; 1]%nat (products Sample.db0) Sample.two_buyers)
  = (<[1%N := decrement_stock Sample.tea 2]> (products Sample.db0),
     [Interleaving.mkWorker 1 2 Interleaving.Reserved;
      Interleaving.mkWorker 1 2 Interleaving.Reserved]).
Proof.
  destruct reservation_is_read_then_write as (Hinv & Hserial & Hrace & _).
  split; [|split].
  - apply Hinv; [exact sample_stock_nonneg|].
    repeat constructor.
  - unfold Sample.two_buyers.
    rewrite (Hserial (products Sample.db0) 1%N Sample.tea 2 2);
      [reflexivity|reflexivity|by vm_compute..].
  - refine (proj1 (Hrace (products Sample.db0) 1%N Sample.tea 2 2 [1; 0]%nat _ _ _ _));
      [reflexivity|by vm_compute|by vm_compute|by right].
Defined.

(** * Further properties of the views *)

(** ** What each request can do to the database *)

Lemma checkout_lines_any (order : Order) (entries : list (string * Z)) (d : Db)
    (lines : list OrderItem) :
  ∃ new,
    order_items (checkout_lines order entries d lines).1 = order_items d ++ new ∧
    Forall (fun item => item_order item = order_id order) new ∧
    orders (checkout_lines order entries d lines).1 = orders d ∧
    next_order_id (checkout_lines order entries d lines).1 = next_order_id d.
Proof.
  revert d lines. induction entries as [|[key qty] entries IH]; intros d lines; simpl.
  { exists []. by rewrite app_nil_r. }
  destruct (int_of_str key) as [id|]; [|exists []; by rewrite app_nil_r].
  destruct (get_active_product (products d) id) as [p|]; [|exists []; by rewrite app_nil_r].
  destruct (product_stock_qty p <? qty); [exists []; by rewrite app_nil_r|].
  edestruct IH as (new & Hitems & Hord & Ho & Hn).
  eexists (_ :: new). rewrite Hitems, Ho, Hn. simpl. rewrite <- app_assoc. simpl.
  split; [done|]. split; [|done]. by constructor.
Qed.

Lemma checkout_lines_stock_nonneg (order : Order) (entries : list (string * Z)) (d : Db)
    (lines : list OrderItem) :
  stock_nonneg (products d) →
  stock_nonneg (products (checkout_lines order entries d lines).1).
Proof.
  revert d lines. induction entries as [|[key qty] entries IH]; intros d lines Hd; simpl; [done|].
  destruct (int_of_str key) as [id|]; [|done].
  unfold get_active_product.
  destruct (products d !! id) as [p|] eqn:Hp; [|done].
  destruct (product_is_active p); [|done].
  destruct (product_stock_qty p <? qty) eqn:Hlt; [done|].
  apply IH. simpl. apply map_Forall_insert_2; [|done]. simpl.
  apply Z.ltb_ge in Hlt. lia.
Qed.

(** The database after [checkout] is the one before, or the one the loop
    left after the Order row was created. *)
Lemma checkout_db (atomic_requests : bool) (now : Z) (request : Request) (w : World) :
  db (checkout atomic_requests now request w).2 = db w ∨
  ∃ uid,
    db (checkout atomic_requests now request w).2 =
    (checkout_lines (create_order uid now (db w)).1 (_get_cart (session w))
       (create_order uid now (db w)).2 []).1.
Proof.
  unfold checkout.
  destruct (request_user (db w) request) as [[uid user]|]; [|by left].
  destruct (_is_buyer user); [|by left]. cbn [negb].
  destruct (_get_cart (session w)) as [|e cart]; [by left|].
  destruct (create_order uid now (db w)) as [order d1] eqn:Hcreate.
  destruct (checkout_lines order (e :: cart) d1 []) as [d2 [response|lines]] eqn:Hrun.
  - assert (Hd2 : d2 = (checkout_lines (create_order uid now (db w)).1 (e :: cart)
                          (create_order uid now (db w)).2 []).1).
    { rewrite Hcreate. cbn [fst snd]. by rewrite Hrun. }
    destruct response as [| | |ex]; simpl; try (right; by exists uid).
    destruct atomic_requests; [by left|]. right. by exists uid.
  - assert (Hd2 : d2 = (checkout_lines (create_order uid now (db w)).1 (e :: cart)
                          (create_order uid now (db w)).2 []).1).
    { rewrite Hcreate. cbn [fst snd]. by rewrite Hrun. }
    right. exists uid. by destruct (decide (user_email user = ""%string)).
Qed.

(** Every view other than [checkout] leaves products, orders and order
    items alone. *)
Lemma perform_keeps_orders (op : Op) (now : Z) (request : Request) (w : World) :
  (∀ atomic_requests, op ≠ OpCheckout atomic_requests) →
  products (db (perform op now request w).2) = products (db w) ∧
  orders (db (perform op now request w).2) = orders (db w) ∧
  order_items (db (perform op now request w).2) = order_items (db w) ∧
  next_order_id (db (perform op now request w).2) = next_order_id (db w).
Proof.
  intros Hop. destruct op; simpl.
  - unfold cart_add. by destruct (get_active_product _ _).
  - unfold cart_remove. by destruct (dict_get _ _).
  - by destruct (Hop atomic_requests).
  - unfold forgot_password.
    destruct (req_method request); try done;
      (destruct (decide _); [done|]);
      (destruct (objects_get _) as [|[uid user]|]; [done| |done]);
      by destruct (reset_tokens (db w) !! _).
  - unfold reset_password_page.
    destruct (get_unused_token _ _) as [rt|]; [|done]. by destruct (is_expired now rt).
  - unfold reset_password_confirm.
    destruct (req_method request); try done.
    destruct (decide _); [done|].
    destruct (get_user _ _) as [[uid user]|]; [|done].
    destruct (get_bound_token _ _) as [[h rt]|]; [|done]. by destruct (is_expired now rt).
Qed.

(** A property of the order side of the database that the checkout loop
    keeps is kept by every request, and so along every trace. *)
Lemma perform_db_invariant (P : Db → Prop) :
  (∀ d d',
     products d' = products d → orders d' = orders d →
     order_items d' = order_items d → next_order_id d' = next_order_id d →
     P d → P d') →
  (∀ uid now cart d,
     P d →
     P (checkout_lines (create_order uid now d).1 cart (create_order uid now d).2 []).1) →
  ∀ op now request w, P (db w) → P (db (perform op now request w).2).
Proof.
  intros Hframe Hloop op now request w Hw.
  assert (Hother : (∀ a, op ≠ OpCheckout a) → P (db (perform op now request w).2)).
  { intros Hop. destruct (perform_keeps_orders op now request w Hop) as (? & ? & ? & ?).
    by eapply Hframe. }
  destruct op; try (apply Hother; intros a; discriminate).
  simpl. destruct (checkout_db atomic_requests now request w) as [->|[uid ->]]; [done|].
  by apply Hloop.
Qed.

Lemma run_trace_db_invariant (P : Db → Prop) :
  (∀ op now request w, P (db w) → P (db (perform op now request w).2)) →
  ∀ trace w, P (db w) → P (db (run_trace trace w)).
Proof.
  intros Hstep trace. induction trace as [|[[op now] request] trace IH]; intros w Hw; simpl;
    [done|].
  by apply IH, Hstep.
Qed.

(** X1: sequential requests never drive a stock below zero. *)
Theorem stock_never_negative (trace : list (Op * Z * Request)) (w : World) :
  stock_nonneg (products (db w)) →
  stock_nonneg (products (db (run_trace trace w))).
Proof.
  apply (run_trace_db_invariant (fun d => stock_nonneg (products d))).
  apply (perform_db_invariant (fun d => stock_nonneg (products d))).
  - intros d d' Hp _ _ _. by rewrite Hp.
  - intros uid now cart d Hd. by apply checkout_lines_stock_nonneg.
Qed.

Lemma stock_never_negative_witness :
  stock_nonneg
    (products (db (run_trace
                     [(OpCheckout false, 0, Sample.as_alice POST ∅);
                      (OpCheckout false, 1, Sample.as_alice POST ∅)]
                     (Sample.with_cart Sample.tea_then_mug Sample.world0)))).
Proof. apply stock_never_negative. exact sample_stock_nonneg. Defined.

(** Order ids are handed out once.  If the ids of the Order rows are
    distinct and below the counter, they still are after any sequence of
    requests, aborted checkouts included. *)
Theorem order_ids_stay_unique (trace : list (Op * Z * Request)) (w : World) :
  orders_wf (db w) → orders_wf (db (run_trace trace w)).
Proof.
  apply (run_trace_db_invariant orders_wf), (perform_db_invariant orders_wf).
  - unfold orders_wf. intros d d' _ Ho _ Hn. by rewrite Ho, Hn.
  - intros uid now cart d [Hlt Hnd]. unfold orders_wf.
    destruct (checkout_lines_any (create_order uid now d).1 cart
                (create_order uid now d).2 []) as (_ & _ & _ & -> & ->).
    simpl. split.
    + apply Forall_app. split.
      * eapply Forall_impl; [exact Hlt|]. simpl. intros o. lia.
      * constructor; [simpl; lia|constructor].
    + rewrite fmap_app. simpl. apply NoDup_app. split; [done|]. split; [|apply NoDup_singleton].
      intros id Hin Hnew. apply list_elem_of_singleton in Hnew as ->.
      apply list_elem_of_fmap in Hin as (o & Hid & Ho).
      rewrite Forall_forall in Hlt. specialize (Hlt o Ho). lia.
Qed.

Lemma order_ids_stay_unique_witness :
  orders_wf
    (db (run_trace
           [(OpCheckout false, 0, Sample.as_alice POST ∅);
            (OpCheckout false, 1, Sample.as_alice POST ∅)]
           (Sample.with_cart Sample.tea_then_mug Sample.world0))).
Proof.
  apply order_ids_stay_unique. split; [constructor|]. simpl. constructor.
Defined.

(** X2: every OrderItem belongs to an Order row.  If that holds of the
    database, it holds after any sequence of requests: the items a checkout
    writes carry the id of the Order row it created first. *)
Theorem order_items_keep_their_order (trace : list (Op * Z * Request)) (w : World) :
  items_have_orders (db w) → items_have_orders (db (run_trace trace w)).
Proof.
  apply (run_trace_db_invariant items_have_orders),
        (perform_db_invariant items_have_orders).
  - unfold items_have_orders. intros d d' _ Ho Hi _. by rewrite Ho, Hi.
  - intros uid now cart d Hd. unfold items_have_orders.
    destruct (checkout_lines_any (create_order uid now d).1 cart
                (create_order uid now d).2 []) as (new & -> & Hnew & -> & _).
    simpl. apply Forall_app. split.
    + eapply Forall_impl; [exact Hd|]. simpl. intros item Hin.
      rewrite fmap_app. apply elem_of_app. by left.
    + eapply Forall_impl; [exact Hnew|]. simpl. intros item ->.
      rewrite fmap_app. apply elem_of_app. right. simpl. by left.
Qed.

Lemma order_items_keep_their_order_witness :
  items_have_orders
    (db (run_trace
           [(OpCheckout false, 0, Sample.as_alice POST ∅)]
           (Sample.with_cart Sample.tea_then_mug Sample.world0))).
Proof. apply order_items_keep_their_order. constructor. Defined.

(** X3: orders and order items are only ever appended.  After any sequence
    of requests the rows that were there are still there, unchanged and in
    place, at the head of the tables. *)
Theorem orders_are_append_only (trace : list (Op * Z * Request)) (w : World) :
  orders (db w) `prefix_of` orders (db (run_trace trace w)) ∧
  order_items (db w) `prefix_of` order_items (db (run_trace trace w)).
Proof.
  apply (run_trace_db_invariant
           (fun d => orders (db w) `prefix_of` orders d ∧
                     order_items (db w) `prefix_of` order_items d));
    [|done].
  apply (perform_db_invariant
           (fun d => orders (db w) `prefix_of` orders d ∧
                     order_items (db w) `prefix_of` order_items d)).
  - intros d d' _ Ho Hi _. by rewrite Ho, Hi.
  - intros uid now cart d [Ho Hi].
    destruct (checkout_lines_any (create_order uid now d).1 cart
                (create_order uid now d).2 []) as (new & -> & _ & -> & _).
    simpl. split.
    + etrans; [exact Ho|]. by apply prefix_app_r.
    + etrans; [exact Hi|]. by apply prefix_app_r.
Qed.

(** ** What a completed checkout has done *)

(** X4: a completed checkout takes from every product exactly the quantity
    the cart asked of it: the row is the old one with the stock reduced by
    that quantity (by nothing for a product that is not in the cart), and no
    product row is added or removed. *)
Theorem checkout_takes_the_cart_quantities
    (atomic_requests : bool) (now : Z) (request : Request) (w w' : World)
    (response : Response) (id : N) :
  checkout atomic_requests now request w = (response, w') →
  is_success response = true →
  products (db w') !! id =
  (fun p => decrement_stock p (requested_qty id (_get_cart (session w))))
    <$> products (db w) !! id.
Proof.
  intros Hrun Hok.
  destruct (checkout_cases atomic_requests now request w)
    as [(Hno & _)|(uid & user & order & d1 & d2 & lines & _ & _ & Hcreate & Hloop & E)].
  { rewrite Hrun in Hno. simpl in Hno. congruence. }
  rewrite Hrun in E. injection E as -> ->. simpl.
  rewrite (checkout_lines_stock _ _ _ _ _ _ id Hloop).
  by assert (d1 = (create_order uid now (db w)).2) as -> by (by rewrite Hcreate).
Qed.

Lemma checkout_takes_the_cart_quantities_witness :
  product_stock_qty
    <$> products (db (checkout false 0 (Sample.as_alice POST ∅) Sample.pot_then_tea).2) !! 3%N
  = Some 3.
Proof.
  rewrite (checkout_takes_the_cart_quantities false 0 (Sample.as_alice POST ∅)
             Sample.pot_then_tea
             (checkout false 0 (Sample.as_alice POST ∅) Sample.pot_then_tea).2
             (checkout false 0 (Sample.as_alice POST ∅) Sample.pot_then_tea).1 3%N);
    [by vm_compute|by vm_compute|by vm_compute].
Defined.

(** The items that the loop creates are snapshots of rows of the Product
    table it started from. *)
Lemma checkout_lines_snapshot (order : Order) (entries : list (string * Z)) (d d' : Db)
    (lines lines' : list OrderItem) :
  checkout_lines order entries d lines = (d', inr lines') →
  ∃ new,
    lines' = lines ++ new ∧
    Forall (fun item =>
              ∃ p, products d !! item_product item = Some p ∧
                   product_is_active p = true ∧
                   item_unit_price item = product_price p ∧
                   item_store item = product_store p)
      new.
Proof.
  revert d lines. induction entries as [|[key qty] entries IH]; intros d lines; simpl.
  - intros [= <- <-]. exists []. by rewrite app_nil_r.
  - destruct (int_of_str key) as [id|]; [|done].
    unfold get_active_product.
    destruct (products d !! id) as [p|] eqn:Hp; [|done].
    destruct (product_is_active p) eqn:Ha; [|done].
    destruct (product_stock_qty p <? qty); [done|].
    intros H. apply IH in H as (new & -> & Hnew).
    eexists (_ :: new). rewrite <- app_assoc. split; [done|].
    constructor.
    + exists p. by simpl.
    + eapply Forall_impl; [exact Hnew|]. simpl. intros item (p' & Hp' & Ha' & Hprice & Hstore).
      simpl in Hp'.
      destruct (decide (id = item_product item)) as [Heq|Hne].
      * rewrite <- Heq in *. rewrite lookup_insert_eq in Hp'. injection Hp' as <-.
        by exists p.
      * rewrite lookup_insert_ne in Hp' by done. by exists p'.
Qed.

(** X5: the items of a completed checkout are snapshots.  Each one names a
    product that was in the table and active when the request came in, and
    carries that product's price as its unit price and that product's store
    as its store. *)
Theorem order_items_snapshot_the_product
    (atomic_requests : bool) (now : Z) (request : Request) (w w' : World)
    (order : Order) (lines : list OrderItem) :
  checkout atomic_requests now request w =
    (Render "shop/checkout_success.html"
       (mkContext None None None (Some order) (Some lines) None), w') →
  order_items (db w') = order_items (db w) ++ lines ∧
  Forall (fun item =>
            item_order item = order_id order ∧
            ∃ p, products (db w) !! item_product item = Some p ∧
                 product_is_active p = true ∧
                 item_unit_price item = product_price p ∧
                 item_store item = product_store p)
    lines.
Proof.
  intros Hrun.
  destruct (checkout_cases atomic_requests now request w)
    as [(Hno & _)|(uid & user & order' & d1 & d2 & lines' & _ & _ & Hcreate & Hloop & E)].
  { rewrite Hrun in Hno. simpl in Hno. discriminate. }
  rewrite Hrun in E. injection E as -> -> ->. simpl.
  assert (d1 = (create_order uid now (db w)).2) as Hd1 by (by rewrite Hcreate).
  destruct (checkout_lines_ok _ _ _ _ _ _ Hloop) as (new & Hnew & Hitems & _ & _ & _ & Hord & _).
  simpl in Hnew. subst new.
  destruct (checkout_lines_snapshot _ _ _ _ _ _ Hloop) as (new & Hnew & Hsnap).
  simpl in Hnew. subst new.
  split; [by rewrite Hitems, Hd1|].
  apply Forall_forall. intros item Hin.
  rewrite Forall_forall in Hord, Hsnap. split; [by apply Hord|].
  destruct (Hsnap item Hin) as (p & Hp & ?). exists p. by rewrite Hd1 in Hp.
Qed.

Lemma order_items_snapshot_the_product_witness :
  order_items (db (checkout false 0 (Sample.as_alice POST ∅) Sample.pot_then_tea).2)
  = [mkOrderItem 1 3 1 1 (Decimal.Dec 1200 (-2)); mkOrderItem 1 1 1 1 (Decimal.Dec 999 (-2))].
Proof.
  apply (order_items_snapshot_the_product false 0 (Sample.as_alice POST ∅)
           Sample.pot_then_tea
           (checkout false 0 (Sample.as_alice POST ∅) Sample.pot_then_tea).2
           (mkOrder 1 1 0)
           [mkOrderItem 1 3 1 1 (Decimal.Dec 1200 (-2));
            mkOrderItem 1 1 1 1 (Decimal.Dec 999 (-2))]).
  by vm_compute.
Defined.

(** X6: the guards of [checkout], in the order the view applies them.  A
    request with no known user is sent to the login page; a user outside
    the Buyers group gets "Buyers only."; a buyer with an empty cart (or
    none) gets the cart page with "Cart is empty.".  None of the three
    changes anything: no Order row is created. *)
Theorem checkout_guards (atomic_requests : bool) (now : Z) (request : Request) (w : World) :
  (request_user (db w) request = None →
   checkout atomic_requests now request w = (Redirect "/login/", w)) ∧
  (∀ uid user,
     request_user (db w) request = Some (uid, user) →
     "Buyers"%string ∉ user_groups user →
     checkout atomic_requests now request w = (HttpResponseForbidden "Buyers only.", w)) ∧
  (∀ uid user,
     request_user (db w) request = Some (uid, user) →
     "Buyers"%string ∈ user_groups user →
     _get_cart (session w) = [] →
     checkout atomic_requests now request w =
       (Render "shop/cart.html"
          (mkContext (Some "Cart is empty."%string) None None None (Some []) (Some 0)), w)).
Proof.
  unfold checkout, _is_buyer. split; [|split].
  - by intros ->.
  - intros uid user -> Hno. by rewrite bool_decide_eq_false_2.
  - intros uid user -> Hin ->. by rewrite bool_decide_eq_true_2.
Qed.

Lemma checkout_guards_witness :
  checkout false 0 (Sample.anonymous POST ∅)
    (Sample.with_cart Sample.tea_then_mug Sample.world0)
  = (Redirect "/login/", Sample.with_cart Sample.tea_then_mug Sample.world0) ∧
  checkout false 0 (mkRequest POST (Some 2%N) ∅)
    (Sample.with_cart Sample.tea_then_mug Sample.world0)
  = (HttpResponseForbidden "Buyers only.",
     Sample.with_cart Sample.tea_then_mug Sample.world0) ∧
  (checkout false 0 (Sample.as_alice POST ∅) Sample.world0).2 = Sample.world0.
Proof.
  split; [|split].
  - by apply checkout_guards.
  - apply (proj1 (proj2 (checkout_guards false 0 (mkRequest POST (Some 2%N) ∅)
                           (Sample.with_cart Sample.tea_then_mug Sample.world0)))
             2%N Sample.vera); [done|].
    simpl. intros Hin. apply list_elem_of_singleton in Hin. discriminate.
  - rewrite (proj2 (proj2 (checkout_guards false 0 (Sample.as_alice POST ∅) Sample.world0))
               1%N Sample.alice); [done|done| |done].
    simpl. by left.
Defined.

(** ** The cart dict *)

Lemma dict_get_None (key : string) (d : list (string * Z)) :
  dict_get key d = None ↔ key ∉ d.*1.
Proof.
  induction d as [|[k v] d IH]; simpl.
  - split; [intros _; apply not_elem_of_nil|done].
  - rewrite not_elem_of_cons. destruct (decide (k = key)) as [->|Hne].
    + split; [done|]. by intros [? _].
    + rewrite IH. split; [by intros ?; split|by intros [_ ?]].
Qed.

Lemma dict_get_Some (key : string) (v : Z) (d : list (string * Z)) :
  dict_get key d = Some v → (key, v) ∈ d.
Proof.
  induction d as [|[k v0] d IH]; simpl; [done|].
  destruct (decide (k = key)) as [->|Hne].
  - intros [= ->]. by left.
  - intros H. right. by apply IH.
Qed.

Lemma dict_get_set_eq (key : string) (v : Z) (d : list (string * Z)) :
  dict_get key (dict_set key v d) = Some v.
Proof.
  induction d as [|[k v0] d IH]; simpl.
  - by rewrite decide_True.
  - destruct (decide (k = key)) as [->|Hne]; simpl.
    + by rewrite decide_True.
    + by rewrite decide_False.
Qed.

Lemma dict_get_set_ne (key k : string) (v : Z) (d : list (string * Z)) :
  k ≠ key → dict_get k (dict_set key v d) = dict_get k d.
Proof.
  intros Hne. induction d as [|[k0 v0] d IH]; simpl.
  - by rewrite decide_False.
  - destruct (decide (k0 = key)) as [->|Hne0]; simpl.
    + by rewrite !decide_False.
    + by rewrite IH.
Qed.

Lemma dict_set_keys_fmap (key : string) (v : Z) (d : list (string * Z)) :
  (dict_set key v d).*1 =
  match dict_get key d with
  | Some _ => d.*1
  | None => d.*1 ++ [key]
  end.
Proof.
  induction d as [|[k v0] d IH]; [done|]. cbn [dict_set dict_get].
  destruct (decide (k = key)); [done|].
  rewrite !fmap_cons, IH. by destruct (dict_get key d).
Qed.

Lemma dict_pop_keys (key : string) (d : list (string * Z)) :
  (dict_pop key d).*1 `sublist_of` d.*1 ∧ dict_pop key d `sublist_of` d.
Proof.
  induction d as [|[k v] d [IH1 IH2]]; simpl; [done|].
  destruct (decide (k = key)); simpl.
  - split; by apply sublist_cons.
  - split; by apply sublist_skip.
Qed.

Lemma dict_get_pop_eq (key : string) (d : list (string * Z)) :
  NoDup (d.*1) → dict_get key (dict_pop key d) = None.
Proof.
  induction d as [|[k v] d IH]; simpl; [done|].
  intros [Hk Hd]%NoDup_cons. destruct (decide (k = key)) as [->|Hne]; simpl.
  - by apply dict_get_None.
  - rewrite decide_False by done. by apply IH.
Qed.

Lemma dict_pop_set_fresh (key : string) (v : Z) (d : list (string * Z)) :
  dict_get key d = None → dict_pop key (dict_set key v d) = d.
Proof.
  induction d as [|[k v0] d IH]; simpl.
  - by rewrite decide_True.
  - destruct (decide (k = key)) as [->|Hne]; [done|]. simpl.
    rewrite decide_False by done. intros H. by rewrite IH.
Qed.

Lemma dict_set_wf (id : N) (d : list (string * Z)) :
  cart_wf d →
  cart_wf (dict_set (str_of_id id) (default 0 (dict_get (str_of_id id) d) + 1) d).
Proof.
  intros [Hnd Hall]. split.
  - rewrite dict_set_keys_fmap.
    destruct (dict_get (str_of_id id) d) eqn:Hget; [done|].
    apply NoDup_app. split; [done|]. split; [|apply NoDup_singleton].
    intros k Hk ->%list_elem_of_singleton. by apply dict_get_None in Hget.
  - assert (1 ≤ default 0 (dict_get (str_of_id id) d) + 1) as Hv.
    { destruct (dict_get (str_of_id id) d) as [v|] eqn:Hget; simpl; [|lia].
      apply dict_get_Some in Hget. rewrite Forall_forall in Hall.
      destruct (Hall _ Hget) as [_ Hq]. simpl in Hq. lia. }
    revert Hv. generalize (default 0 (dict_get (str_of_id id) d) + 1). intros v Hv.
    clear Hnd. induction Hall as [|[k v0] d [Hk Hq] Hall IH]; simpl.
    + constructor; [|constructor]. split; [by exists id|done].
    + destruct (decide (k = str_of_id id)).
      * constructor; [|done]. split; [by exists id|done].
      * constructor; [done|]. apply IH.
Qed.

Lemma dict_pop_Forall (P : string * Z → Prop) (key : string) (d : list (string * Z)) :
  Forall P d → Forall P (dict_pop key d).
Proof.
  induction 1 as [|[k v] d Hx Hd IH]; simpl; [constructor|].
  destruct (decide (k = key)); [done|]. by constructor.
Qed.

Lemma dict_pop_wf (key : string) (d : list (string * Z)) :
  cart_wf d → cart_wf (dict_pop key d).
Proof.
  intros [Hnd Hall]. destruct (dict_pop_keys key d) as [Hk Hs]. split.
  - by eapply sublist_NoDup.
  - by apply dict_pop_Forall.
Qed.

Lemma cart_wf_nil : cart_wf [].
Proof. split; constructor. Qed.

(** The cart after a request is the cart before, or the cart that
    [cart_add] or [cart_remove] made of it, or empty. *)
Lemma perform_cart (op : Op) (now : Z) (request : Request) (w : World) :
  let cart := _get_cart (session w) in
  let cart' := _get_cart (session (perform op now request w).2) in
  cart' = cart ∨ cart' = [] ∨
  (∃ id, cart' = dict_set (str_of_id id) (default 0 (dict_get (str_of_id id) cart) + 1) cart) ∨
  (∃ key, cart' = dict_pop key cart).
Proof.
  destruct op; simpl.
  - unfold cart_add. destruct (get_active_product _ _); simpl; [|by left].
    right; right; left. by exists product_id.
  - unfold cart_remove. destruct (dict_get _ _); simpl; [|by left].
    right; right; right. by eexists.
  - destruct (checkout_cases atomic_requests now request w)
      as [(_ & -> & _)|(uid & user & order & d1 & d2 & lines & _ & _ & _ & _ & ->)];
      [by left|by right; left].
  - left. unfold forgot_password, _get_cart.
    destruct (req_method request); try done;
      (destruct (decide _); [done|]);
      (destruct (objects_get _) as [|[uid user]|]; [done| |done]);
      by destruct (reset_tokens (db w) !! _).
  - left. unfold reset_password_page, _get_cart.
    destruct (get_unused_token _ _) as [rt|]; [|done]. by destruct (is_expired now rt).
  - left. unfold reset_password_confirm, _get_cart.
    destruct (req_method request); try done.
    destruct (decide _); [done|].
    destruct (get_user _ _) as [[uid user]|]; [|done].
    destruct (get_bound_token _ _) as [[h rt]|]; [|done]. by destruct (is_expired now rt).
Qed.

(** X7: the cart keeps the shape [cart_add] gives it.  If the cart has one
    entry per key, every key the decimal string of a product id and every
    quantity at least 1, then so it has after any sequence of requests. *)
Theorem cart_stays_well_formed (trace : list (Op * Z * Request)) (w : World) :
  cart_wf (_get_cart (session w)) →
  cart_wf (_get_cart (session (run_trace trace w))).
Proof.
  revert w. induction trace as [|[[op now] request] trace IH]; intros w Hw; simpl; [done|].
  apply IH.
  destruct (perform_cart op now request w) as [->|[->|[[id ->]|[key ->]]]].
  - done.
  - apply cart_wf_nil.
  - by apply dict_set_wf.
  - by apply dict_pop_wf.
Qed.

Lemma cart_stays_well_formed_witness :
  cart_wf
    (_get_cart (session (run_trace
                           [(OpCartAdd 3, 0, Sample.as_alice GET ∅);
                            (OpCartAdd 1, 1, Sample.as_alice GET ∅);
                            (OpCartAdd 3, 2, Sample.as_alice GET ∅);
                            (OpCartRemove 1, 3, Sample.as_alice GET ∅)]
                           Sample.world0))).
Proof. apply cart_stays_well_formed. apply cart_wf_nil. Defined.

Lemma get_save_cart (s : Session) (cart : list (string * Z)) :
  _get_cart (_save_cart s cart) = cart.
Proof. done. Qed.

(** X8: [cart_add].  For a product that exists and is active, the quantity
    under its key goes up by one (from 0 when the key is new), every other
    entry is as it was, and the database is untouched.  For a product that
    is missing or inactive the view raises Http404 and changes nothing. *)
Theorem cart_add_adds_one (request : Request) (product_id : N) (w : World) :
  (is_Some (get_active_product (products (db w)) product_id) →
   let w' := (cart_add request product_id w).2 in
   (cart_add request product_id w).1 = Redirect "cart" ∧
   dict_get (str_of_id product_id) (_get_cart (session w')) =
     Some (default 0 (dict_get (str_of_id product_id) (_get_cart (session w))) + 1) ∧
   (∀ key, key ≠ str_of_id product_id →
      dict_get key (_get_cart (session w')) = dict_get key (_get_cart (session w))) ∧
   db w' = db w) ∧
  (get_active_product (products (db w)) product_id = None →
   cart_add request product_id w = (Raised Http404, w)).
Proof.
  unfold cart_add. split.
  - intros [p ->]. simpl. split; [done|]. split; [apply dict_get_set_eq|]. split; [|done].
    intros key Hne. by apply dict_get_set_ne.
  - by intros ->.
Qed.

Lemma cart_add_adds_one_witness :
  dict_get "3" (_get_cart (session (cart_add (Sample.as_alice GET ∅) 3 Sample.pot_then_tea).2))
  = Some 2 ∧
  cart_add (Sample.as_alice GET ∅) 7 Sample.world0 = (Raised Http404, Sample.world0).
Proof.
  split.
  - refine (proj1 (proj2 (proj1 (cart_add_adds_one (Sample.as_alice GET ∅) 3
                                   Sample.pot_then_tea) _))).
    by eexists.
  - by apply cart_add_adds_one.
Defined.

(** X9: [cart_remove].  On a cart with one entry per key, the entry of the
    product is gone afterwards and every other entry is as it was; when the
    product is not in the cart nothing changes, so removing twice is
    removing once.  The database is never touched. *)
Theorem cart_remove_removes_the_entry (request : Request) (product_id : N) (w : World) :
  NoDup ((_get_cart (session w)).*1) →
  let w' := (cart_remove request product_id w).2 in
  dict_get (str_of_id product_id) (_get_cart (session w')) = None ∧
  (∀ key, key ≠ str_of_id product_id →
     dict_get key (_get_cart (session w')) = dict_get key (_get_cart (session w))) ∧
  db w' = db w ∧
  cart_remove request product_id w' = (Redirect "cart", w').
Proof.
  intros Hnd. unfold cart_remove.
  destruct (dict_get (str_of_id product_id) (_get_cart (session w))) as [v|] eqn:Hget; simpl.
  - rewrite !get_save_cart, dict_get_pop_eq by done. repeat split; try done.
    intros key Hne. by apply dict_get_pop_ne.
  - by rewrite Hget.
Qed.

Lemma cart_remove_removes_the_entry_witness :
  _get_cart (session (cart_remove (Sample.as_alice GET ∅) 3 Sample.pot_then_tea).2)
  = [("1"%string, 1)] ∧
  dict_get "3"
    (_get_cart (session (cart_remove (Sample.as_alice GET ∅) 3 Sample.pot_then_tea).2))
  = None.
Proof.
  split; [by vm_compute|].
  apply (cart_remove_removes_the_entry (Sample.as_alice GET ∅) 3 Sample.pot_then_tea).
  vm_compute. apply NoDup_cons. split.
  - intros Hin. apply list_elem_of_singleton in Hin. discriminate.
  - apply NoDup_singleton.
Defined.

(** X10: adding a product that is not in the cart and removing it again
    gives back the cart as it was, the order of its entries included. *)
Theorem cart_add_then_remove (request : Request) (product_id : N) (w : World) :
  is_Some (get_active_product (products (db w)) product_id) →
  dict_get (str_of_id product_id) (_get_cart (session w)) = None →
  let w' := (cart_remove request product_id (cart_add request product_id w).2).2 in
  _get_cart (session w') = _get_cart (session w) ∧ db w' = db w ∧ outbox w' = outbox w.
Proof.
  intros [p Hp] Hfresh. unfold cart_add. rewrite Hp.
  unfold cart_remove. cbn [fst snd session set_session db outbox].
  rewrite !get_save_cart, dict_get_set_eq. cbn [fst snd session set_session db outbox].
  rewrite get_save_cart, Hfresh. simpl. by rewrite dict_pop_set_fresh.
Qed.

Lemma cart_add_then_remove_witness :
  _get_cart (session (cart_remove (Sample.as_alice GET ∅) 2
                        (cart_add (Sample.as_alice GET ∅) 2 Sample.pot_then_tea).2).2)
  = [("3"%string, 1); ("1"%string, 1)].
Proof.
  refine (eq_trans
            (proj1 (cart_add_then_remove (Sample.as_alice GET ∅) 2 Sample.pot_then_tea _ _))
            _).
  - by eexists.
  - by vm_compute.
  - by vm_compute.
Defined.

Lemma checkout_lines_parses (order : Order) (entries : list (string * Z)) (d : Db)
    (lines : list OrderItem) :
  Forall (fun entry => ∃ id, entry.1 = str_of_id id) entries →
  (checkout_lines order entries d lines).2 ≠ inl (Raised ValueError).
Proof.
  intros Hall. revert d lines.
  induction Hall as [|[key qty] entries [id Hkey] _ IH]; intros d lines; simpl; [done|].
  simpl in Hkey. rewrite Hkey, int_of_str_of_id.
  destruct (get_active_product (products d) id) as [p|]; [|done].
  destruct (product_stock_qty p <? qty); [done|]. apply IH.
Qed.

(** X11: a cart built by [cart_add] always parses.  On a cart in which
    every key is the decimal string of a product id, [int(pid_str)] gives
    that id back, and [checkout] never ends in a ValueError. *)
Theorem checkout_never_fails_to_parse
    (atomic_requests : bool) (now : Z) (request : Request) (w : World) :
  cart_wf (_get_cart (session w)) →
  Forall (fun entry => ∃ id, entry.1 = str_of_id id ∧ int_of_str entry.1 = Some id)
    (_get_cart (session w)) ∧
  (checkout atomic_requests now request w).1 ≠ Raised ValueError.
Proof.
  intros [_ Hall]. split.
  - eapply Forall_impl; [exact Hall|]. simpl. intros entry [[id Hid] _].
    exists id. by rewrite Hid, int_of_str_of_id.
  - assert (Hkeys : Forall (fun entry => ∃ id, entry.1 = str_of_id id) (_get_cart (session w))).
    { eapply Forall_impl; [exact Hall|]. by intros entry [? _]. }
    unfold checkout.
    destruct (request_user (db w) request) as [[uid user]|]; [|done].
    destruct (_is_buyer user); [|done]. cbn [negb].
    destruct (_get_cart (session w)) as [|e cart] eqn:Hcart; [done|].
    destruct (create_order uid now (db w)) as [order d1].
    pose proof (checkout_lines_parses order (e :: cart) d1 [] Hkeys) as Hp.
    destruct (checkout_lines order (e :: cart) d1 []) as [d2 [response|lines]]; [|done].
    simpl in Hp. destruct response as [| | |ex]; try done.
    simpl. intros [= ->]. by apply Hp.
Qed.

Lemma checkout_never_fails_to_parse_witness :
  (checkout false 0 (Sample.as_alice POST ∅) Sample.pot_then_tea).1 ≠ Raised ValueError.
Proof.
  apply checkout_never_fails_to_parse.
  unfold Sample.pot_then_tea, cart_add. simpl.
  apply (dict_set_wf 1 [(str_of_id 3, 1)]), (dict_set_wf 3 []), cart_wf_nil.
Defined.

(** ** Forgot password: the other ways out *)

Lemma users_with_email_two (email : string) (us : gmap N User) (uid1 uid2 : N) (u1 u2 : User) :
  uid1 ≠ uid2 →
  us !! uid1 = Some u1 → user_email u1 = email →
  us !! uid2 = Some u2 → user_email u2 = email →
  objects_get (users_with_email email us) = Multiple.
Proof.
  intros Hne H1 E1 H2 E2.
  assert (Hin : ∀ uid u, us !! uid = Some u → user_email u = email →
                         (uid, u) ∈ users_with_email email us).
  { intros uid u Hu Hm. apply list_elem_of_filter. split; [done|].
    by apply elem_of_map_to_list. }
  pose proof (Hin _ _ H1 E1) as Hin1. pose proof (Hin _ _ H2 E2) as Hin2.
  destruct (users_with_email email us) as [|r1 [|r2 rows]]; simpl; [| |done].
  - by apply elem_of_nil in Hin1.
  - apply list_elem_of_singleton in Hin1. apply list_elem_of_singleton in Hin2. congruence.
Qed.

(** X12: the refusals of [forgot_password].  A GET shows the form.  A
    posted email that is missing or all white space is answered "Email
    required.".  When two users have the posted email, the lookup raises
    MultipleObjectsReturned.  When the token drawn hashes to a hash that is
    already stored, the insert raises IntegrityError.  In all four cases no
    token is stored and no mail is sent. *)
Theorem forgot_password_refusals (raw_token : string) (now : Z) (request : Request)
    (w : World) :
  (req_method request = GET →
   forgot_password raw_token now request w = (render_forgot None None, w)) ∧
  (req_method request ≠ GET →
   strip (post_get request "email" "") = ""%string →
   forgot_password raw_token now request w =
     (render_forgot (Some "Email required."%string) None, w)) ∧
  (∀ uid1 uid2 u1 u2,
     req_method request ≠ GET →
     strip (post_get request "email" "") ≠ ""%string →
     uid1 ≠ uid2 →
     users (db w) !! uid1 = Some u1 →
     user_email u1 = strip (post_get request "email" "") →
     users (db w) !! uid2 = Some u2 →
     user_email u2 = strip (post_get request "email" "") →
     forgot_password raw_token now request w = (Raised MultipleObjectsReturned, w)) ∧
  (∀ uid u,
     req_method request ≠ GET →
     strip (post_get request "email" "") ≠ ""%string →
     users_with_email (strip (post_get request "email" "")) (users (db w)) = [(uid, u)] →
     is_Some (reset_tokens (db w) !! Sha1.hexdigest raw_token) →
     forgot_password raw_token now request w = (Raised IntegrityError, w)).
Proof.
  unfold forgot_password. split; [|split; [|split]].
  - by intros ->.
  - intros Hm ->. by destruct (req_method request).
  - intros uid1 uid2 u1 u2 Hm He Hne H1 E1 H2 E2.
    rewrite (users_with_email_two _ _ _ _ _ _ Hne H1 E1 H2 E2).
    destruct (req_method request); try done; by destruct (decide _).
  - intros uid u Hm He Hrows [rt Hrt]. rewrite Hrows, Hrt. simpl.
    destruct (req_method request); try done; by destruct (decide _).
Qed.

Lemma forgot_password_refusals_witness :
  forgot_password "r4nd0m" 0 (Sample.anonymous POST (Sample.email_form "   ")) Sample.world0
  = (render_forgot (Some "Email required."%string) None, Sample.world0) ∧
  forgot_password "r4nd0m" 0
    (Sample.anonymous POST (Sample.email_form "alice@example.com"))
    (set_db (set_users (<[7%N := Sample.alice]> (users Sample.db0)) Sample.db0) Sample.world0)
  = (Raised MultipleObjectsReturned,
     set_db (set_users (<[7%N := Sample.alice]> (users Sample.db0)) Sample.db0) Sample.world0).
Proof.
  split.
  - by apply forgot_password_refusals.
  - apply (proj1 (proj2 (proj2 (forgot_password_refusals "r4nd0m" 0
             (Sample.anonymous POST (Sample.email_form "alice@example.com"))
             (set_db (set_users (<[7%N := Sample.alice]> (users Sample.db0)) Sample.db0)
                Sample.world0))))
             7%N 1%N Sample.alice Sample.alice); by vm_compute.
Defined.

(** ** Whose credential a redemption changes *)

(** X13: the confirm step can change one thing about users: the password of
    the user bound in the session.  Whatever the outcome, every other user
    row is as before, no user row is added or removed, and the bound user
    keeps its username, email and groups. *)
Theorem confirm_touches_only_the_bound_user (now : Z) (request : Request) (w : World)
    (uid : N) :
  let w' := (reset_password_confirm now request w).2 in
  (reset_user_id (session w) ≠ Some uid → users (db w') !! uid = users (db w) !! uid) ∧
  (∀ u', users (db w') !! uid = Some u' →
     ∃ u, users (db w) !! uid = Some u ∧
          user_username u' = user_username u ∧
          user_email u' = user_email u ∧
          user_groups u' = user_groups u) ∧
  (users (db w') !! uid = None → users (db w) !! uid = None).
Proof.
  destruct (reset_password_confirm_cases now request w)
    as [(_ & ->)|[(_ & _ & ->)|[(_ & _ & _ & _ & ->)
       |[(h' & rt' & _ & _ & _ & _ & _ & ->)
        |(uid0 & user & h & rt & _ & _ & _ & Hsu & Hu & _ & _ & _ & _ & ->)]]]];
    simpl; try (split; [done|split; [by eauto|done]]).
  split; [|split].
  - intros Hne. rewrite lookup_insert_ne; [done|]. intros ->. by rewrite Hsu in Hne.
  - intros u'. destruct (decide (uid0 = uid)) as [->|Hne].
    + rewrite lookup_insert_eq. intros [= <-]. by exists user.
    + rewrite lookup_insert_ne by done. by eauto.
  - destruct (decide (uid0 = uid)) as [->|Hne].
    + by rewrite lookup_insert_eq.
    + by rewrite lookup_insert_ne.
Qed.

Lemma page_keeps_users (now : Z) (request : Request) (token : string) (w : World) :
  users (db (reset_password_page now request token w).2) = users (db w).
Proof.
  unfold reset_password_page.
  destruct (get_unused_token _ _) as [rt|]; [|done]. by destruct (is_expired now rt).
Qed.

(** X14: only the confirm step changes users.  A sequence of requests in
    which no request goes to the confirm step leaves every user row as it
    was: carts, checkouts, forgot-password requests and visits to the reset
    page never change a credential. *)
Theorem users_change_only_by_confirm (trace : list (Op * Z * Request)) (w : World) :
  Forall (fun step => step.1.1 ≠ OpResetConfirm) trace →
  users (db (run_trace trace w)) = users (db w).
Proof.
  intros Hall. revert w.
  induction Hall as [|[[op now] request] trace Hop _ IH]; intros w; simpl; [done|].
  rewrite IH. simpl in Hop. destruct op; simpl.
  - unfold cart_add. by destruct (get_active_product _ _).
  - unfold cart_remove. by destruct (dict_get _ _).
  - by destruct (checkout_frame atomic_requests now request w).
  - by destruct (forgot_password_tokens raw_token now request w).
  - apply page_keeps_users.
  - done.
Qed.

Lemma users_change_only_by_confirm_witness :
  users (db (run_trace
               [(OpForgotPassword "r4nd0m", 0,
                 Sample.anonymous POST (Sample.email_form "alice@example.com"));
                (OpResetPage "r4nd0m", 1, Sample.anonymous GET ∅);
                (OpCheckout false, 2, Sample.as_alice POST ∅)]
               Sample.world0))
  = users Sample.db0.
Proof.
  apply (users_change_only_by_confirm _ Sample.world0).
  repeat constructor; discriminate.
Defined.

Lemma confirm_touches_only_the_bound_user_witness :
  users (db Sample.redeemed) !! 2%N = Some Sample.vera ∧
  ∃ u, users (db Sample.redeemed) !! 1%N = Some u ∧ user_username u = "alice"%string.
Proof.
  destruct (confirm_touches_only_the_bound_user 1000000
              (Sample.anonymous POST (Sample.password_form "new" "new"))
              (Sample.opened 0) 2%N) as (Hother & _ & _).
  destruct (confirm_touches_only_the_bound_user 1000000
              (Sample.anonymous POST (Sample.password_form "new" "new"))
              (Sample.opened 0) 1%N) as (_ & Hbound & _).
  split.
  - unfold Sample.redeemed. rewrite Hother; by vm_compute.
  - destruct (Hbound (mkUser "alice" "alice@example.com" "new" ["Buyers"%string]))
      as (u & Hu & Hname & _); [by vm_compute|].
    eexists. split; [by vm_compute|done].
Defined.

(** ** The reset, as the URLs serve it *)

Lemma perform_keeps_users (op : Op) (now : Z) (request : Request) (w : World) :
  op ≠ OpResetConfirm → users (db (perform op now request w).2) = users (db w).
Proof.
  intros Hop. destruct op; simpl.
  - unfold cart_add. by destruct (get_active_product _ _).
  - unfold cart_remove. by destruct (dict_get _ _).
  - by destruct (checkout_frame atomic_requests now request w).
  - by destruct (forgot_password_tokens raw_token now request w).
  - apply page_keeps_users.
  - done.
Qed.

Lemma resolve_in_app (ps1 ps2 : list (list Segment * View)) (segs : list string) :
  resolve_in (ps1 ++ ps2) segs =
  match resolve_in ps1 segs with
  | Some found => Some found
  | None => resolve_in ps2 segs
  end.
Proof.
  induction ps1 as [|[route view] ps1 IH]; simpl; [done|].
  by destruct (match_route route segs).
Qed.

Lemma resolve_in_view (ps : list (list Segment * View)) (segs : list string)
    (view : View) (args : list string) :
  resolve_in ps segs = Some (view, args) → view ∈ ps.*2.
Proof.
  induction ps as [|[route view'] ps IH]; simpl; [done|].
  destruct (match_route route segs).
  - intros [= -> _]. left.
  - intros H. right. by apply IH.
Qed.

(** Every path that the route of the confirm step matches is matched by the
    route of the reset page, which stands before it. *)
Lemma resolve_never_confirm (path : string) (args : list string) :
  resolve path ≠ Some (ViewResetPasswordConfirm, args).
Proof.
  unfold resolve. generalize (split_path path). intros segs.
  rewrite <- (take_drop 19 urlpatterns), resolve_in_app.
  destruct (resolve_in (take 19 urlpatterns) segs) as [[view args']|] eqn:E.
  - intros [= -> _]. apply resolve_in_view in E. revert E.
    apply (bool_decide_unpack _). by vm_compute.
  - let l := eval vm_compute in (drop 19 urlpatterns) in
    change (drop 19 urlpatterns) with l.
    cbn [resolve_in].
    destruct segs as [|s1 [|s2 [|s3 [|s4 segs]]]]; cbn [match_route]; try done;
      destruct (bool_decide (s1 = "reset-password"%string)); try done;
      destruct (matches_str s2) eqn:Hs2;
      destruct (bool_decide (s2 = "confirm"%string)) eqn:Hc;
      try destruct (bool_decide (s3 = ""%string));
      simpl; try done;
      apply bool_decide_eq_true in Hc; subst s2; by vm_compute in Hs2.
Qed.

Example resolve_cart_add : resolve "cart/add/12/" = Some (ViewCartAdd, ["12"%string]).
Proof. by vm_compute. Qed.

Example resolve_reset_link :
  resolve "reset-password/r4nd0m/" = Some (ViewResetPasswordPage, ["r4nd0m"%string]).
Proof. by vm_compute. Qed.

Example resolve_not_a_number : resolve "cart/add/x1/" = None.
Proof. by vm_compute. Qed.

Example resolve_no_trailing_slash : resolve "reset-password/confirm" = None.
Proof. by vm_compute. Qed.

(** X15: the confirm step cannot be reached through the URLs.  [urlpatterns]
    lists reset-password/<str:token>/ before reset-password/confirm/, so no
    path resolves to [reset_password_confirm]: the path
    reset-password/confirm/ is served by [reset_password_page] with the
    token "confirm".  Unless an unused token is stored under the hash of
    "confirm", a request sent there is answered "Token invalid or expired."
    and changes nothing.  So no sequence of requests sent to the paths of
    the cart, the checkout and the password reset changes any user row: a
    new password posted to reset-password/confirm/ is never set. *)
Theorem confirm_url_reaches_the_reset_page :
  resolve "reset-password/confirm/" = Some (ViewResetPasswordPage, ["confirm"%string]) ∧
  (∀ (path : string) (args : list string),
     resolve path ≠ Some (ViewResetPasswordConfirm, args)) ∧
  (∀ (atomic_requests : bool) (raw_token : string) (now : Z) (request : Request)
     (w : World),
     serve atomic_requests raw_token now "reset-password/confirm/" request w
     = Some (reset_password_page now request "confirm" w) ∧
     (get_unused_token (reset_tokens (db w)) (Sha1.hexdigest "confirm") = None →
      serve atomic_requests raw_token now "reset-password/confirm/" request w
      = Some (render_reset (Some "Token invalid or expired."%string) false, w))) ∧
  (∀ (atomic_requests : bool) (hits : list (string * string * Z * Request))
     (w w' : World),
     serve_all atomic_requests hits w = Some w' →
     users (db w') = users (db w)).
Proof.
  split; [by vm_compute|]. split; [apply resolve_never_confirm|]. split.
  - intros atomic_requests raw_token now request w.
    assert (E : serve atomic_requests raw_token now "reset-password/confirm/" request w
                = Some (reset_password_page now request "confirm" w)).
    { unfold serve.
      replace (resolve "reset-password/confirm/")
        with (Some (ViewResetPasswordPage, ["confirm"%string])) by (by vm_compute).
      done. }
    split; [done|]. intros Hnone. rewrite E. unfold reset_password_page. by rewrite Hnone.
  - intros atomic_requests hits. induction hits as [|[[[path raw_token] now] request] hits IH];
      intros w w'; simpl.
    + by intros [= ->].
    + unfold serve.
      destruct (resolve path) as [[view args]|] eqn:Hview; [|done].
      destruct (op_of atomic_requests raw_token view args) as [op|] eqn:Hop; [|done].
      destruct (perform op now request w) as [response w1] eqn:Hrun.
      intros Hrest. rewrite (IH _ _ Hrest).
      replace w1 with (perform op now request w).2 by (by rewrite Hrun).
      apply perform_keeps_users. intros ->.
      destruct view; try (by destruct args as [|? [|? ?]]; simpl in Hop;
                             try destruct (int_of_str _)).
      destruct args; [|done]. by apply (resolve_never_confirm path []).
Qed.

Lemma confirm_url_reaches_the_reset_page_witness :
  let hits :=
    [("forgot-password/"%string, "r4nd0m"%string, 0,
      Sample.anonymous POST (Sample.email_form "alice@example.com"));
     ("reset-password/r4nd0m/"%string, ""%string, 1000000, Sample.anonymous GET ∅);
     ("reset-password/confirm/"%string, ""%string, 2000000,
      Sample.anonymous POST (Sample.password_form "new" "new"))] in
  serve false "" 2000000 "reset-password/confirm/"
    (Sample.anonymous POST (Sample.password_form "new" "new")) (Sample.opened 1000000)
  = Some (render_reset (Some "Token invalid or expired."%string) false,
          Sample.opened 1000000) ∧
  (users ∘ db) <$> serve_all false hits Sample.world0 = Some (users Sample.db0).
Proof.
  destruct confirm_url_reaches_the_reset_page as (_ & _ & Hserve & Husers).
  split.
  - apply (proj2 (Hserve false ""%string 2000000
                    (Sample.anonymous POST (Sample.password_form "new" "new"))
                    (Sample.opened 1000000))).
    by vm_compute.
  - cbv zeta.
    destruct (serve_all false _ Sample.world0) as [w'|] eqn:E;
      [|vm_compute in E; discriminate].
    simpl. f_equal. exact (Husers false _ Sample.world0 w' E).
Defined.

(** ** The token table *)

Lemma forgot_password_db (raw_token : string) (now : Z) (request : Request) (w : World) :
  db (forgot_password raw_token now request w).2 = db w ∨
  ∃ uid,
    is_Some (users (db w) !! uid) ∧
    db (forgot_password raw_token now request w).2 =
      save_token (Sha1.hexdigest raw_token)
        (mkResetToken uid (Sha1.hexdigest raw_token) (now + ten_minutes) false) (db w).
Proof.
  unfold forgot_password.
  assert (Hget : ∀ e,
            match objects_get (users_with_email e (users (db w))) with
            | Got (uid, u) => users (db w) !! uid = Some u
            | _ => True
            end).
  { intros e. unfold objects_get.
    destruct (users_with_email e (users (db w))) as [|[uid u] [|]] eqn:Erows; try done.
    apply elem_of_map_to_list.
    assert ((uid, u) ∈ users_with_email e (users (db w))) as Hin by (rewrite Erows; left).
    by apply list_elem_of_filter in Hin as [_ Hin]. }
  destruct (req_method request); [by left| |];
    (destruct (decide _); [by left|]);
    (match goal with |- context [objects_get (users_with_email ?e _)] =>
       specialize (Hget e); destruct (objects_get (users_with_email e (users (db w))))
         as [|[uid u]|]; [by left| |by left] end);
    (destruct (reset_tokens (db w) !! Sha1.hexdigest raw_token); [by left|]);
    right; exists uid; (split; [by eexists|done]).
Qed.

(** X16: the token table stays consistent.  If every row is stored under
    its own token_hash and belongs to a user row, then so it is after any
    sequence of requests: no two rows ever share a hash, and no token is
    left without its user. *)
Theorem tokens_stay_consistent (trace : list (Op * Z * Request)) (w : World) :
  tokens_wf (db w) → tokens_wf (db (run_trace trace w)).
Proof.
  revert w. induction trace as [|[[op now] request] trace IH]; intros w Hw; simpl; [done|].
  apply IH. clear IH. unfold tokens_wf in *. destruct op; simpl.
  - unfold cart_add. by destruct (get_active_product _ _).
  - unfold cart_remove. by destruct (dict_get _ _).
  - by destruct (checkout_frame atomic_requests now request w) as [-> ->].
  - destruct (forgot_password_db raw_token now request w) as [->|(uid & Huid & ->)]; [done|].
    simpl. by apply map_Forall_insert_2.
  - destruct (reset_password_page_cases now request token w)
      as [(_ & ->)|[(rt' & _ & _ & _ & ->)|(rt' & _ & _ & _ & ->)]]; simpl; try done.
    by apply map_Forall_delete.
  - destruct (reset_password_confirm_cases now request w)
      as [(_ & ->)|[(_ & _ & ->)|[(_ & _ & _ & _ & ->)
         |[(h' & rt' & _ & _ & _ & _ & _ & ->)
          |(uid & user & h & rt & _ & _ & _ & _ & Hu & _ & Hrt & _ & _ & ->)]]]];
      simpl; try done.
    + by apply map_Forall_delete.
    + assert (Hkeep : ∀ uid', is_Some (users (db w) !! uid') →
                is_Some (<[uid := mkUser (user_username user) (user_email user)
                                    (post_get request "password" "") (user_groups user)]>
                           (users (db w)) !! uid')).
      { intros uid' Hsome. destruct (decide (uid = uid')) as [->|Hne].
        - rewrite lookup_insert_eq. by eexists.
        - by rewrite lookup_insert_ne. }
      apply map_Forall_insert_2.
      * destruct (Hw h rt Hrt) as [Hh Hsome]. simpl. split; [done|]. by apply Hkeep.
      * intros h' rt' Hrt'. destruct (Hw h' rt' Hrt') as [Hh Hsome]. split; [done|].
        by apply Hkeep.
Qed.

Lemma tokens_stay_consistent_witness : tokens_wf (db Sample.redeemed).
Proof.
  apply (tokens_stay_consistent
           [(OpForgotPassword "r4nd0m", 0,
             Sample.anonymous POST (Sample.email_form "alice@example.com"));
            (OpResetPage "r4nd0m", 0, Sample.anonymous GET ∅);
            (OpResetConfirm, 1000000,
             Sample.anonymous POST (Sample.password_form "new" "new"))]
           Sample.world0).
  apply map_Forall_empty.
Defined.

(** ** Vendor views: who may change a store *)

Lemma vendor_only_inr (request : Request) (s : Site) (uid : N) :
  vendor_only request s = inr uid →
  ∃ user, request_user (site_db s) request = Some (uid, user) ∧ _is_vendor user = true.
Proof.
  unfold vendor_only.
  destruct (request_user (site_db s) request) as [[uid' user]|]; [|done].
  destruct (_is_vendor user) eqn:Hv; [|done]. intros [= ->]. by exists user.
Qed.

(** X17: a store is changed only by a vendor who owns it.  When the
    requester is not logged in, is not in the Vendors group, or does not own
    the store (or the store does not exist), [store_edit] and [store_delete]
    leave the site exactly as it was; likewise [product_delete] for a product
    whose store the requester does not own. *)
Theorem only_the_owner_changes_a_store (request : Request) (s : Site) :
  (∀ store_id,
     (∀ uid user store,
        request_user (site_db s) request = Some (uid, user) →
        _is_vendor user = true →
        stores s !! store_id = Some store →
        store_owner store ≠ uid) →
     (store_edit request store_id s).2 = s ∧ (store_delete request store_id s).2 = s) ∧
  (∀ product_id,
     (∀ uid user product store,
        request_user (site_db s) request = Some (uid, user) →
        _is_vendor user = true →
        products (site_db s) !! product_id = Some product →
        stores s !! product_store product = Some store →
        store_owner store ≠ uid) →
     (product_delete request product_id s).2 = s).
Proof.
  split.
  - intros store_id Hnot. unfold store_edit, store_delete.
    destruct (vendor_only request s) as [response|uid] eqn:Hv; [done|].
    apply vendor_only_inr in Hv as (user & Hu & Hvend).
    unfold get_owned_store.
    destruct (stores s !! store_id) as [store|] eqn:Hs; [|done].
    destruct (decide (store_owner store = uid)) as [Ho|]; [|done].
    by destruct (Hnot uid user store Hu Hvend eq_refl).
  - intros product_id Hnot. unfold product_delete.
    destruct (vendor_only request s) as [response|uid] eqn:Hv; [done|].
    apply vendor_only_inr in Hv as (user & Hu & Hvend).
    unfold get_owned_product.
    destruct (products (site_db s) !! product_id) as [product|] eqn:Hp; [|done].
    destruct (stores s !! product_store product) as [store|] eqn:Hs; [|done].
    destruct (decide (store_owner store = uid)) as [Ho|]; [|done].
    by destruct (Hnot uid user product store Hu Hvend eq_refl Hs).
Qed.

(** X18: [store_edit] renames and nothing else.  When it goes through, the
    store keeps its owner and creation time and has the posted name,
    stripped; every other store, and everything outside the Store table, is
    as it was.  A name that is empty once stripped is refused with "Name
    required." and changes nothing. *)
Theorem store_edit_renames_only (request : Request) (store_id : N) (s : Site)
    (uid : N) (store : Store) :
  vendor_only request s = inr uid →
  stores s !! store_id = Some store →
  store_owner store = uid →
  req_method request ≠ GET →
  let name := strip (post_get request "name" "") in
  (name = ""%string →
   store_edit request store_id s =
     (StoreForm "edit" (Some store) (Some "Name required."%string), s)) ∧
  (name ≠ ""%string →
   store_edit request store_id s =
     (Plain (Redirect "vendor_dashboard"),
      mkSite (site_world s)
        (<[store_id := mkStore name (store_owner store) (store_created_at store)]> (stores s))
        (next_store_id s) (reviews s))).
Proof.
  intros Hv Hs Ho Hm name. unfold store_edit, get_owned_store.
  rewrite Hv, Hs, decide_True by done. fold name. split; intros Hn.
  - rewrite decide_True by done. by destruct (req_method request).
  - rewrite decide_False by done. by destruct (req_method request).
Qed.

Lemma only_the_owner_changes_a_store_witness :
  (store_delete (SampleSite.as_walt POST ∅) 1 SampleSite.site0).2 = SampleSite.site0 ∧
  (product_delete (SampleSite.as_walt POST ∅) 2 SampleSite.site0).2 = SampleSite.site0.
Proof.
  destruct (only_the_owner_changes_a_store (SampleSite.as_walt POST ∅) SampleSite.site0)
    as [Hstore Hproduct].
  split.
  - apply (Hstore 1%N). intros uid user store Hu _ Hs.
    vm_compute in Hu. vm_compute in Hs. injection Hu as <- _. injection Hs as <-. done.
  - apply (Hproduct 2%N). intros uid user product store Hu _ Hp Hs.
    vm_compute in Hu. vm_compute in Hp. injection Hu as <- _. injection Hp as <-.
    vm_compute in Hs. injection Hs as <-. done.
Defined.

Lemma store_edit_renames_only_witness :
  stores (store_edit (SampleSite.as_vera POST (SampleSite.name_form " Vera & Co "))
            1 SampleSite.site0).2 !! 1%N
  = Some (mkStore "Vera & Co" 2 0).
Proof.
  destruct (store_edit_renames_only
              (SampleSite.as_vera POST (SampleSite.name_form " Vera & Co "))
              1 SampleSite.site0 2 SampleSite.shop) as [_ Hok];
    [by vm_compute|by vm_compute|done|done|].
  rewrite Hok by (by vm_compute). simpl. rewrite lookup_insert_eq. by vm_compute.
Defined.

(** ** Deleting stores and products *)

Lemma existsb_true {A} (f : A → bool) (l : list A) :
  existsb f l = true ↔ ∃ x, x ∈ l ∧ f x = true.
Proof.
  rewrite existsb_exists. split; intros (x & Hin & Hf); exists x;
    (split; [by apply list_elem_of_In|done]).
Qed.

Lemma existsb_false {A} (f : A → bool) (l : list A) :
  existsb f l = false ↔ Forall (fun x => f x = false) l.
Proof.
  induction l as [|x l IH]; simpl.
  - split; [constructor|done].
  - rewrite orb_false_iff, IH, Forall_cons. done.
Qed.

Lemma in_store_true (ps : gmap N Product) (store_id id : N) :
  in_store ps store_id id = true ↔ ∃ p, ps !! id = Some p ∧ product_store p = store_id.
Proof.
  unfold in_store. destruct (ps !! id) as [p|].
  - rewrite bool_decide_eq_true. split; [by exists p|]. by intros (p' & [= <-] & ?).
  - split; [done|]. by intros (p' & [=] & _).
Qed.

(** X19: [store_delete] by the owner.  While an OrderItem names the store,
    or a product of the store, the delete raises ProtectedError and nothing
    changes.  Otherwise the store row goes, and with it exactly the products
    of that store and the reviews of those products; other stores, other
    products, other reviews, and every order, order item and user stay as
    they were.  The method of the request plays no part. *)
Theorem store_delete_is_protected_or_cascades
    (request : Request) (store_id : N) (s : Site) (uid : N) (store : Store) :
  vendor_only request s = inr uid →
  stores s !! store_id = Some store →
  store_owner store = uid →
  ((∃ item, item ∈ order_items (site_db s) ∧
            (item_store item = store_id ∨
             ∃ p, products (site_db s) !! item_product item = Some p ∧
                  product_store p = store_id)) →
   store_delete request store_id s = (RaisedProtectedError, s)) ∧
  ((∀ item, item ∈ order_items (site_db s) →
            item_store item ≠ store_id ∧
            ∀ p, products (site_db s) !! item_product item = Some p →
                 product_store p ≠ store_id) →
   let s' := (store_delete request store_id s).2 in
   (store_delete request store_id s).1 = Plain (Redirect "vendor_dashboard") ∧
   stores s' = delete store_id (stores s) ∧
   (∀ id p, products (site_db s') !! id = Some p ↔
            products (site_db s) !! id = Some p ∧ product_store p ≠ store_id) ∧
   (∀ r, r ∈ reviews s' ↔
         r ∈ reviews s ∧
         ¬ ∃ p, products (site_db s) !! review_product r = Some p ∧
                product_store p = store_id) ∧
   orders (site_db s') = orders (site_db s) ∧
   order_items (site_db s') = order_items (site_db s) ∧
   users (site_db s') = users (site_db s)).
Proof.
  intros Hv Hs Ho. unfold store_delete, get_owned_store.
  rewrite Hv, Hs, decide_True by done. split.
  - intros (item & Hin & Hitem).
    assert (store_protected (site_db s) store_id = true) as ->; [|done].
    apply existsb_true. exists item. split; [done|]. apply orb_true_iff.
    destruct Hitem as [Hst|Hp]; [left; by apply bool_decide_eq_true|right].
    by apply in_store_true.
  - intros Hfree.
    assert (store_protected (site_db s) store_id = false) as ->.
    { apply existsb_false, Forall_forall. intros item Hin.
      destruct (Hfree item Hin) as [Hst Hp]. apply orb_false_iff. split.
      - by apply bool_decide_eq_false.
      - apply not_true_iff_false. intros (p & Hp' & E)%in_store_true. by apply (Hp p). }
    cbn [fst snd]. split; [done|]. split; [done|]. split; [|split; [|done]].
    + intros id p. unfold delete_store, site_db. simpl.
      by rewrite map_lookup_filter_Some.
    + intros r. unfold delete_store. simpl. rewrite list_elem_of_filter. split.
      * intros [Hf Hin]. split; [done|]. intros Hex%in_store_true.
        unfold site_db in *. congruence.
      * intros [Hin Hno]. split; [|done]. apply not_true_iff_false.
        by intros Hex%in_store_true.
Qed.

Lemma store_delete_is_protected_or_cascades_witness :
  store_delete (SampleSite.as_vera GET ∅) 1 SampleSite.bought
  = (RaisedProtectedError, SampleSite.bought) ∧
  products (site_db (store_delete (SampleSite.as_vera GET ∅) 1 SampleSite.site0).2) !! 1%N
  = None.
Proof.
  destruct (store_delete_is_protected_or_cascades (SampleSite.as_vera GET ∅) 1
              SampleSite.bought 2 SampleSite.shop) as [Hprot _];
    [by vm_compute|by vm_compute|done|].
  destruct (store_delete_is_protected_or_cascades (SampleSite.as_vera GET ∅) 1
              SampleSite.site0 2 SampleSite.shop) as [_ Hfree];
    [by vm_compute|by vm_compute|done|].
  split.
  - apply Hprot. exists (mkOrderItem 1 3 1 1 (Decimal.Dec 1200 (-2))).
    split; [vm_compute; by left|by left].
  - destruct Hfree as (_ & _ & Hps & _).
    { intros item Hin. vm_compute in Hin. by apply elem_of_nil in Hin. }
    destruct (products (site_db (store_delete (SampleSite.as_vera GET ∅) 1
                                   SampleSite.site0).2) !! 1%N) as [p|] eqn:E; [|done].
    apply Hps in E as [E Hne]. vm_compute in E. injection E as <-. by destruct Hne.
Defined.

(** X20: [product_delete] by the owner of the product's store.  While an
    OrderItem names the product the delete raises ProtectedError and nothing
    changes: a product that was bought cannot be deleted.  Otherwise the
    product row and its reviews go, and everything else stays. *)
Theorem product_delete_is_protected_or_cascades
    (request : Request) (product_id : N) (s : Site) (uid : N) (product : Product)
    (store : Store) :
  vendor_only request s = inr uid →
  products (site_db s) !! product_id = Some product →
  stores s !! product_store product = Some store →
  store_owner store = uid →
  ((∃ item, item ∈ order_items (site_db s) ∧ item_product item = product_id) →
   product_delete request product_id s = (RaisedProtectedError, s)) ∧
  ((∀ item, item ∈ order_items (site_db s) → item_product item ≠ product_id) →
   let s' := (product_delete request product_id s).2 in
   (product_delete request product_id s).1 = Plain (Redirect "vendor_dashboard") ∧
   products (site_db s') = delete product_id (products (site_db s)) ∧
   (∀ r, r ∈ reviews s' ↔ r ∈ reviews s ∧ review_product r ≠ product_id) ∧
   stores s' = stores s ∧
   orders (site_db s') = orders (site_db s) ∧
   order_items (site_db s') = order_items (site_db s) ∧
   users (site_db s') = users (site_db s)).
Proof.
  intros Hv Hp Hs Ho. unfold product_delete, get_owned_product.
  rewrite Hv, Hp, Hs, decide_True by done. split.
  - intros (item & Hin & Hitem).
    assert (product_protected (site_db s) product_id = true) as ->; [|done].
    apply existsb_true. exists item. split; [done|]. by apply bool_decide_eq_true.
  - intros Hfree.
    assert (product_protected (site_db s) product_id = false) as ->.
    { apply existsb_false, Forall_forall. intros item Hin.
      apply bool_decide_eq_false. by apply Hfree. }
    cbn [fst snd]. split; [done|]. split; [done|]. split; [|done].
    intros r. unfold delete_product. simpl. rewrite list_elem_of_filter. split.
    + by intros [? ?].
    + by intros [? ?].
Qed.

Lemma product_delete_is_protected_or_cascades_witness :
  product_delete (SampleSite.as_vera GET ∅) 3 SampleSite.bought
  = (RaisedProtectedError, SampleSite.bought) ∧
  products (site_db (product_delete (SampleSite.as_vera GET ∅) 2 SampleSite.bought).2) !! 2%N
  = None.
Proof.
  destruct (product_delete_is_protected_or_cascades (SampleSite.as_vera GET ∅) 3
              SampleSite.bought 2 (decrement_stock Sample.pot 1) SampleSite.shop)
    as [Hprot _];
    [by vm_compute|by vm_compute|by vm_compute|done|].
  destruct (product_delete_is_protected_or_cascades (SampleSite.as_vera GET ∅) 2
              SampleSite.bought 2 Sample.mug SampleSite.shop) as [_ Hfree];
    [by vm_compute|by vm_compute|by vm_compute|done|].
  split.
  - apply Hprot. exists (mkOrderItem 1 3 1 1 (Decimal.Dec 1200 (-2))).
    split; [vm_compute; by left|done].
  - destruct Hfree as (_ & -> & _); [|apply lookup_delete_eq].
    intros item Hin. vm_compute in Hin.
    apply elem_of_cons in Hin as [->|Hin]; [done|].
    apply list_elem_of_singleton in Hin as ->. done.
Defined.

(** ** Order history survives *)

(** The loop leaves every product row in place, with its store, and the
    items it writes name product rows and their stores. *)
Lemma checkout_lines_history (order : Order) (entries : list (string * Z)) (d : Db)
    (lines : list OrderItem) :
  (∀ id, product_store <$> products (checkout_lines order entries d lines).1 !! id
         = product_store <$> products d !! id) ∧
  ∃ new,
    order_items (checkout_lines order entries d lines).1 = order_items d ++ new ∧
    Forall (fun item =>
              ∃ p, products d !! item_product item = Some p ∧
                   item_store item = product_store p)
      new.
Proof.
  revert d lines. induction entries as [|[key qty] entries IH]; intros d lines; simpl.
  { split; [done|]. exists []. by rewrite app_nil_r. }
  destruct (int_of_str key) as [id|]; [|split; [done|exists []; by rewrite app_nil_r]].
  unfold get_active_product.
  destruct (products d !! id) as [p|] eqn:Hp;
    [|split; [done|exists []; by rewrite app_nil_r]].
  destruct (product_is_active p); [|split; [done|exists []; by rewrite app_nil_r]].
  destruct (product_stock_qty p <? qty); [split; [done|exists []; by rewrite app_nil_r]|].
  edestruct IH as (Hstores & new & Hitems & Hnew).
  assert (Hstep : ∀ id', product_store <$> (<[id := decrement_stock p qty]> (products d)) !! id'
                         = product_store <$> products d !! id').
  { intros id'. destruct (decide (id = id')) as [<-|Hne].
    - by rewrite lookup_insert_eq, Hp.
    - by rewrite lookup_insert_ne. }
  split.
  - intros id'. rewrite Hstores. simpl. apply Hstep.
  - eexists (_ :: new). rewrite Hitems. simpl. rewrite <- app_assoc. split; [done|].
    constructor.
    + exists p. by simpl.
    + eapply Forall_impl; [exact Hnew|]. simpl. intros item (p' & Hp' & Hst).
      specialize (Hstep (item_product item)). rewrite Hp' in Hstep. simpl in Hstep.
      destruct (products d !! item_product item) as [p0|]; [|done].
      injection Hstep as Hstep. exists p0. split; [done|]. congruence.
Qed.

(** A request to the views of the world keeps every product row, with its
    store, and appends items that name product rows and their stores. *)
Lemma perform_history (op : Op) (now : Z) (request : Request) (w : World) :
  (∀ id, product_store <$> products (db (perform op now request w).2) !! id
         = product_store <$> products (db w) !! id) ∧
  ∃ new,
    order_items (db (perform op now request w).2) = order_items (db w) ++ new ∧
    Forall (fun item =>
              ∃ p, products (db w) !! item_product item = Some p ∧
                   item_store item = product_store p)
      new.
Proof.
  apply (perform_db_invariant
           (fun d' =>
              (∀ id, product_store <$> products d' !! id = product_store <$> products (db w) !! id) ∧
              ∃ new,
                order_items d' = order_items (db w) ++ new ∧
                Forall (fun item =>
                          ∃ p, products (db w) !! item_product item = Some p ∧
                               item_store item = product_store p)
                  new)).
  - intros d d' Hp _ Hi _. by rewrite Hp, Hi.
  - intros uid now' cart d (Hstores & new & Hitems & Hnew).
    destruct (checkout_lines_history (create_order uid now' d).1 cart
                (create_order uid now' d).2 []) as (Hstores' & new' & Hitems' & Hnew').
    split.
    + intros id. rewrite Hstores'. simpl. apply Hstores.
    + exists (new ++ new'). rewrite Hitems'. simpl. rewrite Hitems, <- app_assoc.
      split; [done|]. apply Forall_app. split; [done|].
      eapply Forall_impl; [exact Hnew'|]. simpl. intros item (p & Hp & Hst).
      specialize (Hstores (item_product item)). rewrite Hp in Hstores. simpl in Hstores.
      destruct (products (db w) !! item_product item) as [p0|]; [|done].
      injection Hstores as Hstores. exists p0. split; [done|]. congruence.
  - split; [done|]. exists []. by rewrite app_nil_r.
Qed.

Lemma history_intact_stores (s : Site) (sts : gmap N Store) (n : N) (rs : list Review) :
  history_intact s →
  (∀ id, is_Some (stores s !! id) → is_Some (sts !! id)) →
  history_intact (mkSite (site_world s) sts n rs).
Proof.
  intros [Hitems Hfk] Hkeep. split.
  - eapply Forall_impl; [exact Hitems|]. simpl. intros item [Hp Hs]. split; [done|].
    by apply Hkeep.
  - intros id p Hp. apply Hkeep. by apply (Hfk id p).
Qed.

Lemma site_perform_history (parse_int : string → option Z) (op : SiteOp) (now : Z)
    (request : Request) (s : Site) :
  history_intact s → history_intact (site_perform parse_int op now request s).
Proof.
  intros Hs. destruct op; simpl.
  - destruct Hs as [Hitems Hfk].
    destruct (perform_history op now request (site_world s)) as (Hstores & new & Hnew & Hall).
    assert (Hsome : ∀ id, is_Some (products (db (site_world s)) !! id) →
                          is_Some (products (db (perform op now request (site_world s)).2) !! id)).
    { intros id [p Hp]. specialize (Hstores id). rewrite Hp in Hstores.
      destruct (products (db (perform op now request (site_world s)).2) !! id); [by eexists|done]. }
    split.
    + unfold site_db. simpl. rewrite Hnew. apply Forall_app. split.
      * eapply Forall_impl; [exact Hitems|]. simpl. intros item [Hp Hst]. split; [|done].
        by apply Hsome.
      * eapply Forall_impl; [exact Hall|]. simpl. intros item (p & Hp & Hst). split.
        -- apply Hsome. by eexists.
        -- rewrite Hst. by apply (Hfk (item_product item) p).
    + unfold site_db. simpl. intros id p' Hp'. specialize (Hstores id).
      rewrite Hp' in Hstores. simpl in Hstores.
      destruct (products (db (site_world s)) !! id) as [p|] eqn:Hp; [|done].
      injection Hstores as ->. by apply (Hfk id p).
  - unfold store_create. destruct (vendor_only request s) as [response|uid]; [done|].
    destruct (req_method request); try done;
      (destruct (decide _); [done|]; simpl; apply history_intact_stores; [done|];
       intros id Hid; destruct (decide (next_store_id s = id)) as [<-|Hne];
       [rewrite lookup_insert_eq; by eexists|by rewrite lookup_insert_ne]).
  - unfold store_edit. destruct (vendor_only request s) as [response|uid]; [done|].
    destruct (get_owned_store s store_id uid) as [owned|]; [|done].
    destruct (req_method request); try done;
      (destruct (decide _); [done|]; simpl; apply history_intact_stores; [done|];
       intros id Hid; destruct (decide (store_id = id)) as [<-|Hne];
       [rewrite lookup_insert_eq; by eexists|by rewrite lookup_insert_ne]).
  - unfold store_delete. destruct (vendor_only request s) as [response|uid]; [done|].
    destruct (get_owned_store s store_id uid) as [owned|]; [|done].
    destruct (store_protected (site_db s) store_id) eqn:Hprot; [done|]. simpl.
    destruct Hs as [Hitems Hfk].
    apply existsb_false in Hprot. rewrite Forall_forall in Hprot, Hitems.
    split.
    + apply Forall_forall. intros item Hin. unfold site_db in *. simpl in *.
      destruct (Hitems item Hin) as [[p Hp] Hst].
      specialize (Hprot item Hin). apply orb_false_iff in Hprot as [Hne Hno].
      apply bool_decide_eq_false in Hne.
      split.
      * exists p. apply map_lookup_filter_Some. split; [done|]. simpl.
        intros Hps. apply not_true_iff_false in Hno. apply Hno, in_store_true. by exists p.
      * by rewrite lookup_delete_ne.
    + unfold site_db in *. simpl. intros id p [Hp Hne]%map_lookup_filter_Some.
      simpl in Hne. rewrite lookup_delete_ne by done. by apply (Hfk id p).
  - unfold product_delete. destruct (vendor_only request s) as [response|uid]; [done|].
    destruct (get_owned_product s product_id uid) as [owned|]; [|done].
    destruct (product_protected (site_db s) product_id) eqn:Hprot; [done|]. simpl.
    destruct Hs as [Hitems Hfk].
    apply existsb_false in Hprot. rewrite Forall_forall in Hprot, Hitems.
    split.
    + apply Forall_forall. intros item Hin. unfold site_db in *. simpl in *.
      destruct (Hitems item Hin) as [Hp Hst]. split; [|done].
      specialize (Hprot item Hin). apply bool_decide_eq_false in Hprot.
      by rewrite lookup_delete_ne.
    + unfold site_db in *. simpl. intros id p Hp.
      apply lookup_delete_Some in Hp as [_ Hp]. by apply (Hfk id p).
  - unfold review_add.
    destruct (request_user (site_db s) request) as [[uid user]|]; [|done].
    destruct (_is_buyer user); [|done]. simpl.
    destruct (get_active_product _ _) as [active|]; [|done].
    destruct (req_method request); try done.
    destruct (parse_int _) as [rating|]; [|done]. simpl. by apply history_intact_stores.
Qed.

(** X21: order history survives.  If every OrderItem's product and store
    rows exist (and every product's store row), they still exist after any
    sequence of requests to the cart, checkout, reset, vendor and review
    views: checkout writes items that name rows that are there, and no
    delete removes a row that an item names. *)
Theorem order_history_survives (parse_int : string → option Z)
    (trace : list (SiteOp * Z * Request)) (s : Site) :
  history_intact s → history_intact (site_run parse_int trace s).
Proof.
  revert s. induction trace as [|[[op now] request] trace IH]; intros s Hs; simpl; [done|].
  by apply IH, site_perform_history.
Qed.

Lemma sample_history_intact : history_intact SampleSite.site0.
Proof.
  split; [constructor|].
  change (products (site_db SampleSite.site0)) with (products Sample.db0).
  unfold Sample.db0. cbn [products].
  repeat (apply map_Forall_insert_2; [vm_compute; by eexists|]).
  apply map_Forall_empty.
Defined.

Lemma order_history_survives_witness :
  history_intact
    (site_run SampleSite.parse_int
       [(OpWorld (OpCartAdd 3), 0, Sample.as_alice GET ∅);
        (OpWorld (OpCheckout false), 1, Sample.as_alice POST ∅);
        (OpStoreDelete 1, 2, SampleSite.as_vera POST ∅);
        (OpProductDelete 3, 3, SampleSite.as_vera POST ∅)]
       SampleSite.site0).
Proof. apply order_history_survives. exact sample_history_intact. Defined.

(** ** Reviews *)

Lemma has_bought_true (d : Db) (uid product_id : N) :
  has_bought d uid product_id = true ↔
  ∃ item o,
    item ∈ order_items d ∧ item_product item = product_id ∧
    o ∈ orders d ∧ order_id o = item_order item ∧ order_buyer o = uid.
Proof.
  unfold has_bought. rewrite existsb_true. split.
  - intros (item & Hin & Hb). apply andb_true_iff in Hb as [Hp Ho].
    apply bool_decide_eq_true in Hp. apply existsb_true in Ho as (o & Ho & Hb).
    apply andb_true_iff in Hb as [Hid Hbuyer].
    apply bool_decide_eq_true in Hid. apply bool_decide_eq_true in Hbuyer.
    by exists item, o.
  - intros (item & o & Hin & Hp & Ho & Hid & Hbuyer). exists item. split; [done|].
    apply andb_true_iff. split; [by apply bool_decide_eq_true|].
    apply existsb_true. exists o. split; [done|].
    apply andb_true_iff. split; by apply bool_decide_eq_true.
Qed.

(** X22: what [review_add] stores.  A POST by a logged-in buyer for an
    active product, with a rating that [int] accepts, appends exactly one
    review: for that product and buyer, with the rating clamped into 1..5
    (below 1 becomes 1, above 5 becomes 5), the comment stripped, and the
    verified flag set exactly when an order item of one of the buyer's
    orders names the product.  Nothing else changes. *)
Theorem review_add_stores_a_clamped_review
    (parse_int : string → option Z) (now : Z) (request : Request) (product_id : N)
    (s : Site) (uid : N) (user : User) (product : Product) (rating : Z) :
  request_user (site_db s) request = Some (uid, user) →
  "Buyers"%string ∈ user_groups user →
  get_active_product (products (site_db s)) product_id = Some product →
  req_method request = POST →
  parse_int (post_get request "rating" "5") = Some rating →
  ∃ review,
    review_add parse_int now request product_id s =
      (RedirectProductDetail product_id,
       mkSite (site_world s) (stores s) (next_store_id s) (reviews s ++ [review])) ∧
    review_product review = product_id ∧
    review_buyer review = uid ∧
    1 ≤ review_rating review ≤ 5 ∧
    (1 ≤ rating ≤ 5 → review_rating review = rating) ∧
    (rating < 1 → review_rating review = 1) ∧
    (5 < rating → review_rating review = 5) ∧
    review_comment review = strip (post_get request "comment" "") ∧
    (review_verified review = true ↔
     ∃ item o,
       item ∈ order_items (site_db s) ∧ item_product item = product_id ∧
       o ∈ orders (site_db s) ∧ order_id o = item_order item ∧ order_buyer o = uid).
Proof.
  intros Hu Hb Hp Hm Hr. unfold review_add, _is_buyer.
  rewrite Hu, bool_decide_eq_true_2, Hp, Hm, Hr by done. simpl.
  eexists. split; [done|]. simpl.
  repeat split; try lia. apply has_bought_true. apply has_bought_true.
Qed.

Lemma review_add_stores_a_clamped_review_witness :
  (∃ review,
     reviews (review_add SampleSite.parse_int 5
                (Sample.as_alice POST (SampleSite.rating_form "9")) 3 SampleSite.bought).2
     = [review] ∧
     review_rating review = 5) ∧
  (∃ review,
     reviews (review_add SampleSite.parse_int 5
                (Sample.as_alice POST (SampleSite.rating_form "-2")) 2 SampleSite.bought).2
     = [review] ∧
     review_rating review = 1).
Proof.
  split.
  - destruct (review_add_stores_a_clamped_review SampleSite.parse_int 5
                (Sample.as_alice POST (SampleSite.rating_form "9")) 3 SampleSite.bought
                1 Sample.alice (decrement_stock Sample.pot 1) 9)
      as (review & Hrun & _ & _ & _ & _ & _ & Hhigh & _);
      [by vm_compute|vm_compute; by left|by vm_compute|done|by vm_compute|].
    exists review. rewrite Hrun. split; [done|]. by apply Hhigh.
  - destruct (review_add_stores_a_clamped_review SampleSite.parse_int 5
                (Sample.as_alice POST (SampleSite.rating_form "-2")) 2 SampleSite.bought
                1 Sample.alice Sample.mug (-2))
      as (review & Hrun & _ & _ & _ & _ & Hlow & _);
      [by vm_compute|vm_compute; by left|by vm_compute|done|by vm_compute|].
    exists review. rewrite Hrun. split; [done|]. by apply Hlow.
Defined.

(** X23: the refusals of [review_add].  A request with no known user is
    sent to login, a user outside the Buyers group gets "Buyers only.", a
    missing or inactive product raises Http404, a request that is not a POST
    is redirected to the product page, and a rating that [int] rejects
    raises ValueError.  In every one of these cases no review is stored and
    nothing else changes. *)
Theorem review_add_refusals (parse_int : string → option Z) (now : Z) (request : Request)
    (product_id : N) (s : Site) :
  (request_user (site_db s) request = None →
   review_add parse_int now request product_id s = (Plain (Redirect "/login/"), s)) ∧
  (∀ uid user,
     request_user (site_db s) request = Some (uid, user) →
     "Buyers"%string ∉ user_groups user →
     review_add parse_int now request product_id s =
       (Plain (HttpResponseForbidden "Buyers only."), s)) ∧
  (∀ uid user,
     request_user (site_db s) request = Some (uid, user) →
     "Buyers"%string ∈ user_groups user →
     get_active_product (products (site_db s)) product_id = None →
     review_add parse_int now request product_id s = (Plain (Raised Http404), s)) ∧
  (∀ uid user product,
     request_user (site_db s) request = Some (uid, user) →
     "Buyers"%string ∈ user_groups user →
     get_active_product (products (site_db s)) product_id = Some product →
     (req_method request ≠ POST →
      review_add parse_int now request product_id s = (RedirectProductDetail product_id, s)) ∧
     (req_method request = POST →
      parse_int (post_get request "rating" "5") = None →
      review_add parse_int now request product_id s = (Plain (Raised ValueError), s))).
Proof.
  unfold review_add, _is_buyer. split; [|split; [|split]].
  - by intros ->.
  - intros uid user -> Hno. by rewrite bool_decide_eq_false_2.
  - intros uid user -> Hin ->. by rewrite bool_decide_eq_true_2.
  - intros uid user product -> Hin ->. rewrite bool_decide_eq_true_2 by done. simpl. split.
    + intros Hm. by destruct (req_method request).
    + by intros -> ->.
Qed.

Lemma review_add_refusals_witness :
  review_add SampleSite.parse_int 5 (Sample.as_alice POST (SampleSite.rating_form "five"))
    3 SampleSite.site0
  = (Plain (Raised ValueError), SampleSite.site0) ∧
  review_add SampleSite.parse_int 5 (SampleSite.as_vera POST (SampleSite.rating_form "5"))
    3 SampleSite.site0
  = (Plain (HttpResponseForbidden "Buyers only."), SampleSite.site0).
Proof.
  destruct (review_add_refusals SampleSite.parse_int 5
              (Sample.as_alice POST (SampleSite.rating_form "five")) 3 SampleSite.site0)
    as (_ & _ & _ & Hlast).
  destruct (review_add_refusals SampleSite.parse_int 5
              (SampleSite.as_vera POST (SampleSite.rating_form "5")) 3 SampleSite.site0)
    as (_ & Hbuyer & _).
  split.
  - apply (Hlast 1%N Sample.alice Sample.pot);
      [by vm_compute|vm_compute; by left|by vm_compute|done|by vm_compute].
  - apply (Hbuyer 2%N Sample.vera); [by vm_compute|].
    vm_compute. intros Hin. apply list_elem_of_singleton in Hin. discriminate.
Defined.

Lemma site_perform_ratings (parse_int : string → option Z) (op : SiteOp) (now : Z)
    (request : Request) (s : Site) :
  ratings_valid s → ratings_valid (site_perform parse_int op now request s).
Proof.
  unfold ratings_valid. intros Hs. destruct op; simpl; try done.
  - unfold store_create. destruct (vendor_only request s) as [response|uid]; [done|].
    destruct (req_method request); try done; by destruct (decide _).
  - unfold store_edit. destruct (vendor_only request s) as [response|uid]; [done|].
    destruct (get_owned_store s store_id uid) as [owned|]; [|done].
    destruct (req_method request); try done; by destruct (decide _).
  - unfold store_delete. destruct (vendor_only request s) as [response|uid]; [done|].
    destruct (get_owned_store s store_id uid) as [owned|]; [|done].
    destruct (store_protected (site_db s) store_id); [done|]. simpl.
    apply Forall_forall. intros r [_ Hin]%list_elem_of_filter.
    rewrite Forall_forall in Hs. by apply Hs.
  - unfold product_delete. destruct (vendor_only request s) as [response|uid]; [done|].
    destruct (get_owned_product s product_id uid) as [owned|]; [|done].
    destruct (product_protected (site_db s) product_id); [done|]. simpl.
    apply Forall_forall. intros r [_ Hin]%list_elem_of_filter.
    rewrite Forall_forall in Hs. by apply Hs.
  - unfold review_add.
    destruct (request_user (site_db s) request) as [[uid user]|]; [|done].
    destruct (_is_buyer user); [|done]. simpl.
    destruct (get_active_product _ _) as [active|]; [|done].
    destruct (req_method request); try done.
    destruct (parse_int _) as [rating|]; [|done]. simpl.
    apply Forall_app. split; [done|]. constructor; [simpl; lia|constructor].
Qed.

(** X24: ratings stay within 1..5.  Whatever [int] makes of the posted
    ratings, if every stored review has a rating from 1 to 5 then so has
    every stored review after any sequence of requests. *)
Theorem ratings_stay_valid (parse_int : string → option Z)
    (trace : list (SiteOp * Z * Request)) (s : Site) :
  ratings_valid s → ratings_valid (site_run parse_int trace s).
Proof.
  revert s. induction trace as [|[[op now] request] trace IH]; intros s Hs; simpl; [done|].
  by apply IH, site_perform_ratings.
Qed.

Lemma ratings_stay_valid_witness :
  ratings_valid
    (site_run SampleSite.parse_int
       [(OpReviewAdd 3, 0, Sample.as_alice POST (SampleSite.rating_form "9"));
        (OpReviewAdd 1, 1, Sample.as_alice POST (SampleSite.rating_form "-7"))]
       SampleSite.site0).
Proof. apply ratings_stay_valid. constructor. Defined.

(** X25: a purchase makes the review verified.  After a checkout that
    completes, the buyer has bought every product that a line of the cart
    names; so a review that the buyer then posts for such a product (still
    active, the rating accepted) is stored with verified = true. *)
Theorem review_after_purchase_is_verified
    (parse_int : string → option Z) (atomic_requests : bool) (t0 t1 : Z)
    (buy post : Request) (s : Site) (uid : N) (user : User) (response : Response)
    (w' : World) (key : string) (qty : Z) (product_id : N) :
  request_user (site_db s) buy = Some (uid, user) →
  checkout atomic_requests t0 buy (site_world s) = (response, w') →
  is_success response = true →
  (key, qty) ∈ _get_cart (session (site_world s)) →
  int_of_str key = Some product_id →
  has_bought (db w') uid product_id = true ∧
  ∀ user' product rating,
    request_user (db w') post = Some (uid, user') →
    "Buyers"%string ∈ user_groups user' →
    get_active_product (products (db w')) product_id = Some product →
    req_method post = POST →
    parse_int (post_get post "rating" "5") = Some rating →
    reviews (review_add parse_int t1 post product_id (set_world w' s)).2 =
      reviews s ++
      [mkReview product_id uid (Z.max 1 (Z.min 5 rating))
         (strip (post_get post "comment" "")) true t1].
Proof.
  intros Hu Hrun Hok Hin Hkey.
  assert (Hb : has_bought (db w') uid product_id = true).
  { destruct (checkout_cases atomic_requests t0 buy (site_world s))
      as [(Hno & _)|(uid' & user0 & order & d1 & d2 & lines & Hu' & _ & Hcreate & Hloop & E)].
    { rewrite Hrun in Hno. simpl in Hno. congruence. }
    unfold site_db in Hu. rewrite Hu in Hu'. injection Hu' as <- <-.
    rewrite Hrun in E. injection E as -> ->. simpl.
    destruct (checkout_lines_ok _ _ _ _ _ _ Hloop)
      as (new & Hnew & Hitems & _ & Hids & _ & Hord & Horders & _).
    simpl in Hnew. subst new.
    assert (Some product_id ∈ cart_ids (_get_cart (session (site_world s)))) as Hid.
    { unfold cart_ids. apply list_elem_of_In, in_map_iff. exists (key, qty).
      split; [done|]. by apply list_elem_of_In. }
    rewrite <- Hids in Hid. apply list_elem_of_In, in_map_iff in Hid as (item & Hp & Hitem).
    apply list_elem_of_In in Hitem. injection Hp as Hp.
    apply has_bought_true. exists item, order. split; [|split; [done|split; [|split]]].
    - rewrite Hitems. apply elem_of_app. by right.
    - rewrite Horders. assert (d1 = (create_order uid t0 (db (site_world s))).2) as ->
        by (by rewrite Hcreate).
      assert (order = (create_order uid t0 (db (site_world s))).1) as ->
        by (by rewrite Hcreate).
      simpl. apply elem_of_app. right. by left.
    - rewrite Forall_forall in Hord. symmetry. by apply Hord.
    - by assert (order = (create_order uid t0 (db (site_world s))).1) as ->
        by (by rewrite Hcreate). }
  split; [done|].
  intros user' product rating Hu' Hbuyer Hp Hm Hr.
  unfold review_add, _is_buyer, site_db. simpl.
  by rewrite Hu', bool_decide_eq_true_2, Hp, Hm, Hr, Hb.
Qed.

Lemma review_after_purchase_is_verified_witness :
  has_bought (site_db SampleSite.bought) 1 3 = true.
Proof.
  refine (proj1 (review_after_purchase_is_verified SampleSite.parse_int false 0 1
                   (Sample.as_alice POST ∅) (Sample.as_alice POST ∅)
                   (set_world (set_session (session Sample.pot_then_tea)
                                 (site_world SampleSite.site0)) SampleSite.site0)
                   1 Sample.alice
                   (checkout false 0 (Sample.as_alice POST ∅)
                      (set_session (session Sample.pot_then_tea)
                         (site_world SampleSite.site0))).1
                   (site_world SampleSite.bought)
                   "3" 1 3 _ _ _ _ _)).
  - by vm_compute.
  - by vm_compute.
  - by vm_compute.
  - vm_compute. by left.
  - by vm_compute.
Defined.

(** ** The stored hash *)

Lemma string_length_app (s1 s2 : string) :
  String.length (s1 +:+ s2) = (String.length s1 + String.length s2)%nat.
Proof. induction s1 as [|c s1 IH]; simpl; [done|]. by rewrite IH. Qed.

Lemma hex_word_length (x : Z) : String.length (Sha1.hex_word x) = 8%nat.
Proof. reflexivity. Qed.

(** X26: the hash fits its column.  The digest that [forgot_password]
    stores as token_hash, and that the reset page computes from the link,
    always has 40 characters, within the 64 that the column allows. *)
Theorem token_hash_has_40_characters (raw_token : string) :
  String.length (Sha1.hexdigest raw_token) = 40%nat ∧
  (String.length (Sha1.hexdigest raw_token) ≤ 64)%nat.
Proof.
  assert (String.length (Sha1.hexdigest raw_token) = 40%nat) as ->; [|split; [done|lia]].
  unfold Sha1.hexdigest. by rewrite !string_length_app, !hex_word_length.
Qed.

(** ** Creating a store *)

(** X27: [store_create].  A vendor who posts a name that is not empty once
    stripped gets a new store row under the next id, owned by that vendor,
    with the stripped name; the stores that were there stay as they were
    (the next id being free), and nothing else changes.  A blank name is
    refused with "Store name required."; a requester who is not a vendor
    changes nothing. *)
Theorem store_create_adds_an_owned_store (now : Z) (request : Request) (s : Site) :
  (∀ uid,
     vendor_only request s = inr uid →
     req_method request ≠ GET →
     let name := strip (post_get request "name" "") in
     (name = ""%string →
      store_create now request s =
        (StoreForm "create" None (Some "Store name required."%string), s)) ∧
     (name ≠ ""%string →
      stores s !! next_store_id s = None →
      let s' := (store_create now request s).2 in
      (store_create now request s).1 = Plain (Redirect "vendor_dashboard") ∧
      stores s' !! next_store_id s = Some (mkStore name uid now) ∧
      (∀ id store, stores s !! id = Some store → stores s' !! id = Some store) ∧
      site_world s' = site_world s ∧ reviews s' = reviews s)) ∧
  (∀ response, vendor_only request s = inl response →
               store_create now request s = (response, s)).
Proof.
  split.
  - intros uid Hv Hm name. split.
    + intros Hn. unfold store_create. rewrite Hv. fold name.
      rewrite decide_True by done. by destruct (req_method request).
    + intros Hn Hfree. unfold store_create. rewrite Hv. fold name.
      rewrite decide_False by done.
      destruct (req_method request); try done; simpl;
        (split; [done|]; split; [apply lookup_insert_eq|]; split; [|done];
         intros id store Hs; rewrite lookup_insert_ne; [done|]; intros <-; congruence).
  - intros response Hv. unfold store_create. by rewrite Hv.
Qed.

Lemma store_create_adds_an_owned_store_witness :
  stores (store_create 7 (SampleSite.as_walt POST (SampleSite.name_form "Annex"))
            SampleSite.site0).2 !! 3%N
  = Some (mkStore "Annex" 3 7) ∧
  store_create 7 (Sample.as_alice POST (SampleSite.name_form "Annex")) SampleSite.site0
  = (Plain (HttpResponseForbidden "Vendors only."), SampleSite.site0).
Proof.
  destruct (store_create_adds_an_owned_store 7
              (SampleSite.as_walt POST (SampleSite.name_form "Annex")) SampleSite.site0)
    as [Hok _].
  destruct (store_create_adds_an_owned_store 7
              (Sample.as_alice POST (SampleSite.name_form "Annex")) SampleSite.site0)
    as [_ Hno].
  split.
  - destruct (Hok 3%N) as [_ Hnew]; [by vm_compute|done|].
    destruct Hnew as (_ & Hstore & _); [by vm_compute|by vm_compute|].
    refine (eq_trans Hstore _). by vm_compute.
  - apply Hno. by vm_compute.
Defined.
